(** * The RPC Messenger of yb/rpc/messenger.cc, embedded in Rocq

    The development follows [Messenger] method by method.  A messenger is a
    record of the member variables the methods read and write; a method is an
    [Action]: a function from the messenger before the call to its outcome,
    which is either a normal return (value, messenger after the call, and the
    calls made on collaborating objects, in program order), a failed [CHECK]
    (the process aborts), or undefined behaviour (a remainder by zero, an
    index outside [reactors_]).

    Conventions.
    - [DCHECK]s are compiled out of release builds.  The one that a caller
      can fail on a messenger in working order,
      [DCHECK(rpc_services_.empty())] of [Shutdown], is modelled: the build
      is the parameter [NDEBUG] of the methods, and in the debug build the
      check is made.  The others, which are about a messenger without
      reactors and about null arguments, are recorded as comments at
      their places.  [CHECK]s are always compiled in and are modelled.
    - A method body is one transition of the messenger.  Where a method
      leaves its critical section before it calls collaborators the place is
      marked in a comment; the one call that blocks, the wait of
      [BreakConnectivityWith] on its latch, is run against the reactor
      threads in [Rendezvous].
    - Collaborators whose code is elsewhere ([Reactor], [Acceptor],
      [RpcService], [DelayedTask], the calls) are handles; a call on one of
      them is an [Event] of the trace.
    - What a method reads from its environment is an argument of its
      embedding: the value of [rand()], whether the calling thread is the
      thread of a reactor, the address of a newly allocated latch.
    - The methods embedded are [RemoteToReactor], [Shutdown],
      [BreakConnectivityWith], [RestoreConnectivityWith],
      [IsArtificiallyDisconnectedFrom], [ShutdownAcceptor], [RegisterService],
      [UnregisterAllServices], [UnregisterService], [QueueOutboundCall],
      [QueueInboundCall], [Handle], [RemoveScheduledTask], [AbortOnReactor],
      [ScheduleOnReactor], [UpdateServicesCache] and [rpc_service].
    - The rest of the class is embedded over [MessengerObject], the
      messenger with its remaining members: the constructor and the
      destructor, [MessengerBuilder] and its [Build], [Init],
      [AllExternalReferencesDropped], [ListenAddress], [StartAcceptor],
      [RegisterInboundSocket], [DumpRunningRpcs], [QueueEventOnAllReactors]
      and [max_concurrent_requests].  A method of the first part runs on the
      whole object by [lift].
    - The administration tool of yb-admin_cli.cc, which builds such a
      messenger, is embedded in [Admin]: the lookups of the tablet leader
      and of the address of a server, [ChangeConfig], the listing of the
      servers of a tablet, and the dispatch of the command line. *)

From Stdlib Require Import ZArith Lia.
From stdpp Require Import base gmap strings pretty list fin_maps.

Local Open Scope Z_scope.

(** ** Machine integers *)

(** Conversion to [uint32_t]. *)
Definition to_uint32 (z : Z) : Z := z mod 2 ^ 32.

(** Conversion to [size_t] (64 bits). *)
Definition to_size_t (z : Z) : Z := z mod 2 ^ 64.

(** [INT_MAX] and conversion to [int] (two's complement). *)
Definition INT_MAX : Z := 2 ^ 31 - 1.
Definition to_int (z : Z) : Z := (z + 2 ^ 31) mod 2 ^ 32 - 2 ^ 31.

(** Conversion to [int64_t] (two's complement). *)
Definition to_int64 (z : Z) : Z := (z + 2 ^ 63) mod 2 ^ 64 - 2 ^ 63.

(** ** Statuses *)

Inductive StatusCode :=
  | kOk
  | kAlreadyPresent
  | kServiceUnavailable
  | kNetworkError
  | kAborted
  | kIllegalState.

Record Status := STATUS { code : StatusCode; message : string }.

Definition Status_OK : Status := STATUS kOk "".

(** [ErrorStatusPB::RpcErrorCodePB], the one value the messenger uses. *)
Inductive RpcErrorCodePB := ERROR_NO_SUCH_SERVICE.

(** ** Addresses, calls and collaborators *)

(** [IpAddress]: a version 4 or version 6 address, by its numeric value. *)
Inductive IpAddress :=
  | IpV4 (bits : Z)
  | IpV6 (bits : Z).

Record Endpoint := mkEndpoint { address : IpAddress; port : Z }.

Record ConnectionId := mkConnectionId { remote : Endpoint; idx : Z }.

Record OutboundCall := mkOutboundCall { call_id : Z; conn_id : ConnectionId }.

Record InboundCall := mkInboundCall { inbound_id : Z; service_name : string }.

(** [Reactor*]: reactor number [i] of [new Reactor(retain_self_, i, bld)]. *)
Record Reactor := mkReactor { reactor_index : nat }.

(** [Acceptor*], [scoped_refptr<RpcService>] (never null: [RegisterService]
    has [DCHECK(service)]) and [std::function<void(const Status&)>]. *)
Record Acceptor := mkAcceptor { acceptor_tag : nat }.
Record RpcService := mkRpcService { service_tag : nat }.
Record Functor := mkFunctor { functor_tag : nat }.

(** [DelayedTask(func, when, id, messenger)]; [task_messenger] tells whether
    the [shared_ptr<Messenger>] given to the constructor is non-null. *)
Record DelayedTask := mkDelayedTask {
  task_func : Functor;
  task_when : Z;
  task_id : Z;
  task_messenger : bool
}.

(** [new CountDownLatch(count)]; [latch_addr] is the address of the new
    object, which tells two latches of the same count apart. *)
Record CountDownLatch := mkCountDownLatch { latch_addr : nat; latch_count : nat }.

(** What the messenger hands to [Reactor::ScheduleReactorTask]: one of the
    two functors built with [MakeFunctorReactorTask], or a [DelayedTask]. *)
Inductive ReactorTask :=
  | TransferredFunctor (call : OutboundCall) (s : Status)
      (* [call](Reactor* ) { call->Transferred(s, nullptr); } *)
  | DropFunctor (latch : CountDownLatch) (addr : IpAddress)
      (* [&latch, address](Reactor* reactor) {
           reactor->DropWithRemoteAddress(address); latch->CountDown(); } *)
  | DelayedReactorTask (task : DelayedTask).

(** Calls on collaborators. *)
Inductive Event :=
  | Acceptor_Shutdown (a : Acceptor)
  | Reactor_Shutdown (r : Reactor)
  | Reactor_Join (r : Reactor)
  | Scheduler_Shutdown
  | IoThreadPool_Shutdown
  | IoThreadPool_Join
  | Reactor_ScheduleReactorTask (r : Reactor) (t : ReactorTask)
  | Reactor_QueueOutboundCall (r : Reactor) (call : OutboundCall)
  | Reactor_DropWithRemoteAddress (r : Reactor) (addr : IpAddress)
  | RpcService_QueueInboundCall (svc : RpcService) (call : InboundCall)
  | RpcService_Handle (svc : RpcService) (call : InboundCall)
  | InboundCall_RespondFailure (call : InboundCall) (err : RpcErrorCodePB) (s : Status)
  | OutboundCall_Transferred (call : OutboundCall) (s : Status)
  | DelayedTask_AbortTask (task : DelayedTask) (s : Status)
  | CountDownLatch_new (latch : CountDownLatch)
  | CountDownLatch_CountDown (latch : CountDownLatch)
  | CountDownLatch_Wait (latch : CountDownLatch).

#[global] Instance StatusCode_eq_dec : EqDecision StatusCode.
Proof. solve_decision. Defined.
#[global] Instance Status_eq_dec : EqDecision Status.
Proof. solve_decision. Defined.
#[global] Instance IpAddress_eq_dec : EqDecision IpAddress.
Proof. solve_decision. Defined.
#[global] Instance IpAddress_countable : Countable IpAddress.
Proof.
  refine (inj_countable'
            (fun a => match a with IpV4 b => inl b | IpV6 b => inr b end)
            (fun s => match s with inl b => IpV4 b | inr b => IpV6 b end) _).
  intros []; reflexivity.
Defined.
#[global] Instance Endpoint_eq_dec : EqDecision Endpoint.
Proof. solve_decision. Defined.
#[global] Instance ConnectionId_eq_dec : EqDecision ConnectionId.
Proof. solve_decision. Defined.
#[global] Instance OutboundCall_eq_dec : EqDecision OutboundCall.
Proof. solve_decision. Defined.
#[global] Instance InboundCall_eq_dec : EqDecision InboundCall.
Proof. solve_decision. Defined.
#[global] Instance Reactor_eq_dec : EqDecision Reactor.
Proof. solve_decision. Defined.
#[global] Instance Functor_eq_dec : EqDecision Functor.
Proof. solve_decision. Defined.
#[global] Instance DelayedTask_eq_dec : EqDecision DelayedTask.
Proof. solve_decision. Defined.
#[global] Instance CountDownLatch_eq_dec : EqDecision CountDownLatch.
Proof. solve_decision. Defined.
#[global] Instance ReactorTask_eq_dec : EqDecision ReactorTask.
Proof. solve_decision. Defined.

(** ** The messenger *)

Record Messenger := mkMessenger {
  name_ : string;
  reactors_ : list Reactor;                       (* std::vector<Reactor*> *)
  acceptor_ : option Acceptor;                    (* std::unique_ptr<Acceptor> *)
  rpc_services_ : gmap string RpcService;
  rpc_services_cache_ : gmap string RpcService;   (* the published copy *)
  scheduled_tasks_ : gmap Z DelayedTask;
  next_task_id_ : Z;                              (* std::atomic<int64_t> *)
  broken_connectivity_ : gset IpAddress;
  has_broken_connectivity_ : bool;                (* std::atomic<bool> *)
  closing_ : bool
}.

Definition set_acceptor_ (v : option Acceptor) (m : Messenger) : Messenger :=
  mkMessenger (name_ m) (reactors_ m) v (rpc_services_ m) (rpc_services_cache_ m)
    (scheduled_tasks_ m) (next_task_id_ m) (broken_connectivity_ m)
    (has_broken_connectivity_ m) (closing_ m).

Definition set_rpc_services_ (v : gmap string RpcService) (m : Messenger) : Messenger :=
  mkMessenger (name_ m) (reactors_ m) (acceptor_ m) v (rpc_services_cache_ m)
    (scheduled_tasks_ m) (next_task_id_ m) (broken_connectivity_ m)
    (has_broken_connectivity_ m) (closing_ m).

Definition set_rpc_services_cache_ (v : gmap string RpcService) (m : Messenger) : Messenger :=
  mkMessenger (name_ m) (reactors_ m) (acceptor_ m) (rpc_services_ m) v
    (scheduled_tasks_ m) (next_task_id_ m) (broken_connectivity_ m)
    (has_broken_connectivity_ m) (closing_ m).

Definition set_scheduled_tasks_ (v : gmap Z DelayedTask) (m : Messenger) : Messenger :=
  mkMessenger (name_ m) (reactors_ m) (acceptor_ m) (rpc_services_ m)
    (rpc_services_cache_ m) v (next_task_id_ m) (broken_connectivity_ m)
    (has_broken_connectivity_ m) (closing_ m).

Definition set_next_task_id_ (v : Z) (m : Messenger) : Messenger :=
  mkMessenger (name_ m) (reactors_ m) (acceptor_ m) (rpc_services_ m)
    (rpc_services_cache_ m) (scheduled_tasks_ m) v (broken_connectivity_ m)
    (has_broken_connectivity_ m) (closing_ m).

Definition set_broken_connectivity_ (v : gset IpAddress) (m : Messenger) : Messenger :=
  mkMessenger (name_ m) (reactors_ m) (acceptor_ m) (rpc_services_ m)
    (rpc_services_cache_ m) (scheduled_tasks_ m) (next_task_id_ m) v
    (has_broken_connectivity_ m) (closing_ m).

Definition set_has_broken_connectivity_ (v : bool) (m : Messenger) : Messenger :=
  mkMessenger (name_ m) (reactors_ m) (acceptor_ m) (rpc_services_ m)
    (rpc_services_cache_ m) (scheduled_tasks_ m) (next_task_id_ m)
    (broken_connectivity_ m) v (closing_ m).

Definition set_closing_ (v : bool) (m : Messenger) : Messenger :=
  mkMessenger (name_ m) (reactors_ m) (acceptor_ m) (rpc_services_ m)
    (rpc_services_cache_ m) (scheduled_tasks_ m) (next_task_id_ m)
    (broken_connectivity_ m) (has_broken_connectivity_ m) v.

(** ** Outcomes and actions *)

Inductive Result (A : Type) :=
  | Returns (a : A) (m : Messenger) (trace : list Event)
  | CheckFailed (trace : list Event)   (* a CHECK failed: LOG(FATAL) *)
  | Undefined.                         (* undefined behaviour *)
Arguments Returns {A} a m trace.
Arguments CheckFailed {A} trace.
Arguments Undefined {A}.

Definition Action (A : Type) : Type := Messenger -> Result A.

#[global] Instance Action_ret : MRet Action :=
  fun A a m => Returns a m [].

#[global] Instance Action_bind : MBind Action :=
  fun A B f x m =>
    match x m with
    | Returns a m1 t1 =>
        match f a m1 with
        | Returns b m2 t2 => Returns b m2 (t1 ++ t2)
        | CheckFailed t2 => CheckFailed (t1 ++ t2)
        | Undefined => Undefined
        end
    | CheckFailed t1 => CheckFailed t1
    | Undefined => Undefined
    end.

Definition gets {A} (f : Messenger -> A) : Action A :=
  fun m => Returns (f m) m [].

Definition modify (f : Messenger -> Messenger) : Action unit :=
  fun m => Returns tt (f m) [].

Definition emit (e : Event) : Action unit :=
  fun m => Returns tt m [e].

Definition undefined_behaviour {A} : Action A := fun _ => Undefined.

(** [CHECK_NE(a, b)] *)
Definition CHECK_NE (a b : Z) : Action unit :=
  fun m => if decide (a = b) then CheckFailed [] else Returns tt m [].

(** [for (auto x : xs) body(x);] *)
Fixpoint for_each {A} (xs : list A) (body : A -> Action unit) : Action unit :=
  match xs with
  | [] => mret tt
  | x :: xs' => body x ;; for_each xs' body
  end.

(** The state and the trace of an outcome. *)
Definition trace_of {A} (r : Result A) : list Event :=
  match r with
  | Returns _ _ t => t
  | CheckFailed t => t
  | Undefined => []
  end.

(** The bodies of the two functors, run by reactor [r]. *)
Definition TransferredFunctor_body (call : OutboundCall) (s : Status) : list Event :=
  [OutboundCall_Transferred call s].

Definition DropFunctor_body (r : Reactor) (latch : CountDownLatch) (addr : IpAddress)
  : list Event :=
  [Reactor_DropWithRemoteAddress r addr; CountDownLatch_CountDown latch].

(** The identifiers of the tasks a trace schedules for an owning messenger. *)
Definition owned_id (e : Event) : option Z :=
  match e with
  | Reactor_ScheduleReactorTask _ (DelayedReactorTask t) =>
      if task_messenger t then Some (task_id t) else None
  | _ => None
  end.

Definition owned_ids (t : list Event) : list Z := omap owned_id t.

(** Whether an event is a call on a reactor, and on [r]. *)
Definition on_reactor (e : Event) : option Reactor :=
  match e with
  | Reactor_Shutdown r | Reactor_Join r | Reactor_ScheduleReactorTask r _
  | Reactor_QueueOutboundCall r _ | Reactor_DropWithRemoteAddress r _ => Some r
  | _ => None
  end.

(** ** Reactor threads and the latch

    The code of [Reactor] and of [CountDownLatch] is not among the sources;
    what [BreakConnectivityWith] needs of them is modelled here.  A world
    holds the tasks scheduled and not yet run, what the reactor threads
    have done, and the count of each latch. *)
Module Rendezvous.

Record World := mkWorld {
  pending : list (Reactor * ReactorTask);
  history : list Event;
  latches : gmap nat nat
}.

(** The latch a task counts down, by address. *)
Definition task_latch (t : ReactorTask) : option nat :=
  match t with
  | DropFunctor l _ => Some (latch_addr l)
  | _ => None
  end.

(** Modelled from the spec: [Reactor::ScheduleReactorTask] and the
    constructor of [CountDownLatch] are not among the sources.  The first
    feeds "a thread-safe task queue ... that any external thread may enqueue
    into"; the second makes "a countdown primitive (counter + wait)", here
    with the count given.  Other calls of the messenger leave the world as
    it is. *)
Definition deliver (w : World) (e : Event) : World :=
  match e with
  | Reactor_ScheduleReactorTask r t =>
      mkWorld (pending w ++ [(r, t)]) (history w) (latches w)
  | CountDownLatch_new l =>
      mkWorld (pending w) (history w) (<[latch_addr l := latch_count l]> (latches w))
  | _ => w
  end.

Definition deliver_all (t : list Event) (w : World) : World :=
  fold_left deliver t w.

(** Modelled from the spec: [CountDownLatch::CountDown] is not among the
    sources; the latch is "decremented when each reactor's drop task
    completes".  A call made by a reactor thread is recorded, and
    [CountDown] decrements a count that is not yet zero. *)
Definition perform (w : World) (e : Event) : World :=
  mkWorld (pending w) (history w ++ [e])
    match e with
    | CountDownLatch_CountDown l => alter Nat.pred (latch_addr l) (latches w)
    | _ => latches w
    end.

(** The body of a task, run by reactor [r].  The body of a [DelayedTask]
    is not among the sources; it cannot know the latch of a call of
    [BreakConnectivityWith], and is left out. *)
Definition body (r : Reactor) (t : ReactorTask) : list Event :=
  match t with
  | TransferredFunctor call s => TransferredFunctor_body call s
  | DropFunctor l a => DropFunctor_body r l a
  | DelayedReactorTask _ => []
  end.

Definition run (r : Reactor) (t : ReactorTask) (w : World) : World :=
  fold_left perform (body r t) w.

(** Modelled from the spec: the loop of the reactor thread is not among the
    sources; "the Reactor drains and runs queued tasks only on its own
    thread".  In one step of the world a reactor runs a task pending for it
    (any of them: running them in the order of arrival is one of the
    schedules), or another thread schedules a task.  [mine] is the address
    of the latch of the call under study, which is local to that call: no
    task of another thread counts it down. *)
Inductive step (mine : nat) : World -> World -> Prop :=
  | step_run w r t before after :
      pending w = before ++ (r, t) :: after ->
      step mine w (run r t (mkWorld (before ++ after) (history w) (latches w)))
  | step_schedule w r t :
      task_latch t <> Some mine ->
      step mine w (deliver w (Reactor_ScheduleReactorTask r t)).

(** Modelled from the spec: [CountDownLatch::Wait] is not among the sources;
    the call "blocks the caller until all reactors have processed the
    drop".  The wait returns in a world where the count is zero. *)
Definition Wait_returns (l : CountDownLatch) (w : World) : Prop :=
  latches w !! latch_addr l = Some 0%nat.

Definition is_Wait (e : Event) : bool :=
  match e with CountDownLatch_Wait _ => true | _ => false end.

(** A call of a method against the world: what is left of its trace, and
    the world.  The call makes its next call on a collaborator (a wait,
    only in a world where it returns), or the world takes a step.  The call
    has returned when nothing is left of its trace. *)
Inductive call_step (mine : nat) : list Event * World -> list Event * World -> Prop :=
  | call_Wait l rest w :
      Wait_returns l w ->
      call_step mine (CountDownLatch_Wait l :: rest, w) (rest, w)
  | call_other e rest w :
      is_Wait e = false ->
      call_step mine (e :: rest, w) (rest, deliver w e)
  | call_world rest w w' :
      step mine w w' ->
      call_step mine (rest, w) (rest, w').

(** No pending task counts down the latch at [mine]. *)
Definition unknown_latch (mine : nat) (w : World) : Prop :=
  Forall (fun rt => task_latch rt.2 <> Some mine) (pending w).

(** Reactor [r] has dropped its connections with [a]. *)
Definition has_dropped (r : Reactor) (a : IpAddress) (w : World) : Prop :=
  Reactor_DropWithRemoteAddress r a ∈ history w.

(** While the call schedules and waits: the count of its latch is the
    number of drop tasks it has still to schedule plus the number of those
    pending, and every reactor it has scheduled one on either has it
    pending or has dropped. *)
Definition counts_pending (mine : nat) (a : IpAddress) (scheduled_on : list Reactor)
    (unscheduled : nat) (w : World) : Prop :=
  latches w !! mine =
    Some (unscheduled
          + length (filter (fun rt => task_latch rt.2 = Some mine) (pending w)))%nat /\
  forall r, r ∈ scheduled_on ->
    (exists l, latch_addr l = mine /\ (r, DropFunctor l a) ∈ pending w) \/
    has_dropped r a w.

(** The trace of the critical section of [BreakConnectivityWith] for the
    reactors [rs], and what holds while the call runs against the world:
    before it has made its latch, while it schedules and waits, and after
    its return. *)
Definition drops (latch : CountDownLatch) (a : IpAddress) (rs : list Reactor)
  : list Event :=
  (fun r => Reactor_ScheduleReactorTask r (DropFunctor latch a)) <$> rs.

Definition during (latch : CountDownLatch) (a : IpAddress) (rs : list Reactor)
    (c : list Event * World) : Prop :=
  (c.1 = CountDownLatch_new latch :: drops latch a rs ++ [CountDownLatch_Wait latch] /\
   unknown_latch (latch_addr latch) c.2) \/
  (exists rs1 rs2,
     rs = rs1 ++ rs2 /\
     c.1 = drops latch a rs2 ++ [CountDownLatch_Wait latch] /\
     counts_pending (latch_addr latch) a rs1 (length rs2) c.2) \/
  (c.1 = [] /\ forall r, r ∈ rs -> has_dropped r a c.2).

End Rendezvous.


(** ** Sequences of calls

    A client of the messenger is a list of calls of its methods, each with
    its arguments; results are dropped. *)
Inductive Call :=
  | Call_Shutdown
  | Call_BreakConnectivityWith (addr : IpAddress) (fresh : nat)
  | Call_RestoreConnectivityWith (addr : IpAddress)
  | Call_ShutdownAcceptor
  | Call_RegisterService (name : string) (service : RpcService)
  | Call_UnregisterAllServices
  | Call_UnregisterService (name : string)
  | Call_QueueOutboundCall (call : OutboundCall)
  | Call_QueueInboundCall (call : InboundCall)
  | Call_Handle (call : InboundCall)
  | Call_RemoveScheduledTask (id : Z)
  | Call_AbortOnReactor (id : Z)
  | Call_ScheduleOnReactor (IsCurrentThread : Reactor -> bool) (rnd : Z)
      (func : Functor) (when : Z) (msgr : bool).

(** ** The whole object

    What the methods above leave alone: construction by [MessengerBuilder],
    the reference of the messenger to itself, listening, and the sockets
    that the acceptor hands over. *)

(** [Socket*] and [ServerEventListPtr]. *)
Record Socket := mkSocket { socket_fd : Z }.
Record ServerEventList := mkServerEventList { server_event_tag : nat }.

#[global] Instance Acceptor_eq_dec : EqDecision Acceptor.
Proof. solve_decision. Defined.
#[global] Instance Socket_eq_dec : EqDecision Socket.
Proof. solve_decision. Defined.

(** [boost::asio::ip::address::is_v6] and [is_unspecified] (0.0.0.0, ::). *)
Definition is_v6 (a : IpAddress) : bool :=
  match a with
  | IpV6 _ => true
  | IpV4 _ => false
  end.

Definition is_unspecified (a : IpAddress) : bool :=
  match a with
  | IpV4 bits | IpV6 bits => bool_decide (bits = 0)
  end.

(** [Status::ok()] *)
Definition Status_ok (s : Status) : bool := bool_decide (code s = kOk).

(** [MessengerBuilder].  Durations are in milliseconds;
    [connection_context_factory_] is [&std::make_unique<YBConnectionContext>]
    in every builder and is left out. *)
Module MessengerBuilder.

Record t := mk {
  name_ : string;
  connection_keepalive_time_ : Z;
  num_reactors_ : Z;                  (* int *)
  coarse_timer_granularity_ : Z;
  metric_entity_ : option nat         (* scoped_refptr<MetricEntity> *)
}.

(** [MessengerBuilder::MessengerBuilder(std::string name)] *)
Definition MessengerBuilder (name : string) (FLAGS_rpc_default_keepalive_time_ms : Z) : t :=
  mk name (FLAGS_rpc_default_keepalive_time_ms * 1) 4 100 None.

Definition set_connection_keepalive_time (keepalive : Z) (bld : t) : t :=
  mk (name_ bld) keepalive (num_reactors_ bld) (coarse_timer_granularity_ bld)
     (metric_entity_ bld).

Definition set_num_reactors (num_reactors : Z) (bld : t) : t :=
  mk (name_ bld) (connection_keepalive_time_ bld) num_reactors
     (coarse_timer_granularity_ bld) (metric_entity_ bld).

Definition set_coarse_timer_granularity (granularity : Z) (bld : t) : t :=
  mk (name_ bld) (connection_keepalive_time_ bld) (num_reactors_ bld) granularity
     (metric_entity_ bld).

Definition set_metric_entity (metric_entity : option nat) (bld : t) : t :=
  mk (name_ bld) (connection_keepalive_time_ bld) (num_reactors_ bld)
     (coarse_timer_granularity_ bld) metric_entity.

End MessengerBuilder.

(** Calls on collaborators, those of [Event] and the further ones. *)
Inductive Effect :=
  | Collaborator (e : Event)
  | IoThreadPool_new (num_threads : Z)
  | Scheduler_new
  | Reactor_new (r : Reactor) (bld : MessengerBuilder.t)
  | Reactor_Init (r : Reactor)
  | Reactor_delete (r : Reactor)
  | Reactor_DumpRunningRpcs (r : Reactor)
  | Reactor_QueueEventOnAllConnections (r : Reactor) (server_event : ServerEventList)
  | Reactor_RegisterInboundSocket (r : Reactor) (new_socket : Socket) (remote : Endpoint)
  | Acceptor_new (a : Acceptor)
  | Acceptor_Listen (a : Acceptor) (accept_endpoint : Endpoint)
  | Acceptor_Start (a : Acceptor)
  | Socket_Close (s : Socket).

(** The messenger with its remaining members.

    Modelled from the spec: messenger.h, which declares the members, is not
    among the sources.  [retain_self_] is the [shared_ptr] of the messenger
    to itself, by whether it is set; [num_connections_accepted_], which the
    spec calls a simple increasing counter, is taken as a
    [std::atomic<int>], the type of the [idx] computed from it. *)
Record MessengerObject := mkMessengerObject {
  members : Messenger;
  metric_entity_ : option nat;
  retain_self_ : bool;
  outbound_address_v4_ : IpAddress;
  outbound_address_v6_ : IpAddress;
  num_connections_accepted_ : Z
}.

Definition set_members (v : Messenger) (o : MessengerObject) : MessengerObject :=
  mkMessengerObject v (metric_entity_ o) (retain_self_ o) (outbound_address_v4_ o)
    (outbound_address_v6_ o) (num_connections_accepted_ o).

Definition set_metric_entity_ (v : option nat) (o : MessengerObject) : MessengerObject :=
  mkMessengerObject (members o) v (retain_self_ o) (outbound_address_v4_ o)
    (outbound_address_v6_ o) (num_connections_accepted_ o).

Definition set_retain_self_ (v : bool) (o : MessengerObject) : MessengerObject :=
  mkMessengerObject (members o) (metric_entity_ o) v (outbound_address_v4_ o)
    (outbound_address_v6_ o) (num_connections_accepted_ o).

Definition set_outbound_address_v4_ (v : IpAddress) (o : MessengerObject) : MessengerObject :=
  mkMessengerObject (members o) (metric_entity_ o) (retain_self_ o) v
    (outbound_address_v6_ o) (num_connections_accepted_ o).

Definition set_outbound_address_v6_ (v : IpAddress) (o : MessengerObject) : MessengerObject :=
  mkMessengerObject (members o) (metric_entity_ o) (retain_self_ o) (outbound_address_v4_ o)
    v (num_connections_accepted_ o).

Definition set_num_connections_accepted_ (v : Z) (o : MessengerObject) : MessengerObject :=
  mkMessengerObject (members o) (metric_entity_ o) (retain_self_ o) (outbound_address_v4_ o)
    (outbound_address_v6_ o) v.

Definition set_name_ (v : string) (m : Messenger) : Messenger :=
  mkMessenger v (reactors_ m) (acceptor_ m) (rpc_services_ m) (rpc_services_cache_ m)
    (scheduled_tasks_ m) (next_task_id_ m) (broken_connectivity_ m)
    (has_broken_connectivity_ m) (closing_ m).

Definition set_reactors_ (v : list Reactor) (m : Messenger) : Messenger :=
  mkMessenger (name_ m) v (acceptor_ m) (rpc_services_ m) (rpc_services_cache_ m)
    (scheduled_tasks_ m) (next_task_id_ m) (broken_connectivity_ m)
    (has_broken_connectivity_ m) (closing_ m).

(** The outcome of a method on the whole object, and the methods. *)
Inductive Outcome (A : Type) :=
  | Finished (a : A) (o : MessengerObject) (trace : list Effect)
  | Aborted (trace : list Effect)      (* a CHECK failed: LOG(FATAL) *)
  | Unspecified.                       (* undefined behaviour *)
Arguments Finished {A} a o trace.
Arguments Aborted {A} trace.
Arguments Unspecified {A}.

Definition Method (A : Type) : Type := MessengerObject -> Outcome A.

#[global] Instance Method_ret : MRet Method :=
  fun A a o => Finished a o [].

#[global] Instance Method_bind : MBind Method :=
  fun A B f x o =>
    match x o with
    | Finished a o1 t1 =>
        match f a o1 with
        | Finished b o2 t2 => Finished b o2 (t1 ++ t2)
        | Aborted t2 => Aborted (t1 ++ t2)
        | Unspecified => Unspecified
        end
    | Aborted t1 => Aborted t1
    | Unspecified => Unspecified
    end.

Definition reads {A} (f : MessengerObject -> A) : Method A :=
  fun o => Finished (f o) o [].

Definition update (f : MessengerObject -> MessengerObject) : Method unit :=
  fun o => Finished tt (f o) [].

Definition effect (e : Effect) : Method unit :=
  fun o => Finished tt o [e].

Definition unspecified {A} : Method A := fun _ => Unspecified.

(** [CHECK(condition)] *)
Definition CHECK (condition : bool) : Method unit :=
  fun o => if condition then Finished tt o [] else Aborted [].

(** A method of the part above, run on the members of the object. *)
Definition lift {A} (body : Action A) : Method A :=
  fun o =>
    match body (members o) with
    | Returns a m t => Finished a (set_members m o) (Collaborator <$> t)
    | CheckFailed t => Aborted (Collaborator <$> t)
    | Undefined => Unspecified
    end.

(** [for (auto x : xs) body(x);] *)
Fixpoint each {A} (xs : list A) (body : A -> Method unit) : Method unit :=
  match xs with
  | [] => mret tt
  | x :: xs' => body x ;; each xs' body
  end.

(** [for (Reactor* r : reactors) { RETURN_NOT_OK(r->call(..)); }
     return Status::OK();]
    where [status r] is what the call on [r] returns. *)
Fixpoint each_RETURN_NOT_OK (reactors : list Reactor) (call : Reactor -> Effect)
    (status : Reactor -> Status) : Method Status :=
  match reactors with
  | [] => mret Status_OK
  | r :: rest =>
      effect (call r);;
      if Status_ok (status r) then each_RETURN_NOT_OK rest call status
      else mret (status r)
  end.

(** [Result<std::shared_ptr<Messenger>>]: the messenger is the object of the
    outcome. *)
Inductive Built :=
  | Built_messenger
  | Built_error (s : Status).

(** The acceptor an effect is a call on. *)
Definition on_acceptor (e : Effect) : option Acceptor :=
  match e with
  | Collaborator (Acceptor_Shutdown a) | Acceptor_new a | Acceptor_Listen a _
  | Acceptor_Start a => Some a
  | _ => None
  end.


(** ** A messenger to run the methods on *)
Module Sample.

Definition hash (ep : Endpoint) : Z := port ep.

(** The two builds, as values of [NDEBUG]. *)
Definition release : bool := true.
Definition debug : bool := false.

Definition r0 : Reactor := mkReactor 0.
Definition r1 : Reactor := mkReactor 1.
Definition r2 : Reactor := mkReactor 2.

Definition a1 : IpAddress := IpV4 167772161.       (* 10.0.0.1 *)
Definition a2 : IpAddress := IpV4 167772162.       (* 10.0.0.2 *)

Definition service : RpcService := mkRpcService 1.
Definition task5 : DelayedTask := mkDelayedTask (mkFunctor 5) 100 5 true.

(** Three reactors, an acceptor, one service registered and published, one
    task scheduled, connectivity with [a1] broken. *)
Definition m : Messenger :=
  mkMessenger "ts-1" [r0; r1; r2] (Some (mkAcceptor 0))
    {["S" := service]} {["S" := service]} {[5 := task5]} 6 {[a1]} true false.

(** The same with no address broken; [BreakConnectivityWith a1] makes it [m]. *)
Definition connected : Messenger :=
  mkMessenger "ts-1" [r0; r1; r2] (Some (mkAcceptor 0))
    {["S" := service]} {["S" := service]} {[5 := task5]} 6 ∅ false false.

Definition to_a1 : OutboundCall := mkOutboundCall 1 (mkConnectionId (mkEndpoint a1 9100) 0).
Definition to_a2 : OutboundCall := mkOutboundCall 2 (mkConnectionId (mkEndpoint a2 9100) 1).

Definition for_S : InboundCall := mkInboundCall 1 "S".
Definition for_T : InboundCall := mkInboundCall 2 "T".

(** The calling thread is the thread of [r1]. *)
Definition on_r1 (r : Reactor) : bool := bool_decide (r = r1).

(** Two clients. *)
Definition schedules : list Call :=
  [Call_ScheduleOnReactor on_r1 7 (mkFunctor 9) 250 true;
   Call_ScheduleOnReactor (fun _ => false) 8 (mkFunctor 10) 250 false;
   Call_AbortOnReactor 6;
   Call_ScheduleOnReactor (fun _ => false) 9 (mkFunctor 11) 250 true].

Definition breaks : list Call :=
  [Call_RestoreConnectivityWith a1;
   Call_BreakConnectivityWith a2 7;
   Call_BreakConnectivityWith a1 8;
   Call_RestoreConnectivityWith a2].

(** A world where nothing is pending and no latch exists. *)
Definition idle : Rendezvous.World := Rendezvous.mkWorld [] [] ∅.

(** The calls [BreakConnectivityWith a 7] makes with three reactors. *)
Definition latch7 : CountDownLatch := mkCountDownLatch 7 3.

Definition critical_section (a : IpAddress) : list Event :=
  [CountDownLatch_new latch7;
   Reactor_ScheduleReactorTask r0 (DropFunctor latch7 a);
   Reactor_ScheduleReactorTask r1 (DropFunctor latch7 a);
   Reactor_ScheduleReactorTask r2 (DropFunctor latch7 a)].

Definition break_trace (a : IpAddress) : list Event :=
  critical_section a ++ [CountDownLatch_Wait latch7].


(** The object as the declarations of its members leave it, a builder for
    three reactors, the object it builds, and [m] as a whole object. *)
Definition declared : MessengerObject :=
  mkMessengerObject (mkMessenger "" [] None ∅ ∅ ∅ 0 ∅ false false)
    None false (IpV4 0) (IpV4 0) 0.

Definition bld : MessengerBuilder.t :=
  MessengerBuilder.set_num_reactors 3 (MessengerBuilder.MessengerBuilder "ts-1" 65000).

Definition built : MessengerObject :=
  mkMessengerObject (mkMessenger "ts-1" [r0; r1; r2] None ∅ ∅ ∅ 0 ∅ false false)
    None true (IpV4 0) (IpV4 0) 0.

Definition object : MessengerObject :=
  mkMessengerObject m None true (IpV4 0) (IpV4 0) 0.

(** Every reactor answers OK; reactor 1 fails. *)
Definition all_ok (r : Reactor) : Status := Status_OK.

Definition r1_fails (r : Reactor) : Status :=
  if bool_decide (r = r1) then STATUS kNetworkError "no thread" else Status_OK.

Definition socket : Socket := mkSocket 42.
Definition any_v4 : Endpoint := mkEndpoint (IpV4 0) 9100.
Definition from_a1 : Endpoint := mkEndpoint a1 50000.
Definition from_a2 : Endpoint := mkEndpoint a2 50000.
Definition at_a2 : Endpoint := mkEndpoint a2 9100.

End Sample.

(** ** The administration tool

    [ClusterAdminClient] of yb-admin_cli.cc, the functions that look at the
    answers of the master.  An answer of the master is an argument of the
    embedding: the status the proxy returns and the response it fills in.
    A function with an output parameter takes what the parameter holds
    before the call and returns what it holds after. *)
Module Admin.

(** [Status], by the codes the tool makes itself and a code for the others;
    [msg2] is the second argument of the constructors. *)
Inductive Code :=
  | NotFound
  | IllegalState
  | InvalidArgument
  | Other (code : Z).

Inductive Status :=
  | OK
  | Error (code : Code) (msg msg2 : string).

(** [Status::ok()] *)
Definition ok (s : Status) : bool :=
  match s with
  | OK => true
  | Error _ _ _ => false
  end.

(** The protobuf messages, by the fields the tool reads.  A status message
    in a response is given by the [Status] that [StatusFromPB] of
    yb/common/wire_protocol.h, which is not among the sources, makes of it.
    Of [RaftPeerPB::Role], declared in consensus/metadata.proto, only
    [LEADER] is told from the other values. *)
Record HostPortPB := mkHostPortPB { host : string; port : Z }.

Record TSInfoPB := mkTSInfoPB {
  permanent_uuid : string;
  rpc_addresses : list HostPortPB
}.

Inductive Role :=
  | LEADER
  | Role_other (value : Z).

Record ReplicaPB := mkReplicaPB { ts_info : TSInfoPB; role : Role }.

Record TabletLocationsPB := mkTabletLocationsPB {
  tablet_id : string;
  replicas : list ReplicaPB
}.

Record GetTabletLocationsResponsePB := mkGetTabletLocationsResponsePB {
  error : option Status;                 (* has_error(), error().status() *)
  errors : list Status;                  (* errors(i).status() *)
  tablet_locations : list TabletLocationsPB
}.

(** [ListTabletServersResponsePB::Entry]; [registration] is there when
    [has_registration()], and holds [registration().rpc_addresses()]. *)
Record Entry := mkEntry {
  instance_id_permanent_uuid : string;
  registration : option (list HostPortPB)
}.

Record ListTabletServersResponsePB := mkListTabletServersResponsePB {
  servers_error : option Status;
  servers : list Entry
}.

Record HostPort := mkHostPort { hp_host : string; hp_port : Z }.

#[global] Instance Role_eq_dec : EqDecision Role.
Proof. solve_decision. Defined.

(** What is written to [std::cout] and [std::cerr]. *)
Inductive Output :=
  | cout_uuid (uuid : string)                       (* << uuid << endl *)
  | cout_replica (uuid : string) (r : Role)         (* << uuid << " " << role << endl *)
  | cerr_incorrect (size : nat)   (* "List of all incorrect locations - " << size << " : " *)
  | cerr_location (i : nat) (location : TabletLocationsPB)   (* << i << " : " << DebugString() *)
  | cerr_endl.

(** A call returns a status, with what the output parameter holds then, or
    a [CHECK] fails; both after some output. *)
Inductive Outcome (A : Type) :=
  | Returned (s : Status) (out : A) (printed : list Output)
  | CheckFailed (printed : list Output).
Arguments Returned {A} s out printed.
Arguments CheckFailed {A} printed.

(** A message without fields set. *)
Definition TabletLocationsPB_default : TabletLocationsPB := mkTabletLocationsPB "" [].

(** [rpc] and [resp] are what [master_proxy_->GetTabletLocations(req, &resp,
    &rpc)] returns and fills in for the request of [tablet_id]. *)
Definition GetTabletLocations (tablet_id : string) (rpc : Status)
    (resp : GetTabletLocationsResponsePB) (locations : TabletLocationsPB)
  : Outcome TabletLocationsPB :=
  if negb (ok rpc) then Returned rpc locations []             (* RETURN_NOT_OK *)
  else match error resp with
       | Some s => Returned s locations []
       | None =>
           match errors resp with
           | s :: _ => Returned s locations []                (* errors(0) *)
           | [] =>
               match tablet_locations resp with
               | [location] => Returned OK location []
               | _ => CheckFailed []       (* CHECK_EQ(1, resp.tablet_locations_size()) *)
               end
           end
       end.

(** The loop of [GetTabletLeader]: the first replica that is the leader. *)
Fixpoint first_leader (replicas : list ReplicaPB) : option ReplicaPB :=
  match replicas with
  | [] => None
  | replica :: rest =>
      if decide (role replica = LEADER) then Some replica     (* found = true; break *)
      else first_leader rest
  end.

Definition GetTabletLeader (tablet_id : string) (rpc : Status)
    (resp : GetTabletLocationsResponsePB) (ts_info0 : TSInfoPB) : Outcome TSInfoPB :=
  match GetTabletLocations tablet_id rpc resp TabletLocationsPB_default with
  | CheckFailed printed => CheckFailed printed
  | Returned s locations _ =>
      if negb (ok s) then Returned s ts_info0 []              (* RETURN_NOT_OK *)
      else if negb (String.eqb tablet_id (Admin.tablet_id locations))
      then CheckFailed []                  (* CHECK_EQ(tablet_id, locations.tablet_id()) *)
      else match first_leader (replicas locations) with
           | Some replica => Returned OK (ts_info replica) []
           | None =>
               Returned (Error NotFound "No leader replica found for tablet" tablet_id)
                 ts_info0 []
           end
  end.

(** [rpc] and [resp] are what [master_proxy_->ListTabletServers(req, &resp,
    &rpc)] returns and fills in. *)
Definition ListTabletServers (rpc : Status) (resp : ListTabletServersResponsePB)
    (servers0 : list Entry) : Outcome (list Entry) :=
  if negb (ok rpc) then Returned rpc servers0 []
  else match servers_error resp with
       | Some s => Returned s servers0 []
       | None => Returned OK (servers resp) []                (* servers->Swap(..) *)
       end.

(** The loop of [GetFirstRpcAddressForTS]: the first server of the UUID,
    and its first address when it has one. *)
Fixpoint first_address (uuid : string) (servers : list Entry) : option HostPortPB :=
  match servers with
  | [] => None
  | server :: rest =>
      if String.eqb (instance_id_permanent_uuid server) uuid
      then match registration server with
           | Some (address :: _) => Some address
           | _ => None                                        (* break *)
           end
      else first_address uuid rest
  end.

(** [HostPortFromPB] of yb/common/wire_protocol.h is not among the sources:
    it is an argument, from the message and what [hp] holds to the status
    and what [hp] holds then. *)
Definition GetFirstRpcAddressForTS
    (HostPortFromPB : HostPortPB -> HostPort -> Status * HostPort)
    (uuid : string) (rpc : Status) (resp : ListTabletServersResponsePB) (hp : HostPort)
  : Outcome HostPort :=
  match ListTabletServers rpc resp [] with
  | CheckFailed printed => CheckFailed printed
  | Returned s servers _ =>
      if negb (ok s) then Returned s hp []
      else match first_address uuid servers with
           | Some address =>
               let (converted, hp') := HostPortFromPB address hp in
               if negb (ok converted) then Returned converted hp' []
               else Returned OK hp' []
           | None =>
               Returned
                 (Error NotFound
                    ("Server with UUID " +:+ uuid
                       +:+ " has no RPC address registered with the Master") "")
                 hp []
           end
  end.

Definition ListAllTabletServers (rpc : Status) (resp : ListTabletServersResponsePB)
  : Outcome unit :=
  match ListTabletServers rpc resp [] with
  | CheckFailed printed => CheckFailed printed
  | Returned s servers _ =>
      if negb (ok s) then Returned s tt []
      else Returned OK tt (cout_uuid <$> (instance_id_permanent_uuid <$> servers))
  end.




(** *** Changing the configuration of a tablet *)

(** [consensus::ChangeConfigType], the values the tool names; a member type
    is the number of its enum value. *)
Inductive ChangeConfigType :=
  | UNKNOWN_CHANGE
  | ADD_SERVER
  | REMOVE_SERVER
  | CHANGE_ROLE.

#[global] Instance ChangeConfigType_eq_dec : EqDecision ChangeConfigType.
Proof. solve_decision. Defined.

Record RaftPeerPB := mkRaftPeerPB {
  peer_permanent_uuid : string;
  member_type : option Z;
  last_known_addr : option HostPortPB
}.

Record Sockaddr := mkSockaddr { sockaddr : Z }.

Record ChangeConfigRequestPB := mkChangeConfigRequestPB {
  dest_uuid : string;
  request_tablet_id : string;
  type : ChangeConfigType;
  server : RaftPeerPB
}.

(** What the tool calls and is not among the sources, and the servers it
    talks to.  An RPC is its answer, the status of the call and the error
    of the response if it has one, as a function of what is sent; the
    master is asked for the locations of a tablet up to twice, and
    [master_GetTabletLocations n] is its answer to the lookup number [n]. *)
Record Environment := mkEnvironment {
  ToUpperCase : string -> string;
  ChangeConfigType_Parse : string -> option ChangeConfigType;
  MemberType_Parse : string -> option Z;
  HostPort_new : HostPort;
  HostPortFromPB : HostPortPB -> HostPort -> Status * HostPort;
  HostPortToPB : HostPort -> Status * HostPortPB;
  ResolveAddresses : HostPort -> Status * list Sockaddr;
  master_ListTabletServers : Status * ListTabletServersResponsePB;
  master_GetTabletLocations : nat -> string -> Status * GetTabletLocationsResponsePB;
  consensus_LeaderStepDown : Sockaddr -> string -> string -> Status * option Status;
  consensus_ChangeConfig : Sockaddr -> ChangeConfigRequestPB -> Status * option Status
}.

(** [leader_proxy] is the proxy to the server at [leader_addr]. *)
Definition LeaderStepDown (env : Environment) (leader_uuid tablet_id : string)
    (leader_addr : Sockaddr) : Status :=
  let (rpc, resp_error) := consensus_LeaderStepDown env leader_addr leader_uuid tablet_id in
  if negb (ok rpc) then rpc
  else match resp_error with
       | Some s => s
       | None => OK
       end.

(** The lookup number [n] of the leader of the tablet. *)
Definition SetTabletLeaderInfo (env : Environment) (n : nat) (tablet_id : string)
    (leader : string * Sockaddr) : Outcome (string * Sockaddr) :=
  let (rpc, resp) := master_GetTabletLocations env n tablet_id in
  match GetTabletLeader tablet_id rpc resp (mkTSInfoPB "" []) with
  | CheckFailed printed => CheckFailed printed
  | Returned s leader_ts_info _ =>
      if negb (ok s) then Returned s leader []
      else match rpc_addresses leader_ts_info with
           | [] => CheckFailed []      (* CHECK_GT(rpc_addresses_size(), 0) *)
           | address :: _ =>
               let (converted, leader_hostport) :=
                 HostPortFromPB env address (HostPort_new env) in
               if negb (ok converted) then Returned converted leader []
               else
                 let (resolved, leader_addrs) := ResolveAddresses env leader_hostport in
                 if negb (ok resolved) then Returned resolved leader []
                 else match leader_addrs with
                      | [] => CheckFailed []            (* CHECK(!leader_addrs.empty()) *)
                      | [leader_socket] =>
                          Returned OK (permanent_uuid leader_ts_info, leader_socket) []
                      | _ => CheckFailed []             (* CHECK(leader_addrs.size() == 1) *)
                      end
           end
  end.

(** The end of [ChangeConfig]: the request to the leader. *)
Definition send_ChangeConfig (env : Environment) (leader : string * Sockaddr)
    (tablet_id : string) (cc_type : ChangeConfigType) (peer_pb : RaftPeerPB) : Status :=
  let req := mkChangeConfigRequestPB leader.1 tablet_id cc_type peer_pb in
  let (rpc, resp_error) := consensus_ChangeConfig env leader.2 req in
  if negb (ok rpc) then rpc
  else match resp_error with
       | Some s => s
       | None => OK
       end.

Definition ChangeConfig (env : Environment) (initted_ : bool)
    (tablet_id change_type peer_uuid : string) (member_type : option string)
  : Outcome unit :=
  if negb initted_ then CheckFailed []                        (* CHECK(initted_) *)
  else
    (* Parse the change type. *)
    match ChangeConfigType_Parse env (ToUpperCase env change_type) with
    | None | Some UNKNOWN_CHANGE =>
        Returned (Error InvalidArgument "Unsupported change_type" change_type) tt []
    | Some cc_type =>
        (* Parse the optional fields. *)
        let parsed :=
          match member_type with
          | Some given =>
              match MemberType_Parse env (ToUpperCase env given) with
              | Some member_type_val => inr (Some member_type_val)
              | None => inl (Error InvalidArgument "Unrecognized member_type" given)
              end
          | None => inr None
          end in
        match parsed with
        | inl s => Returned s tt []
        | inr member_type_val =>
            (* Validate the existence of the optional fields. *)
            if bool_decide (member_type = None)
               && (bool_decide (cc_type = ADD_SERVER) || bool_decide (cc_type = CHANGE_ROLE))
            then Returned
                   (Error InvalidArgument
                      "Must specify member_type when adding a server or changing a role" "")
                   tt []
            else
              (* Look up RPC address of peer if adding as a new server. *)
              let added :=
                if bool_decide (cc_type = ADD_SERVER)
                then match GetFirstRpcAddressForTS (HostPortFromPB env) peer_uuid
                             (master_ListTabletServers env).1
                             (master_ListTabletServers env).2 (HostPort_new env) with
                     | CheckFailed printed => inl (CheckFailed printed)
                     | Returned s host_port _ =>
                         if negb (ok s) then inl (Returned s tt [])
                         else let (converted, addr) := HostPortToPB env host_port in
                              if negb (ok converted) then inl (Returned converted tt [])
                              else inr (Some addr)
                     end
                else inr None in
              match added with
              | inl result => result
              | inr last_known_addr =>
                  let peer_pb := mkRaftPeerPB peer_uuid member_type_val last_known_addr in
                  (* Look up the location of the tablet leader from the Master. *)
                  match SetTabletLeaderInfo env 0 tablet_id ("", mkSockaddr 0) with
                  | CheckFailed printed => CheckFailed printed
                  | Returned s leader _ =>
                      if negb (ok s) then Returned s tt []
                      else if bool_decide (cc_type = REMOVE_SERVER)
                              && String.eqb leader.1 peer_uuid
                      then
                        (* make the leader step down, and look the leader up again *)
                        let stepped := LeaderStepDown env leader.1 tablet_id leader.2 in
                        if negb (ok stepped) then Returned stepped tt []
                        else (* sleep(5) *)
                          match SetTabletLeaderInfo env 1 tablet_id leader with
                          | CheckFailed printed => CheckFailed printed
                          | Returned s' leader' _ =>
                              if negb (ok s') then Returned s' tt []
                              else Returned
                                     (send_ChangeConfig env leader' tablet_id cc_type peer_pb)
                                     tt []
                          end
                      else Returned (send_ChangeConfig env leader tablet_id cc_type peer_pb)
                             tt []
                  end
              end
        end
    end.

(** *** The command line *)

(** The methods of the client that [ClusterAdminCliMain] calls, by what
    they return; [None] when a [CHECK] fails in the call. *)
Record Client := mkClient {
  client_Init : option Status;
  client_ChangeConfig : string -> string -> string -> option string -> option Status;
  client_ListTables : option Status;
  client_ListAllTabletServers : option Status;
  client_ListTablets : string -> option Status;
  client_ListPerTabletTabletServers : string -> option Status;
  client_DeleteTable : string -> option Status
}.

Definition kChangeConfigOp : string := "change_config".
Definition kListTablesOp : string := "list_tables".
Definition kListTabletsOp : string := "list_tablets".
Definition kListTabletServersOp : string := "list_tablet_servers".
Definition kDeleteTableOp : string := "delete_table".
Definition kListAllTabletServersOp : string := "list_all_tablet_servers".

(** What main writes, and how it ends: by [exit], by [return], or in the
    failed [CHECK] of a call. *)
Inductive Shown :=
  | ShowUsage                                   (* google::ShowUsageWithFlagsRestrict *)
  | cerr_status (message : string) (s : Status) (* << message << s.ToString() *)
  | cerr_invalid_operation (op : string).

Inductive End :=
  | exit (code : Z)
  | returns (code : Z)
  | aborted.

(** A call of the client and the test of its status:
    [Status s = client.f(..); if (!s.ok()) { cerr << message << ..; return 1; }] *)
Definition report (answer : option Status) (message : string) : list Shown * End :=
  match answer with
  | None => ([], aborted)
  | Some s => if ok s then ([], returns 0) else ([cerr_status message s], returns 1)
  end.

(** [argv] is what [ParseCommandLineFlags] leaves of the arguments, the
    name of the program first; [addrs] is [FLAGS_master_addresses]. *)
Definition ClusterAdminCliMain (argv : list string) (addrs : string) (client : Client)
  : list Shown * End :=
  match argv with
  | _ :: op :: arguments =>
      match client_Init client with
      | None => ([], aborted)
      | Some connected =>
          if negb (ok connected)
          then (* EXIT_NOT_OK_PREPEND *)
            ([cerr_status ("Unable to establish connection to " +:+ addrs) connected;
              ShowUsage], exit 1)
          else if String.eqb op kChangeConfigOp then
            match arguments with
            | tablet_id :: change_type :: peer_uuid :: rest =>
                report (client_ChangeConfig client tablet_id change_type peer_uuid
                          (head rest))                        (* argc > 5: argv[5] *)
                  "Unable to change config: "
            | _ => ([ShowUsage], exit 1)                      (* argc < 5 *)
            end
          else if String.eqb op kListTablesOp then
            report (client_ListTables client) "Unable to list tables: "
          else if String.eqb op kListAllTabletServersOp then
            report (client_ListAllTabletServers client) "Unable to list tablet servers: "
          else if String.eqb op kListTabletsOp then
            match arguments with
            | table_name :: _ =>
                report (client_ListTablets client table_name)
                  ("Unable to list tablets of table " +:+ table_name +:+ ": ")
            | [] => ([ShowUsage], exit 1)                     (* argc < 3 *)
            end
          else if String.eqb op kListTabletServersOp then
            match arguments with
            | tablet_id :: _ =>
                report (client_ListPerTabletTabletServers client tablet_id)
                  ("Unable to list tablet servers of tablet " +:+ tablet_id +:+ ": ")
            | [] => ([ShowUsage], exit 1)
            end
          else if String.eqb op kDeleteTableOp then
            match arguments with
            | table_name :: _ =>
                report (client_DeleteTable client table_name)
                  ("Unable to delete table " +:+ table_name +:+ ": ")
            | [] => ([ShowUsage], exit 1)
            end
          else ([cerr_invalid_operation op; ShowUsage], exit 1)
      end
  | _ => ([ShowUsage], exit 1)                                (* GetOp: argc < 2 *)
  end.

(** The names of the operations. *)
Definition operations : list string :=
  [kChangeConfigOp; kListTablesOp; kListAllTabletServersOp; kListTabletsOp;
   kListTabletServersOp; kDeleteTableOp].

End Admin.

(** Answers of a master to run the tool on. *)
Module AdminSample.

Definition replica_b : Admin.ReplicaPB :=
  Admin.mkReplicaPB (Admin.mkTSInfoPB "ts-b" [Admin.mkHostPortPB "b" 9100]) Admin.LEADER.

(** Tablet t1 with three replicas, the second and the third being leaders. *)
Definition located : Admin.GetTabletLocationsResponsePB :=
  Admin.mkGetTabletLocationsResponsePB None []
    [Admin.mkTabletLocationsPB "t1"
       [Admin.mkReplicaPB (Admin.mkTSInfoPB "ts-a" []) (Admin.Role_other 1);
        replica_b;
        Admin.mkReplicaPB (Admin.mkTSInfoPB "ts-c" []) Admin.LEADER]].

(** The same locations in a response whose error holds the status OK. *)
Definition located_ok_error : Admin.GetTabletLocationsResponsePB :=
  Admin.mkGetTabletLocationsResponsePB (Some Admin.OK) []
    (Admin.tablet_locations located).


(** Server u2 twice, first without registration. *)
Definition listed : Admin.ListTabletServersResponsePB :=
  Admin.mkListTabletServersResponsePB None
    [Admin.mkEntry "u1" (Some [Admin.mkHostPortPB "a" 9100]);
     Admin.mkEntry "u2" None;
     Admin.mkEntry "u2" (Some [Admin.mkHostPortPB "b" 9100])].

(** The same servers in a response whose error holds the status OK. *)
Definition listed_ok_error : Admin.ListTabletServersResponsePB :=
  Admin.mkListTabletServersResponsePB (Some Admin.OK) (Admin.servers listed).

Definition HostPortFromPB (pb : Admin.HostPortPB) (hp : Admin.HostPort)
  : Admin.Status * Admin.HostPort :=
  (Admin.OK, Admin.mkHostPort (Admin.host pb) (Admin.port pb)).

(** A master that knows tablet t1 with its leader ts-b at first, and ts-c
    as the leader after the step down; parsers of two names each. *)
Definition located_after : Admin.GetTabletLocationsResponsePB :=
  Admin.mkGetTabletLocationsResponsePB None []
    [Admin.mkTabletLocationsPB "t1"
       [Admin.mkReplicaPB (Admin.mkTSInfoPB "ts-b" [Admin.mkHostPortPB "b" 9100])
          (Admin.Role_other 1);
        Admin.mkReplicaPB (Admin.mkTSInfoPB "ts-c" [Admin.mkHostPortPB "c" 9200])
          Admin.LEADER]].

Definition env : Admin.Environment :=
  Admin.mkEnvironment
    (fun name => name)
    (fun name => if String.eqb name "REMOVE_SERVER" then Some Admin.REMOVE_SERVER
                 else if String.eqb name "ADD_SERVER" then Some Admin.ADD_SERVER
                 else None)
    (fun name => if String.eqb name "VOTER" then Some 1 else None)
    (Admin.mkHostPort "" 0)
    HostPortFromPB
    (fun hp => (Admin.OK, Admin.mkHostPortPB (Admin.hp_host hp) (Admin.hp_port hp)))
    (fun hp => (Admin.OK, [Admin.mkSockaddr (Admin.hp_port hp)]))
    (Admin.OK, listed)
    (fun n _ => (Admin.OK, match n with O => located | _ => located_after end))
    (fun _ _ _ => (Admin.OK, None))
    (fun addr req =>
       (Admin.OK,
        if String.eqb (Admin.dest_uuid req) "ts-c" then None
        else Some (Admin.Error (Admin.Other 7) "not the leader" ""))).

(** A client that connects and whose calls succeed, and one that does not
    connect. *)
Definition client : Admin.Client :=
  Admin.mkClient (Some Admin.OK) (fun _ _ _ _ => Some Admin.OK) (Some Admin.OK)
    (Some Admin.OK) (fun _ => Some Admin.OK) (fun _ => Some Admin.OK)
    (fun _ => Some (Admin.Error Admin.NotFound "no such table" "")).

Definition offline : Admin.Client :=
  Admin.mkClient (Some (Admin.Error (Admin.Other 3) "timed out" ""))
    (fun _ _ _ _ => Some Admin.OK) (Some Admin.OK)
    (Some Admin.OK) (fun _ => Some Admin.OK) (fun _ => Some Admin.OK)
    (fun _ => Some Admin.OK).

End AdminSample.

(** ** The methods *)

(** Modelled from the spec: [InsertIfNotPresent] of yb/gutil/map-util.h is
    not among the sources; register "fails ... if name is already registered;
    otherwise inserts".  The result is the map and whether it inserted. *)
Definition InsertIfNotPresent {V} (collection : gmap string V) (key : string) (value : V)
  : gmap string V * bool :=
  match collection !! key with
  | Some _ => (collection, false)
  | None => (<[key := value]> collection, true)
  end.

Section Methods.

(** [hash_value(const Endpoint&)] (a [size_t]); its code is not among the
    sources and the methods are parametric in it. *)
Variable hash_value : Endpoint -> Z.

(** Whether [NDEBUG] is defined, as it is in the release build; the
    methods are parametric in the build. *)
Variable NDEBUG : bool.

(** [DCHECK(condition)]: nothing in the release build, [CHECK(condition)]
    in the debug build. *)
Definition DCHECK (condition : bool) : Action unit :=
  fun m => if NDEBUG || condition then Returns tt m [] else CheckFailed [].

(** The reactors the constructor makes, [num_reactors] being the [int]
    [bld.num_reactors_]:
    [for (int i = 0; i < bld.num_reactors_; i++)
       reactors_.push_back(new Reactor(retain_self_, i, bld));] *)
Definition Messenger_reactors (num_reactors : Z) : list Reactor :=
  mkReactor <$> seq 0 (Z.to_nat num_reactors).

Definition RemoteToReactor (ep : Endpoint) (i : Z) : Action Reactor :=
  let hashCode := to_uint32 (hash_value ep) in
  reactors ← gets reactors_;
  if decide (reactors = []) then undefined_behaviour       (* % 0 *)
  else
    let reactor_idx :=
      to_int (to_uint32 (hashCode + i) mod Z.of_nat (length reactors)) in
    if decide (reactor_idx < 0) then undefined_behaviour   (* reactors_[negative] *)
    else match reactors !! Z.to_nat reactor_idx with
         | Some r => mret r
         | None => undefined_behaviour
         end.

(** The position in [reactors_] that [RemoteToReactor] computes when the
    remainder fits an [int]. *)
Definition position (ep : Endpoint) (i : Z) (n : nat) : nat :=
  Z.to_nat (to_uint32 (to_uint32 (hash_value ep) + i) mod Z.of_nat n).

Definition Shutdown : Action unit :=
  (* ThreadRestrictions::ScopedAllowWait allow_wait; *)
  (* { std::lock_guard<percpu_rwlock> guard(lock_); *)
  closing ← gets closing_;
  if closing : bool then mret tt
  else
    modify (set_closing_ true);;
    services ← gets rpc_services_;
    DCHECK (bool_decide (services = ∅));;
      (* << "Unregister RPC services before shutting down Messenger" *)
    modify (set_rpc_services_ ∅);;
    acceptor ← gets acceptor_;                   (* acceptor.swap(acceptor_) *)
    modify (set_acceptor_ None);;
    reactors ← gets reactors_;                   (* reactors = reactors_ *)
    (* } *)
    match acceptor with
    | Some a => emit (Acceptor_Shutdown a)
    | None => mret tt
    end;;
    for_each reactors (fun r => emit (Reactor_Shutdown r));;
    emit Scheduler_Shutdown;;
    emit IoThreadPool_Shutdown;;
    for_each reactors (fun r => emit (Reactor_Join r));;
    emit IoThreadPool_Join.

(** [fresh] is the address at which [new CountDownLatch] puts the latch. *)
Definition BreakConnectivityWith (addr : IpAddress) (fresh : nat) : Action unit :=
  (* { std::lock_guard<percpu_rwlock> guard(lock_); *)
  broken ← gets broken_connectivity_;
  (if decide (broken = ∅)
   then modify (set_has_broken_connectivity_ true)
   else mret tt);;
  if decide (addr ∈ broken)
  then mret tt            (* insert(address).second is false: latch stays null *)
  else
    modify (set_broken_connectivity_ ({[addr]} ∪ broken));;
    reactors ← gets reactors_;
    let latch := mkCountDownLatch fresh (length reactors) in
    emit (CountDownLatch_new latch);;
    for_each reactors
      (fun r => emit (Reactor_ScheduleReactorTask r (DropFunctor latch addr)));;
    (* } *)
    emit (CountDownLatch_Wait latch).

Definition RestoreConnectivityWith (addr : IpAddress) : Action unit :=
  broken ← gets broken_connectivity_;
  modify (set_broken_connectivity_ (broken ∖ {[addr]}));;
  if decide (broken ∖ {[addr]} = ∅)
  then modify (set_has_broken_connectivity_ false)
  else mret tt.

Definition IsArtificiallyDisconnectedFrom (addr : IpAddress) : Action bool :=
  flag ← gets has_broken_connectivity_;
  if flag : bool
  then broken ← gets broken_connectivity_;
       mret (bool_decide (addr ∈ broken))       (* count(remote) != 0 *)
  else mret false.

Definition ShutdownAcceptor : Action unit :=
  acceptor ← gets acceptor_;
  modify (set_acceptor_ None);;
  match acceptor with
  | Some a => emit (Acceptor_Shutdown a)
  | None => mret tt
  end.

Definition UpdateServicesCache : Action unit :=
  (* DCHECK_ONLY_NOTNULL(guard) *)
  services ← gets rpc_services_;
  modify (set_rpc_services_cache_ services).     (* rpc_services_cache_.Set *)

Definition RegisterService (name : string) (service : RpcService) : Action Status :=
  (* DCHECK(service) *)
  services ← gets rpc_services_;
  let (services', inserted) := InsertIfNotPresent services name service in
  modify (set_rpc_services_ services');;
  if inserted : bool
  then UpdateServicesCache;; mret Status_OK
  else mret (STATUS kAlreadyPresent ("Service " +:+ name +:+ " is already present")).

Definition UnregisterAllServices : Action Status :=
  modify (set_rpc_services_ ∅);;       (* rpc_services_.swap(rpc_services_copy) *)
  UpdateServicesCache;;
  mret Status_OK.

Definition UnregisterService (name : string) : Action Status :=
  services ← gets rpc_services_;
  modify (set_rpc_services_ (delete name services));;
  if decide (is_Some (services !! name))         (* erase returned 1 *)
  then UpdateServicesCache;; mret Status_OK
  else
    self ← gets name_;
    mret (STATUS kServiceUnavailable
            ("service " +:+ name +:+ " not registered on " +:+ self)).

Definition QueueOutboundCall (call : OutboundCall) : Action unit :=
  let ep := remote (conn_id call) in
  reactor ← RemoteToReactor ep (idx (conn_id call));
  disconnected ← IsArtificiallyDisconnectedFrom (address ep);
  if disconnected : bool
  then
    emit (Reactor_ScheduleReactorTask reactor
            (TransferredFunctor call
               (STATUS kNetworkError "TEST: Connectivity is broken")))
  else emit (Reactor_QueueOutboundCall reactor call).

(** The null [scoped_refptr] is [None]. *)
Definition rpc_service (name : string) : Action (option RpcService) :=
  cache ← gets rpc_services_cache_;
  mret (cache !! name).

Definition not_registered (name self : string) : Status :=
  STATUS kServiceUnavailable ("Service " +:+ name +:+ " not registered on " +:+ self).

Definition QueueInboundCall (call : InboundCall) : Action unit :=
  service ← rpc_service (service_name call);
  match service with
  | None =>
      self ← gets name_;
      emit (InboundCall_RespondFailure call ERROR_NO_SUCH_SERVICE
              (not_registered (service_name call) self))
  | Some svc => emit (RpcService_QueueInboundCall svc call)
  end.

Definition Handle (call : InboundCall) : Action unit :=
  service ← rpc_service (service_name call);
  match service with
  | None =>
      self ← gets name_;
      emit (InboundCall_RespondFailure call ERROR_NO_SUCH_SERVICE
              (not_registered (service_name call) self))
  | Some svc => emit (RpcService_Handle svc call)
  end.

Definition RemoveScheduledTask (id : Z) : Action unit :=
  CHECK_NE id (-1);;
  tasks ← gets scheduled_tasks_;
  modify (set_scheduled_tasks_ (delete id tasks)).

Definition AbortOnReactor (id : Z) : Action unit :=
  (* DCHECK(!reactors_.empty()) *)
  CHECK_NE id (-1);;
  tasks ← gets scheduled_tasks_;
  match tasks !! id with
  | Some task =>
      emit (DelayedTask_AbortTask task (STATUS kAborted "Task aborted by messenger"));;
      modify (set_scheduled_tasks_ (delete id tasks))
  | None => mret tt
  end.

(** The loop of [ScheduleOnReactor] over [reactors_]: the last reactor
    whose thread is the calling one, if any. *)
Definition current_reactor (IsCurrentThread : Reactor -> bool) (reactors : list Reactor)
  : option Reactor :=
  fold_left (fun chosen r => if IsCurrentThread r then Some r else chosen) reactors None.

(** [IsCurrentThread] is [Reactor::IsCurrentThread] for the calling thread,
    [rnd] the value [rand()] returns, [msgr] whether the messenger pointer
    given is non-null. *)
Definition ScheduleOnReactor (IsCurrentThread : Reactor -> bool) (rnd : Z)
    (func : Functor) (when : Z) (msgr : bool) : Action Z :=
  (* DCHECK(!reactors_.empty()) *)
  reactors ← gets reactors_;
  chosen ← match current_reactor IsCurrentThread reactors with
           | Some r => mret r
           | None =>
               if decide (reactors = []) then undefined_behaviour   (* % 0 *)
               else match reactors !! Z.to_nat (to_size_t rnd mod Z.of_nat (length reactors)) with
                    | Some r => mret r
                    | None => undefined_behaviour
                    end
           end;
  id ← (if msgr : bool
        then next ← gets next_task_id_;         (* next_task_id_.fetch_add(1) *)
             modify (set_next_task_id_ (to_int64 (next + 1)));;
             mret next
        else mret 0);
  let task := mkDelayedTask func when id msgr in
  (if msgr : bool
   then tasks ← gets scheduled_tasks_;
        modify (set_scheduled_tasks_ (<[id := task]> tasks))
   else mret tt);;
  emit (Reactor_ScheduleReactorTask chosen (DelayedReactorTask task));;
  mret id.

(** *** Running a sequence of calls *)

Definition exec (c : Call) : Action unit :=
  match c with
  | Call_Shutdown => Shutdown
  | Call_BreakConnectivityWith addr fresh => BreakConnectivityWith addr fresh
  | Call_RestoreConnectivityWith addr => RestoreConnectivityWith addr
  | Call_ShutdownAcceptor => ShutdownAcceptor
  | Call_RegisterService name service => RegisterService name service ;; mret tt
  | Call_UnregisterAllServices => UnregisterAllServices ;; mret tt
  | Call_UnregisterService name => UnregisterService name ;; mret tt
  | Call_QueueOutboundCall call => QueueOutboundCall call
  | Call_QueueInboundCall call => QueueInboundCall call
  | Call_Handle call => Handle call
  | Call_RemoveScheduledTask id => RemoveScheduledTask id
  | Call_AbortOnReactor id => AbortOnReactor id
  | Call_ScheduleOnReactor cur rnd func when msgr =>
      ScheduleOnReactor cur rnd func when msgr ;; mret tt
  end.

Definition exec_all (cs : list Call) : Action unit := for_each cs exec.

(** Whether a call can take the registration of [name] away:
    [UnregisterService] of the name, [UnregisterAllServices], and [Shutdown],
    which empties the registry (its [DCHECK] wants it empty before). *)
Definition unregisters (name : string) (c : Call) : bool :=
  match c with
  | Call_UnregisterService n => bool_decide (n = name)
  | Call_UnregisterAllServices | Call_Shutdown => true
  | _ => false
  end.

(** The invariant that ties the flag to the set of broken addresses. *)
Definition connectivity_inv (m : Messenger) : Prop :=
  has_broken_connectivity_ m = true <-> broken_connectivity_ m <> ∅.


(** *** Further invariants *)

(** The published copy is the registry. *)
Definition snapshot_inv (m : Messenger) : Prop :=
  rpc_services_cache_ m = rpc_services_ m.

(** Every identifier in the map of scheduled tasks is below the counter. *)
Definition tasks_below (m : Messenger) : Prop :=
  forall id, is_Some (scheduled_tasks_ m !! id) -> id < next_task_id_ m.


(** ** The methods on the whole object *)

(** [DECLARE_int32(num_connections_to_server)]: a flag defined in another
    file; the methods are parametric in its value. *)
Variable FLAGS_num_connections_to_server : Z.

(** [Messenger::Messenger(const MessengerBuilder &bld)], run on the object
    as the declarations of its members leave it. *)
Definition Messenger_Messenger (bld : MessengerBuilder.t) (FLAGS_io_thread_pool_size : Z)
  : Method unit :=
  update (fun o => set_members (set_name_ (MessengerBuilder.name_ bld) (members o)) o);;
  update (set_metric_entity_ (MessengerBuilder.metric_entity_ bld));;
  update (set_retain_self_ true);;                      (* retain_self_(this) *)
  effect (IoThreadPool_new FLAGS_io_thread_pool_size);;
  effect Scheduler_new;;
  (* for (int i = 0; i < bld.num_reactors_; i++) *)
  each (seq 0 (Z.to_nat (MessengerBuilder.num_reactors_ bld)))
    (fun i =>
       effect (Reactor_new (mkReactor i) bld);;
       update (fun o =>
         set_members (set_reactors_ (reactors_ (members o) ++ [mkReactor i]) (members o)) o)).

(** [Messenger::~Messenger()] *)
Definition Messenger_destructor : Method unit :=
  (* std::lock_guard<percpu_rwlock> guard(lock_); *)
  closing ← reads (fun o => closing_ (members o));
  CHECK closing;;                         (* << "Should have already shut down" *)
  (* STLDeleteElements(&reactors_): deletes every element, then clear() *)
  reactors ← reads (fun o => reactors_ (members o));
  each reactors (fun r => effect (Reactor_delete r));;
  update (fun o => set_members (set_reactors_ [] (members o)) o).

(** [init r] is what [r->Init()] returns. *)
Definition Messenger_Init (init : Reactor -> Status) : Method Status :=
  reactors ← reads (fun o => reactors_ (members o));
  each_RETURN_NOT_OK reactors Reactor_Init init.

(** [Messenger::AllExternalReferencesDropped], the deleter of the
    [shared_ptr] that [Build] returns. *)
Definition AllExternalReferencesDropped : Method unit :=
  lift Shutdown;;
  retain ← reads retain_self_;
  CHECK retain;;                          (* CHECK(retain_self_.get()) *)
  update (set_retain_self_ false).        (* retain_self_.reset() *)

(** [MessengerBuilder::Build].  When [RETURN_NOT_OK] returns, the
    [unique_ptr] deletes the messenger. *)
Definition MessengerBuilder_Build (bld : MessengerBuilder.t) (FLAGS_io_thread_pool_size : Z)
    (init : Reactor -> Status) : Method Built :=
  Messenger_Messenger bld FLAGS_io_thread_pool_size;;
  s ← Messenger_Init init;
  if Status_ok s then mret Built_messenger
  else Messenger_destructor;; mret (Built_error s).

(** [fresh] tells the new acceptor from the others; [listen] is what
    [acceptor->Listen(accept_endpoint, bound_endpoint)] returns. *)
Definition ListenAddress (accept_endpoint : Endpoint) (fresh : nat) (listen : Status)
  : Method Status :=
  (* { std::lock_guard<percpu_rwlock> guard(lock_); *)
  installed ← reads (fun o => acceptor_ (members o));
  acceptor ← match installed with
             | Some a => mret a
             | None =>
                 let a := mkAcceptor fresh in
                 effect (Acceptor_new a);;
                 update (fun o => set_members (set_acceptor_ (Some a) (members o)) o);;
                 mret a
             end;
  let accept_host := address accept_endpoint in
  outbound_address ← reads (if is_v6 accept_host then outbound_address_v6_
                            else outbound_address_v4_);
  (if is_unspecified outbound_address && negb (is_unspecified accept_host)
   then update (if is_v6 accept_host then set_outbound_address_v6_ accept_host
                else set_outbound_address_v4_ accept_host)
   else mret tt);;
  (* } *)
  effect (Acceptor_Listen acceptor accept_endpoint);;
  mret listen.

(** [start] is what [acceptor_->Start()] returns. *)
Definition StartAcceptor (start : Status) : Method Status :=
  installed ← reads (fun o => acceptor_ (members o));
  match installed with
  | Some a => effect (Acceptor_Start a);; mret start
  | None => mret (STATUS kIllegalState "Trying to start acceptor w/o active addresses")
  end.

Definition RegisterInboundSocket (new_socket : Socket) (remote : Endpoint) : Method unit :=
  disconnected ← lift (IsArtificiallyDisconnectedFrom (address remote));
  if disconnected : bool
  then effect (Socket_Close new_socket)    (* LOG(INFO) << "TEST: Rejected connection" *)
  else
    accepted ← reads num_connections_accepted_;             (* fetch_add(1) *)
    update (set_num_connections_accepted_ (to_int (accepted + 1)));;
    if decide (FLAGS_num_connections_to_server = 0
               \/ (accepted = - 2 ^ 31 /\ FLAGS_num_connections_to_server = -1))
    then unspecified                                        (* % 0, INT_MIN % -1 *)
    else
      let idx := Z.rem accepted FLAGS_num_connections_to_server in
      reactor ← lift (RemoteToReactor remote (to_uint32 idx));
      effect (Reactor_RegisterInboundSocket reactor new_socket remote).

Definition max_concurrent_requests : Method Z :=
  mret (to_size_t FLAGS_num_connections_to_server).

(** [dump r] is what [r->DumpRunningRpcs(req, resp)] returns. *)
Definition DumpRunningRpcs (dump : Reactor -> Status) : Method Status :=
  reactors ← reads (fun o => reactors_ (members o));
  each_RETURN_NOT_OK reactors Reactor_DumpRunningRpcs dump.

Definition QueueEventOnAllReactors (server_event : ServerEventList) : Method Status :=
  reactors ← reads (fun o => reactors_ (members o));
  each reactors (fun r => effect (Reactor_QueueEventOnAllConnections r server_event));;
  mret Status_OK.

(** *** Sequences of calls on the whole object *)

Inductive Op :=
  | Op_Call (c : Call)
  | Op_AllExternalReferencesDropped
  | Op_Init (init : Reactor -> Status)
  | Op_ListenAddress (accept_endpoint : Endpoint) (fresh : nat) (listen : Status)
  | Op_StartAcceptor (start : Status)
  | Op_RegisterInboundSocket (new_socket : Socket) (remote : Endpoint)
  | Op_DumpRunningRpcs (dump : Reactor -> Status)
  | Op_QueueEventOnAllReactors (server_event : ServerEventList).

Definition invoke (op : Op) : Method unit :=
  match op with
  | Op_Call c => lift (exec c)
  | Op_AllExternalReferencesDropped => AllExternalReferencesDropped
  | Op_Init init => Messenger_Init init;; mret tt
  | Op_ListenAddress accept_endpoint fresh listen =>
      ListenAddress accept_endpoint fresh listen;; mret tt
  | Op_StartAcceptor start => StartAcceptor start;; mret tt
  | Op_RegisterInboundSocket new_socket remote => RegisterInboundSocket new_socket remote
  | Op_DumpRunningRpcs dump => DumpRunningRpcs dump;; mret tt
  | Op_QueueEventOnAllReactors server_event =>
      QueueEventOnAllReactors server_event;; mret tt
  end.

Definition invoke_all (ops : list Op) : Method unit := each ops invoke.

(** The acceptors that the calls of [ListenAddress] in a sequence would
    make. *)
Definition new_acceptors (ops : list Op) : list Acceptor :=
  omap (fun op => match op with
                  | Op_ListenAddress _ fresh _ => Some (mkAcceptor fresh)
                  | _ => None
                  end) ops.

(** The calls on acceptor [a] in a trace. *)
Definition calls_on (a : Acceptor) (t : list Effect) : list Effect :=
  filter (fun e => on_acceptor e = Some a) t.


(** The hosts of the addresses that the calls of [ListenAddress] in a
    sequence listen on, and the first of them of a family ([v6] or not)
    that is specified. *)
Definition listen_hosts (ops : list Op) : list IpAddress :=
  omap (fun op => match op with
                  | Op_ListenAddress accept_endpoint _ _ => Some (address accept_endpoint)
                  | _ => None
                  end) ops.

Definition first_specified (v6 : bool) (hosts : list IpAddress) : option IpAddress :=
  head (filter (fun a => is_v6 a = v6 /\ is_unspecified a = false) hosts).


(** A use of acceptor [a]: a call of its [Listen] or of its [Start]. *)
Definition is_use (a : Acceptor) (e : Effect) : Prop :=
  e = Acceptor_Start a \/ exists accept_endpoint, e = Acceptor_Listen a accept_endpoint.

(** The life of acceptor [a] in the calls on it: there are none and it is
    not installed; or it is made and then used, and is installed; or it is
    made, used, and shut down last, and is not installed. *)
Definition acceptor_life (a : Acceptor) (installed : Prop) (calls : list Effect) : Prop :=
  (calls = [] /\ ~ installed) \/
  exists uses,
    Forall (is_use a) uses /\
    ((calls = Acceptor_new a :: uses /\ installed) \/
     (calls = Acceptor_new a :: uses ++ [Collaborator (Acceptor_Shutdown a)]
      /\ ~ installed)).


(** The object with [closing_] set to [b], and an outcome with its object
    changed by [f]. *)
Definition with_closing (b : bool) (o : MessengerObject) : MessengerObject :=
  set_members (set_closing_ b (members o)) o.

Definition Outcome_map {A} (f : MessengerObject -> MessengerObject) (r : Outcome A)
  : Outcome A :=
  match r with
  | Finished a o t => Finished a (f o) t
  | Aborted t => Aborted t
  | Unspecified => Unspecified
  end.


(** * Properties *)

(** ** Running actions *)

Lemma for_each_emit {A} (f : A -> Event) (xs : list A) (m : Messenger) :
  for_each xs (fun x => emit (f x)) m = Returns tt m (f <$> xs).
Proof.
  induction xs as [|x xs IH]; [reflexivity|].
  cbn [for_each]. unfold mbind, Action_bind, emit at 1. cbn beta iota.
  rewrite IH. reflexivity.
Qed.

Lemma for_each_returns {A} (f : A -> Event) (xs : list A) (m : Messenger) :
  for_each xs (fun x m' => Returns tt m' [f x]) m = Returns tt m (f <$> xs).
Proof. exact (for_each_emit f xs m). Qed.

(** Unfolds the monad; what is left is a tree of [match]es. *)
Ltac unfold_monad :=
  unfold mbind, Action_bind, mret, Action_ret, gets, modify, emit,
    undefined_behaviour, CHECK_NE, DCHECK in *.

Ltac unfold_methods :=
  unfold exec in *;
  unfold Shutdown, BreakConnectivityWith, RestoreConnectivityWith, ShutdownAcceptor,
    RegisterService, UnregisterAllServices, UnregisterService, QueueOutboundCall,
    QueueInboundCall, Handle, RemoveScheduledTask, AbortOnReactor,
    ScheduleOnReactor in *;
  unfold RemoteToReactor, IsArtificiallyDisconnectedFrom, UpdateServicesCache,
    rpc_service, InsertIfNotPresent in *.

(** Runs a method symbolically, splitting on every test it makes. *)
Ltac run_method :=
  unfold_methods; unfold_monad; cbn beta iota in *;
  rewrite ?for_each_returns in *;
  repeat (case_match; simplify_eq/=; rewrite ?for_each_returns in * );
  simplify_eq/=.

(** *** What no call changes *)

Lemma exec_reactors (c : Call) (m m' : Messenger) (t : list Event) :
  exec c m = Returns tt m' t -> reactors_ m' = reactors_ m.
Proof. destruct c; intros H; run_method; reflexivity. Qed.

Lemma exec_closing (c : Call) (m m' : Messenger) (t : list Event) :
  exec c m = Returns tt m' t -> closing_ m = true -> closing_ m' = true.
Proof. destruct c; intros H Hc; run_method; try reflexivity; congruence. Qed.

Lemma exec_all_cons (c : Call) (cs : list Call) (m m' : Messenger) (t : list Event) :
  exec_all (c :: cs) m = Returns tt m' t ->
  exists m1 t1 t2,
    exec c m = Returns tt m1 t1 /\ exec_all cs m1 = Returns tt m' t2 /\ t = t1 ++ t2.
Proof.
  unfold exec_all. cbn [for_each]. unfold mbind, Action_bind.
  destruct (exec c m) as [[] m1 t1| |]; [|discriminate..].
  destruct (for_each cs exec m1) as [[] m2 t2| |] eqn:E; [|discriminate..].
  intros [= <- <-]. eauto 6.
Qed.

(** A property every call keeps is kept by every sequence of calls. *)
Lemma exec_all_invariant (P : Messenger -> Prop) :
  (forall c m m' t, exec c m = Returns tt m' t -> P m -> P m') ->
  forall cs m m' t, exec_all cs m = Returns tt m' t -> P m -> P m'.
Proof.
  intros Hstep cs. induction cs as [|c cs IH]; intros m m' t Hrun HP.
  - injection Hrun as <- _. exact HP.
  - apply exec_all_cons in Hrun as (m1 & t1 & t2 & H1 & H2 & _). eauto.
Qed.

Lemma exec_all_reactors (cs : list Call) (m m' : Messenger) (t : list Event) :
  exec_all cs m = Returns tt m' t -> reactors_ m' = reactors_ m.
Proof.
  intros H. apply (exec_all_invariant (fun x => reactors_ x = reactors_ m)) in H; auto.
  intros c m1 m2 t1 Hc <-. eapply exec_reactors, Hc.
Qed.

Lemma exec_all_closing (cs : list Call) (m m' : Messenger) (t : list Event) :
  exec_all cs m = Returns tt m' t -> closing_ m = true -> closing_ m' = true.
Proof.
  intros H Hc. eapply (exec_all_invariant (fun x => closing_ x = true)); eauto.
  intros c m1 m2 t1 Hx. eapply exec_closing, Hx.
Qed.

(** *** Routing *)

Lemma to_int_small (z : Z) : 0 <= z <= INT_MAX -> to_int z = z.
Proof.
  unfold to_int, INT_MAX. intros Hz.
  rewrite Z.mod_small by lia. lia.
Qed.

Lemma position_lt (ep : Endpoint) (i : Z) (n : nat) :
  (1 <= n)%nat -> (position ep i n < n)%nat.
Proof.
  intros Hn. unfold position.
  pose proof (Z.mod_pos_bound (to_uint32 (to_uint32 (hash_value ep) + i)) (Z.of_nat n)).
  lia.
Qed.

Lemma RemoteToReactor_position (m : Messenger) (ep : Endpoint) (i : Z) (r : Reactor) :
  Z.of_nat (length (reactors_ m)) <= INT_MAX ->
  reactors_ m !! position ep i (length (reactors_ m)) = Some r ->
  RemoteToReactor ep i m = Returns r m [].
Proof.
  intros Hmax Hr.
  assert (Hne : reactors_ m <> []).
  { intros E. rewrite E in Hr. discriminate. }
  unfold RemoteToReactor. unfold_monad. cbn beta iota.
  destruct (decide (reactors_ m = [])) as [|_]; [contradiction|].
  assert (Hlen : (1 <= length (reactors_ m))%nat).
  { destruct (reactors_ m); [contradiction|simpl; lia]. }
  pose proof (Z.mod_pos_bound (to_uint32 (to_uint32 (hash_value ep) + i))
                (Z.of_nat (length (reactors_ m)))) as Hb.
  rewrite to_int_small by lia.
  destruct (decide (_ < 0)) as [Hneg|_]; [lia|].
  fold (position ep i (length (reactors_ m))). rewrite Hr. reflexivity.
Qed.

Lemma RemoteToReactor_returns (m : Messenger) (ep : Endpoint) (i : Z) :
  (1 <= length (reactors_ m))%nat ->
  Z.of_nat (length (reactors_ m)) <= INT_MAX ->
  exists r,
    reactors_ m !! position ep i (length (reactors_ m)) = Some r /\
    RemoteToReactor ep i m = Returns r m [].
Proof.
  intros Hmin Hmax.
  destruct (lookup_lt_is_Some_2 (reactors_ m) (position ep i (length (reactors_ m))))
    as [r Hr]; [apply position_lt, Hmin|].
  exists r. split; [exact Hr|]. apply RemoteToReactor_position; assumption.
Qed.

Lemma Messenger_reactors_lookup (num_reactors : Z) (p : nat) (r : Reactor) :
  Messenger_reactors num_reactors !! p = Some r -> r = mkReactor p.
Proof.
  unfold Messenger_reactors. rewrite list_lookup_fmap.
  destruct (seq 0 (Z.to_nat num_reactors) !! p) as [q|] eqn:E; [|discriminate].
  apply lookup_seq in E as [-> _]. cbn. congruence.
Qed.

Lemma Messenger_reactors_length (num_reactors : Z) :
  0 <= num_reactors -> Z.of_nat (length (Messenger_reactors num_reactors)) = num_reactors.
Proof.
  intros H. unfold Messenger_reactors. rewrite length_fmap, length_seq. lia.
Qed.

(** C1. For every reactor count N from 1 to INT_MAX (the builder keeps the
    count in an [int]) and every remote endpoint and connection index,
    [RemoteToReactor] returns, without changing the messenger, the reactor
    at position (hash + index) modulo N of [reactors_], the sum being the
    [uint32_t] sum the code computes; and after any sequence of calls of
    the methods embedded it returns that same reactor again.  With the
    reactors as the constructor makes them, it is the reactor made with
    that number. *)
Theorem C1_RemoteToReactor_stable (m : Messenger) (ep : Endpoint) (i : Z) :
  (1 <= length (reactors_ m))%nat ->
  Z.of_nat (length (reactors_ m)) <= INT_MAX ->
  let pos :=
    Z.to_nat (to_uint32 (to_uint32 (hash_value ep) + i)
              mod Z.of_nat (length (reactors_ m))) in
  exists r,
    reactors_ m !! pos = Some r /\
    RemoteToReactor ep i m = Returns r m [] /\
    (forall cs m' t,
       exec_all cs m = Returns tt m' t -> RemoteToReactor ep i m' = Returns r m' []) /\
    (forall num_reactors,
       reactors_ m = Messenger_reactors num_reactors -> r = mkReactor pos).
Proof.
  intros Hmin Hmax pos.
  destruct (RemoteToReactor_returns m ep i Hmin Hmax) as (r & Hr & Hrun0).
  exists r. split; [exact Hr|]. split; [exact Hrun0|]. split.
  - intros cs m' t Hrun. apply exec_all_reactors in Hrun.
    apply RemoteToReactor_position; rewrite Hrun; assumption.
  - intros n Hn. unfold position in Hr. fold pos in Hr. rewrite Hn in Hr.
    eapply Messenger_reactors_lookup, Hr.
Qed.

(** *** Shutdown *)

Lemma Shutdown_closing (m : Messenger) :
  closing_ m = true -> Shutdown m = Returns tt m [].
Proof. intros H. unfold Shutdown. unfold_monad. cbn beta iota. rewrite H. reflexivity. Qed.

Lemma Shutdown_first (m : Messenger) :
  closing_ m = false ->
  NDEBUG = true \/ rpc_services_ m = ∅ ->
  Shutdown m =
    Returns tt
      (mkMessenger (name_ m) (reactors_ m) None ∅ (rpc_services_cache_ m)
         (scheduled_tasks_ m) (next_task_id_ m) (broken_connectivity_ m)
         (has_broken_connectivity_ m) true)
      (match acceptor_ m with Some a => [Acceptor_Shutdown a] | None => [] end
       ++ (Reactor_Shutdown <$> reactors_ m)
       ++ [Scheduler_Shutdown; IoThreadPool_Shutdown]
       ++ (Reactor_Join <$> reactors_ m)
       ++ [IoThreadPool_Join]).
Proof.
  intros H Hcheck. unfold Shutdown. unfold_monad. cbn beta iota. rewrite H.
  assert (Hpass : NDEBUG || bool_decide (rpc_services_ m = ∅) = true).
  { destruct Hcheck as [->|Hempty]; [reflexivity|].
    rewrite (bool_decide_eq_true_2 _ Hempty). apply orb_true_r. }
  cbn. rewrite Hpass.
  destruct m as [nm rs [a|] svc cache tasks next broken flag closing];
    cbn; rewrite !for_each_returns; reflexivity.
Qed.

Lemma Shutdown_DCHECK (m : Messenger) :
  closing_ m = false ->
  NDEBUG = false -> rpc_services_ m <> ∅ ->
  Shutdown m = CheckFailed [].
Proof.
  intros H Hdebug Hservices. unfold Shutdown. unfold_monad. cbn beta iota. rewrite H.
  cbn. rewrite Hdebug, (bool_decide_eq_false_2 _ Hservices). reflexivity.
Qed.

Lemma exec_all_Shutdown_closing (n : nat) (m : Messenger) :
  closing_ m = true -> exec_all (replicate n Call_Shutdown) m = Returns tt m [].
Proof.
  intros H. induction n as [|n IH]; [reflexivity|].
  unfold exec_all in *. cbn [replicate for_each exec].
  unfold mbind, Action_bind. rewrite (Shutdown_closing m H), IH. reflexivity.
Qed.

(** C2. In the release build, and in the debug build on a registry that
    is empty, as the [DCHECK] wants it: the first [Shutdown] (closing not
    yet set) sets closing, clears the service registry, takes the acceptor
    out of the messenger and copies the reactor list, then shuts down the
    acceptor if there is one, every
    reactor, the scheduler and the IO thread pool, and joins every reactor
    and the pool, in this order.  A [Shutdown] of a messenger that is
    closing returns at once, with no call made and the messenger unchanged;
    so any number n+1 of calls in a row gives the state and the calls of
    one, and a later [Shutdown], whatever was called in between, does
    nothing.  Every call returns. *)
Theorem C2_Shutdown_idempotent (m : Messenger) (n : nat) :
  closing_ m = false ->
  NDEBUG = true \/ rpc_services_ m = ∅ ->
  let after :=
    mkMessenger (name_ m) (reactors_ m) None ∅ (rpc_services_cache_ m)
      (scheduled_tasks_ m) (next_task_id_ m) (broken_connectivity_ m)
      (has_broken_connectivity_ m) true in
  let sequence :=
    match acceptor_ m with Some a => [Acceptor_Shutdown a] | None => [] end
    ++ (Reactor_Shutdown <$> reactors_ m)
    ++ [Scheduler_Shutdown; IoThreadPool_Shutdown]
    ++ (Reactor_Join <$> reactors_ m)
    ++ [IoThreadPool_Join] in
  Shutdown m = Returns tt after sequence /\
  Shutdown after = Returns tt after [] /\
  exec_all (replicate (S n) Call_Shutdown) m = Returns tt after sequence /\
  (forall cs m' t,
     exec_all cs after = Returns tt m' t -> Shutdown m' = Returns tt m' []).
Proof.
  intros H Hcheck after sequence.
  pose proof (Shutdown_first m H Hcheck) as Hfirst. fold after sequence in Hfirst.
  split; [exact Hfirst|]. split; [apply Shutdown_closing; reflexivity|]. split.
  - unfold exec_all. cbn [replicate for_each exec].
    unfold mbind, Action_bind. rewrite Hfirst.
    pose proof (exec_all_Shutdown_closing n after eq_refl) as Hrest.
    unfold exec_all in Hrest. rewrite Hrest, app_nil_r. reflexivity.
  - intros cs m' t Hrun. apply Shutdown_closing.
    eapply exec_all_closing; [exact Hrun|reflexivity].
Qed.

(** *** The service registry *)

Lemma set_rpc_services_same (m : Messenger) : set_rpc_services_ (rpc_services_ m) m = m.
Proof. destruct m; reflexivity. Qed.

Lemma RegisterService_present (m : Messenger) (name : string) (service old : RpcService) :
  rpc_services_ m !! name = Some old ->
  RegisterService name service m =
    Returns (STATUS kAlreadyPresent ("Service " +:+ name +:+ " is already present")) m [].
Proof.
  intros H. unfold RegisterService, InsertIfNotPresent. unfold_monad.
  cbn beta iota. rewrite H. cbn. rewrite set_rpc_services_same. reflexivity.
Qed.

Lemma RegisterService_absent (m : Messenger) (name : string) (service : RpcService) :
  rpc_services_ m !! name = None ->
  RegisterService name service m =
    Returns Status_OK
      (mkMessenger (name_ m) (reactors_ m) (acceptor_ m)
         (<[name := service]> (rpc_services_ m)) (<[name := service]> (rpc_services_ m))
         (scheduled_tasks_ m) (next_task_id_ m) (broken_connectivity_ m)
         (has_broken_connectivity_ m) (closing_ m)) [].
Proof.
  intros H. unfold RegisterService, UpdateServicesCache, InsertIfNotPresent.
  unfold_monad. cbn beta iota. rewrite H. reflexivity.
Qed.

Lemma exec_keeps_registered (name : string) (c : Call) (m m' : Messenger)
    (t : list Event) :
  unregisters name c = false ->
  exec c m = Returns tt m' t ->
  is_Some (rpc_services_ m !! name) -> is_Some (rpc_services_ m' !! name).
Proof.
  destruct c; intros Hc H Hreg; try discriminate Hc; run_method; try exact Hreg.
  - rewrite lookup_insert_is_Some. destruct (decide (name0 = name)); auto.
  - apply bool_decide_eq_false in Hc. rewrite lookup_delete_ne by exact Hc. exact Hreg.
  - apply bool_decide_eq_false in Hc. rewrite lookup_delete_ne by exact Hc. exact Hreg.
Qed.

Lemma exec_all_keeps_registered (name : string) (cs : list Call) (m m' : Messenger)
    (t : list Event) :
  Forall (fun c => unregisters name c = false) cs ->
  exec_all cs m = Returns tt m' t ->
  is_Some (rpc_services_ m !! name) -> is_Some (rpc_services_ m' !! name).
Proof.
  revert m t. induction cs as [|c cs IH]; intros m t Hcs Hrun Hreg.
  - injection Hrun as <- _. exact Hreg.
  - apply Forall_cons in Hcs as [Hc Hcs].
    apply exec_all_cons in Hrun as (m1 & t1 & t2 & H1 & H2 & _).
    eapply IH; [exact Hcs|exact H2|]. eapply exec_keeps_registered; eassumption.
Qed.

Lemma RegisterService_registers (m m' : Messenger) (name : string) (service : RpcService)
    (s : Status) (t : list Event) :
  RegisterService name service m = Returns s m' t ->
  is_Some (rpc_services_ m' !! name).
Proof.
  intros H. destruct (rpc_services_ m !! name) as [old|] eqn:E.
  - rewrite (RegisterService_present m name service old E) in H.
    injection H as _ <- _. rewrite E. eauto.
  - rewrite (RegisterService_absent m name service E) in H.
    injection H as _ <- _. cbn. rewrite lookup_insert_eq. eauto.
Qed.

(** C4. [RegisterService] of a name that is registered returns
    AlreadyPresent and leaves the messenger, registry and published copy
    included, as it was; of a name that is not, it adds the pair to the
    registry, publishes the new registry and returns OK.  Hence a second
    registration of the same name returns AlreadyPresent whatever the first
    returned, right after it or after any calls that take no registration
    of the name away. *)
Theorem C4_RegisterService (m : Messenger) (name : string) (service : RpcService) :
  (forall old, rpc_services_ m !! name = Some old ->
     RegisterService name service m =
       Returns (STATUS kAlreadyPresent ("Service " +:+ name +:+ " is already present"))
         m []) /\
  (rpc_services_ m !! name = None ->
     exists m',
       RegisterService name service m = Returns Status_OK m' [] /\
       rpc_services_ m' = <[name := service]> (rpc_services_ m) /\
       rpc_services_cache_ m' = rpc_services_ m') /\
  (forall service2 s1 m1 t1,
     RegisterService name service m = Returns s1 m1 t1 ->
     RegisterService name service2 m1 =
       Returns (STATUS kAlreadyPresent ("Service " +:+ name +:+ " is already present"))
         m1 []) /\
  (forall service2 s1 m1 t1 cs m2 t2,
     RegisterService name service m = Returns s1 m1 t1 ->
     Forall (fun c => unregisters name c = false) cs ->
     exec_all cs m1 = Returns tt m2 t2 ->
     RegisterService name service2 m2 =
       Returns (STATUS kAlreadyPresent ("Service " +:+ name +:+ " is already present"))
         m2 []).
Proof.
  split; [|split; [|split]].
  - intros old H. eapply RegisterService_present, H.
  - intros H. eexists. split; [apply RegisterService_absent, H|]. split; reflexivity.
  - intros service2 s1 m1 t1 H1.
    destruct (RegisterService_registers _ _ _ _ _ _ H1) as [old Hold].
    eapply RegisterService_present, Hold.
  - intros service2 s1 m1 t1 cs m2 t2 H1 Hcs Hrun.
    apply RegisterService_registers in H1.
    destruct (exec_all_keeps_registered name cs m1 m2 t2 Hcs Hrun H1) as [old Hold].
    eapply RegisterService_present, Hold.
Qed.

(** C5. [UnregisterService] of a name that is not registered returns
    ServiceUnavailable and leaves the messenger, registry and published copy
    included, as it was; of a registered name, it removes the entry,
    publishes the new registry and returns OK.  [UnregisterAllServices]
    empties the registry, publishes the empty registry and returns OK. *)
Theorem C5_UnregisterService (m : Messenger) (name : string) :
  (rpc_services_ m !! name = None ->
     UnregisterService name m =
       Returns (STATUS kServiceUnavailable
                  ("service " +:+ name +:+ " not registered on " +:+ name_ m)) m []) /\
  (forall service, rpc_services_ m !! name = Some service ->
     exists m',
       UnregisterService name m = Returns Status_OK m' [] /\
       rpc_services_ m' = delete name (rpc_services_ m) /\
       rpc_services_ m' !! name = None /\
       rpc_services_cache_ m' = rpc_services_ m') /\
  (exists m',
     UnregisterAllServices m = Returns Status_OK m' [] /\
     rpc_services_ m' = ∅ /\ rpc_services_cache_ m' = ∅).
Proof.
  split; [|split].
  - intros H. unfold UnregisterService. unfold_monad. cbn beta iota.
    destruct (decide (is_Some (rpc_services_ m !! name))) as [[x Hx]|_]; [congruence|].
    cbn. rewrite delete_id by exact H. rewrite set_rpc_services_same. reflexivity.
  - intros service H. unfold UnregisterService, UpdateServicesCache. unfold_monad.
    cbn beta iota.
    destruct (decide (is_Some (rpc_services_ m !! name))) as [_|Hn];
      [|destruct Hn; eauto].
    cbn. eexists. split; [reflexivity|]. cbn.
    split; [reflexivity|]. split; [apply lookup_delete_eq|reflexivity].
  - unfold UnregisterAllServices, UpdateServicesCache. unfold_monad. cbn.
    eexists. split; [reflexivity|]. split; reflexivity.
Qed.


(** C6. [QueueInboundCall] and [Handle] look the service name of the call
    up in the published copy of the registry.  When the name is not there,
    each makes one call, [RespondFailure] on the inbound call, with the
    error code "no such service" and a ServiceUnavailable status whose
    message names the service (and the messenger), and calls no service;
    when the name is there, each makes one call, [QueueInboundCall]
    (respectively [Handle]) on the service published under that name.  The
    messenger is unchanged in both cases. *)
Theorem C6_inbound_dispatch (m : Messenger) (call : InboundCall) :
  (rpc_services_cache_ m !! service_name call = None ->
     let failure :=
       [InboundCall_RespondFailure call ERROR_NO_SUCH_SERVICE
          (STATUS kServiceUnavailable
             ("Service " +:+ service_name call +:+ " not registered on " +:+ name_ m))] in
     QueueInboundCall call m = Returns tt m failure /\
     Handle call m = Returns tt m failure) /\
  (forall svc, rpc_services_cache_ m !! service_name call = Some svc ->
     QueueInboundCall call m = Returns tt m [RpcService_QueueInboundCall svc call] /\
     Handle call m = Returns tt m [RpcService_Handle svc call]).
Proof.
  split.
  - intros H failure. unfold QueueInboundCall, Handle, rpc_service, not_registered.
    unfold_monad. cbn beta iota. rewrite H. split; reflexivity.
  - intros svc H. unfold QueueInboundCall, Handle, rpc_service.
    unfold_monad. cbn beta iota. rewrite H. split; reflexivity.
Qed.

(** *** Scheduled tasks *)

Lemma AbortOnReactor_present (m : Messenger) (id : Z) (task : DelayedTask) :
  id <> -1 ->
  scheduled_tasks_ m !! id = Some task ->
  AbortOnReactor id m =
    Returns tt (set_scheduled_tasks_ (delete id (scheduled_tasks_ m)) m)
      [DelayedTask_AbortTask task (STATUS kAborted "Task aborted by messenger")].
Proof.
  intros Hid H. unfold AbortOnReactor. unfold_monad. cbn beta iota.
  destruct (decide (id = -1)) as [|_]; [contradiction|].
  cbn. rewrite H. reflexivity.
Qed.

Lemma AbortOnReactor_absent (m : Messenger) (id : Z) :
  id <> -1 ->
  scheduled_tasks_ m !! id = None ->
  AbortOnReactor id m = Returns tt m [].
Proof.
  intros Hid H. unfold AbortOnReactor. unfold_monad. cbn beta iota.
  destruct (decide (id = -1)) as [|_]; [contradiction|].
  cbn. rewrite H. reflexivity.
Qed.

(** C7, as amended.  [AbortOnReactor] of the identifier -1 fails its
    [CHECK_NE] and aborts the process.  Of any other identifier: when it is
    in the map of scheduled tasks, the method calls [AbortTask] on the task
    with an Aborted status and removes the identifier from the map; when it
    is not (it was never registered, or [RemoveScheduledTask] or an earlier
    [AbortOnReactor] removed it), the method makes no call and returns with
    the messenger unchanged. *)
Theorem C7_AbortOnReactor (m : Messenger) (id : Z) :
  (id = -1 -> AbortOnReactor id m = CheckFailed []) /\
  (id <> -1 ->
     (forall task, scheduled_tasks_ m !! id = Some task ->
        exists m',
          AbortOnReactor id m =
            Returns tt m'
              [DelayedTask_AbortTask task (STATUS kAborted "Task aborted by messenger")] /\
          scheduled_tasks_ m' = delete id (scheduled_tasks_ m) /\
          scheduled_tasks_ m' !! id = None /\
          AbortOnReactor id m' = Returns tt m' []) /\
     (scheduled_tasks_ m !! id = None -> AbortOnReactor id m = Returns tt m []) /\
     (forall m1 t1, RemoveScheduledTask id m = Returns tt m1 t1 ->
        AbortOnReactor id m1 = Returns tt m1 [])).
Proof.
  split.
  - intros ->. reflexivity.
  - intros Hid. split; [|split].
    + intros task H. eexists. split; [apply AbortOnReactor_present; eassumption|].
      cbn. split; [reflexivity|]. split; [apply lookup_delete_eq|].
      apply AbortOnReactor_absent; [exact Hid|]. cbn. apply lookup_delete_eq.
    + apply AbortOnReactor_absent, Hid.
    + intros m1 t1 H. unfold RemoveScheduledTask in H. unfold_monad. cbn beta iota in H.
      destruct (decide (id = -1)) as [|_]; [contradiction|].
      injection H as <- _. apply AbortOnReactor_absent; [exact Hid|].
      cbn. apply lookup_delete_eq.
Qed.

(** *** Broken connectivity *)

Section Sets.

Context (X : gset IpAddress) (a : IpAddress).

Lemma member_nonempty : a ∈ X -> X <> ∅.
Proof. intros Hin E. rewrite E in Hin. exact (not_elem_of_empty a Hin). Qed.

Lemma insert_member : a ∈ X -> X = {[a]} ∪ X.
Proof. intros Hin. symmetry. apply subseteq_union_1_L, singleton_subseteq_l, Hin. Qed.

Lemma insert_nonempty : {[a]} ∪ X <> ∅.
Proof.
  intros E. apply (not_elem_of_empty (C:=gset IpAddress) a). rewrite <- E.
  apply elem_of_union_l, elem_of_singleton_2. reflexivity.
Qed.

Lemma remove_nonempty : X ∖ {[a]} <> ∅ -> X <> ∅.
Proof. intros H E. apply H. rewrite E. apply difference_disjoint_L, disjoint_empty_l. Qed.

End Sets.

Lemma IsArtificiallyDisconnectedFrom_eq (m : Messenger) (addr : IpAddress) :
  IsArtificiallyDisconnectedFrom addr m =
    Returns (has_broken_connectivity_ m && bool_decide (addr ∈ broken_connectivity_ m)) m [].
Proof.
  unfold IsArtificiallyDisconnectedFrom. unfold_monad. cbn beta iota.
  destruct (has_broken_connectivity_ m); reflexivity.
Qed.

Lemma IsArtificiallyDisconnectedFrom_inv (m : Messenger) (addr : IpAddress) :
  connectivity_inv m ->
  IsArtificiallyDisconnectedFrom addr m =
    Returns (bool_decide (addr ∈ broken_connectivity_ m)) m [].
Proof.
  intros [Hto Hfrom]. rewrite IsArtificiallyDisconnectedFrom_eq.
  destruct (has_broken_connectivity_ m) eqn:E; [reflexivity|].
  cbn. rewrite bool_decide_eq_false_2; [reflexivity|].
  intros Hin. pose proof (member_nonempty _ _ Hin) as Hne.
  apply Hfrom in Hne. discriminate.
Qed.

Lemma BreakConnectivityWith_state (m m' : Messenger) (addr : IpAddress) (fresh : nat)
    (t : list Event) :
  BreakConnectivityWith addr fresh m = Returns tt m' t ->
  broken_connectivity_ m' = {[addr]} ∪ broken_connectivity_ m /\
  has_broken_connectivity_ m' =
    (if decide (broken_connectivity_ m = ∅) then true else has_broken_connectivity_ m).
Proof.
  intros H. run_method; split; try reflexivity;
    first [apply insert_member; assumption | contradiction].
Qed.

Lemma RestoreConnectivityWith_state (m : Messenger) (addr : IpAddress) :
  exists m',
    RestoreConnectivityWith addr m = Returns tt m' [] /\
    broken_connectivity_ m' = broken_connectivity_ m ∖ {[addr]} /\
    has_broken_connectivity_ m' =
      (if decide (broken_connectivity_ m ∖ {[addr]} = ∅) then false
       else has_broken_connectivity_ m).
Proof.
  unfold RestoreConnectivityWith. unfold_monad. cbn beta iota.
  destruct (decide (broken_connectivity_ m ∖ {[addr]} = ∅));
    eexists; (split; [reflexivity|]); split; reflexivity.
Qed.

Lemma BreakConnectivityWith_reactors (m m' : Messenger) (addr : IpAddress) (fresh : nat)
    (t : list Event) :
  BreakConnectivityWith addr fresh m = Returns tt m' t -> reactors_ m' = reactors_ m.
Proof. intros H. run_method; reflexivity. Qed.

Lemma RestoreConnectivityWith_reactors (m m' : Messenger) (addr : IpAddress)
    (t : list Event) :
  RestoreConnectivityWith addr m = Returns tt m' t -> reactors_ m' = reactors_ m.
Proof. intros H. run_method; reflexivity. Qed.

Lemma BreakConnectivityWith_inv (m m' : Messenger) (addr : IpAddress) (fresh : nat)
    (t : list Event) :
  BreakConnectivityWith addr fresh m = Returns tt m' t ->
  connectivity_inv m -> connectivity_inv m'.
Proof.
  intros H [Hto Hfrom]. apply BreakConnectivityWith_state in H as [Hset Hflag].
  unfold connectivity_inv. rewrite Hset, Hflag.
  destruct (decide (broken_connectivity_ m = ∅)) as [He|Hne].
  - split; [intros _; apply insert_nonempty|reflexivity].
  - split; [intros _; apply insert_nonempty|]. intros _. apply Hfrom, Hne.
Qed.

Lemma RestoreConnectivityWith_inv (m m' : Messenger) (addr : IpAddress) (t : list Event) :
  RestoreConnectivityWith addr m = Returns tt m' t ->
  connectivity_inv m -> connectivity_inv m'.
Proof.
  intros H [Hto Hfrom].
  destruct (RestoreConnectivityWith_state m addr) as (m2 & Hrun & Hset & Hflag).
  rewrite Hrun in H. injection H as <- _.
  unfold connectivity_inv. rewrite Hset, Hflag.
  destruct (decide (broken_connectivity_ m ∖ {[addr]} = ∅)) as [He|Hne].
  - split; [discriminate|contradiction].
  - split; [intros _; exact Hne|]. intros _. eapply Hfrom, remove_nonempty, Hne.
Qed.

Lemma exec_connectivity_inv (c : Call) (m m' : Messenger) (t : list Event) :
  exec c m = Returns tt m' t -> connectivity_inv m -> connectivity_inv m'.
Proof.
  destruct c; intros H Hinv;
    try (eapply BreakConnectivityWith_inv; eassumption);
    try (eapply RestoreConnectivityWith_inv; eassumption);
    run_method; exact Hinv.
Qed.

(** C10.  [BreakConnectivityWith] adds the address to the set and sets the
    flag [has_broken_connectivity_] when the set was empty;
    [RestoreConnectivityWith] removes the address and clears the flag when
    the set is then empty.  In a messenger where the flag is set exactly
    when the set is not empty, both, like every sequence of calls of the
    methods embedded, keep this equivalence, and
    [IsArtificiallyDisconnectedFrom], which changes nothing, returns true
    exactly for the members of the set. *)
Theorem C10_connectivity_flag (m : Messenger) :
  (forall addr fresh m' t,
     BreakConnectivityWith addr fresh m = Returns tt m' t ->
     broken_connectivity_ m' = {[addr]} ∪ broken_connectivity_ m /\
     has_broken_connectivity_ m' =
       (if decide (broken_connectivity_ m = ∅) then true
        else has_broken_connectivity_ m)) /\
  (forall addr, exists m',
     RestoreConnectivityWith addr m = Returns tt m' [] /\
     broken_connectivity_ m' = broken_connectivity_ m ∖ {[addr]} /\
     has_broken_connectivity_ m' =
       (if decide (broken_connectivity_ m' = ∅) then false
        else has_broken_connectivity_ m)) /\
  (connectivity_inv m ->
     (forall addr fresh m' t,
        BreakConnectivityWith addr fresh m = Returns tt m' t ->
        has_broken_connectivity_ m' = true /\ connectivity_inv m') /\
     (forall addr m' t,
        RestoreConnectivityWith addr m = Returns tt m' t ->
        (has_broken_connectivity_ m' = false <-> broken_connectivity_ m' = ∅) /\
        connectivity_inv m') /\
     (forall addr b m' t,
        IsArtificiallyDisconnectedFrom addr m = Returns b m' t ->
        m' = m /\ t = [] /\ (b = true <-> addr ∈ broken_connectivity_ m)) /\
     (forall cs m' t, exec_all cs m = Returns tt m' t -> connectivity_inv m')).
Proof.
  split; [|split].
  - intros addr fresh m' t H. eapply BreakConnectivityWith_state, H.
  - intros addr.
    destruct (RestoreConnectivityWith_state m addr) as (m' & Hrun & Hset & Hflag).
    exists m'. split; [exact Hrun|]. split; [exact Hset|]. rewrite Hset. exact Hflag.
  - intros Hinv. split; [|split; [|split]].
    + intros addr fresh m' t H.
      pose proof (BreakConnectivityWith_inv _ _ _ _ _ H Hinv) as Hinv'.
      apply BreakConnectivityWith_state in H as [Hset Hflag].
      split; [|exact Hinv']. apply Hinv'. rewrite Hset. apply insert_nonempty.
    + intros addr m' t Hrun.
      pose proof (RestoreConnectivityWith_inv _ _ _ _ Hrun Hinv) as Hinv'.
      split; [|exact Hinv']. destruct Hinv' as [Hto Hfrom]. split.
      * intros Hf. destruct (decide (broken_connectivity_ m' = ∅)) as [|Hne];
          [assumption|].
        apply Hfrom in Hne. congruence.
      * intros He. destruct (has_broken_connectivity_ m'); [|reflexivity].
        destruct (Hto eq_refl He).
    + intros addr b m' t H. rewrite (IsArtificiallyDisconnectedFrom_inv m addr Hinv) in H.
      injection H as <- <- <-. split; [reflexivity|]. split; [reflexivity|].
      apply bool_decide_eq_true.
    + intros cs m' t H. eapply (exec_all_invariant connectivity_inv); eauto.
      intros c m1 m2 t1. apply exec_connectivity_inv.
Qed.

(** *** Outbound calls *)

(** C3, as amended.  With at least one reactor (and a count that fits an
    [int]), in a messenger whose flag agrees with its set of broken
    addresses, [QueueOutboundCall] makes exactly one call, on the reactor
    that [RemoteToReactor] selects for the remote and index of the call.
    For a remote address in the set it does not fail the call itself: it
    schedules on that reactor a task whose body, run by the reactor, calls
    [Transferred] on the call with a NetworkError status.  For a remote
    address not in the set it calls [QueueOutboundCall] of the reactor.  The
    messenger is unchanged in both cases. *)
Theorem C3_QueueOutboundCall (m : Messenger) (call : OutboundCall) :
  (1 <= length (reactors_ m))%nat ->
  Z.of_nat (length (reactors_ m)) <= INT_MAX ->
  connectivity_inv m ->
  exists r,
    RemoteToReactor (remote (conn_id call)) (idx (conn_id call)) m = Returns r m [] /\
    (address (remote (conn_id call)) ∈ broken_connectivity_ m ->
       let failure :=
         TransferredFunctor call (STATUS kNetworkError "TEST: Connectivity is broken") in
       QueueOutboundCall call m = Returns tt m [Reactor_ScheduleReactorTask r failure] /\
       Rendezvous.body r failure =
         [OutboundCall_Transferred call
            (STATUS kNetworkError "TEST: Connectivity is broken")]) /\
    (address (remote (conn_id call)) ∉ broken_connectivity_ m ->
       QueueOutboundCall call m = Returns tt m [Reactor_QueueOutboundCall r call]).
Proof.
  intros Hmin Hmax Hinv.
  destruct (RemoteToReactor_returns m (remote (conn_id call)) (idx (conn_id call))
              Hmin Hmax) as (r & _ & Hr).
  exists r. split; [exact Hr|].
  pose proof (IsArtificiallyDisconnectedFrom_inv m (address (remote (conn_id call))) Hinv)
    as Hdis.
  split.
  - intros Hin failure. split; [|reflexivity].
    unfold QueueOutboundCall, mbind, Action_bind. rewrite Hr, Hdis.
    rewrite bool_decide_eq_true_2 by exact Hin. reflexivity.
  - intros Hnotin.
    unfold QueueOutboundCall, mbind, Action_bind. rewrite Hr, Hdis.
    rewrite bool_decide_eq_false_2 by exact Hnotin. reflexivity.
Qed.


(** *** Scheduling *)

Lemma current_reactor_fold (cur : Reactor -> bool) (rs : list Reactor)
    (acc res : option Reactor) :
  fold_left (fun chosen r => if cur r then Some r else chosen) rs acc = res ->
  (res = acc /\ forall r, r ∈ rs -> cur r = false) \/
  (exists r, res = Some r /\ r ∈ rs /\ cur r = true).
Proof.
  revert acc. induction rs as [|x rs IH]; intros acc H; cbn in H.
  - left. split; [congruence|]. intros r Hr. inversion Hr.
  - destruct (IH _ H) as [[-> Hall]|(r & -> & Hin & Hcur)].
    + destruct (cur x) eqn:E.
      * right. exists x. split; [reflexivity|]. split; [left|exact E].
      * left. split; [reflexivity|]. intros r Hr.
        apply elem_of_cons in Hr as [->|Hr]; auto.
    + right. exists r. split; [reflexivity|]. split; [right; exact Hin|exact Hcur].
Qed.

Lemma current_reactor_Some (cur : Reactor -> bool) (rs : list Reactor) (r : Reactor) :
  current_reactor cur rs = Some r -> r ∈ rs /\ cur r = true.
Proof.
  intros H. destruct (current_reactor_fold _ _ _ _ H) as [[E _]|(r' & E & Hin & Hc)].
  - discriminate.
  - injection E as ->. auto.
Qed.

Lemma current_reactor_None (cur : Reactor -> bool) (rs : list Reactor) :
  current_reactor cur rs = None -> forall r, r ∈ rs -> cur r = false.
Proof.
  intros H. destruct (current_reactor_fold _ _ _ _ H) as [[_ Hall]|(r' & E & _)].
  - exact Hall.
  - discriminate.
Qed.

(** The reactor [ScheduleOnReactor] chooses. *)
Lemma ScheduleOnReactor_chosen (cur : Reactor -> bool) (rnd : Z) (rs : list Reactor) :
  (1 <= length rs)%nat ->
  exists chosen,
    match current_reactor cur rs with
    | Some r => Some r
    | None => rs !! Z.to_nat (to_size_t rnd mod Z.of_nat (length rs))
    end = Some chosen /\
    chosen ∈ rs /\
    ((exists r, r ∈ rs /\ cur r = true) -> cur chosen = true) /\
    ((forall r, r ∈ rs -> cur r = false) ->
       rs !! Z.to_nat (to_size_t rnd mod Z.of_nat (length rs)) = Some chosen).
Proof.
  intros Hlen. destruct (current_reactor cur rs) as [r|] eqn:E.
  - apply current_reactor_Some in E as [Hin Hc].
    exists r. split; [reflexivity|]. split; [exact Hin|]. split; [auto|].
    intros Hall. rewrite (Hall r Hin) in Hc. discriminate.
  - pose proof (current_reactor_None _ _ E) as Hall.
    destruct (lookup_lt_is_Some_2 rs (Z.to_nat (to_size_t rnd mod Z.of_nat (length rs))))
      as [r Hr].
    { pose proof (Z.mod_pos_bound (to_size_t rnd) (Z.of_nat (length rs))). lia. }
    exists r. split; [exact Hr|]. split; [eapply list_elem_of_lookup_2, Hr|].
    split; [|auto]. intros (r' & Hin & Hc). rewrite (Hall r' Hin) in Hc. discriminate.
Qed.

Lemma ScheduleOnReactor_returns (cur : Reactor -> bool) (rnd : Z) (func : Functor)
    (when : Z) (msgr : bool) (m : Messenger) (chosen : Reactor) :
  match current_reactor cur (reactors_ m) with
  | Some r => Some r
  | None => reactors_ m !! Z.to_nat (to_size_t rnd mod Z.of_nat (length (reactors_ m)))
  end = Some chosen ->
  ScheduleOnReactor cur rnd func when msgr m =
    if msgr
    then
      let id := next_task_id_ m in
      Returns id
        (set_scheduled_tasks_
           (<[id := mkDelayedTask func when id true]> (scheduled_tasks_ m))
           (set_next_task_id_ (to_int64 (id + 1)) m))
        [Reactor_ScheduleReactorTask chosen
           (DelayedReactorTask (mkDelayedTask func when id true))]
    else
      Returns 0 m
        [Reactor_ScheduleReactorTask chosen
           (DelayedReactorTask (mkDelayedTask func when 0 false))].
Proof.
  intros H. unfold ScheduleOnReactor. unfold_monad. cbn beta iota.
  destruct (current_reactor cur (reactors_ m)) as [r|].
  - injection H as ->. destruct msgr; reflexivity.
  - destruct (decide (reactors_ m = [])) as [E|_].
    { rewrite E in H. discriminate. }
    rewrite H. destruct msgr; reflexivity.
Qed.

(** Identifiers: sixty-four bit arithmetic. *)
Lemma to_int64_range (z : Z) : - 2 ^ 63 <= to_int64 z < 2 ^ 63.
Proof. unfold to_int64. pose proof (Z.mod_pos_bound (z + 2 ^ 63) (2 ^ 64)). lia. Qed.

Lemma to_int64_id (z : Z) : - 2 ^ 63 <= z < 2 ^ 63 -> to_int64 z = z.
Proof. intros H. unfold to_int64. rewrite Z.mod_small by lia. lia. Qed.

Lemma to_int64_inj (c i j : Z) :
  0 <= i < 2 ^ 64 -> 0 <= j < 2 ^ 64 ->
  to_int64 (c + i) = to_int64 (c + j) -> i = j.
Proof.
  unfold to_int64. intros Hi Hj H.
  assert (E : (c + i + 2 ^ 63) mod 2 ^ 64 = (c + j + 2 ^ 63) mod 2 ^ 64) by lia.
  pose proof (Z.div_mod (c + i + 2 ^ 63) (2 ^ 64) ltac:(lia)) as Di.
  pose proof (Z.div_mod (c + j + 2 ^ 63) (2 ^ 64) ltac:(lia)) as Dj.
  lia.
Qed.


Lemma to_int64_add_l (a b : Z) : to_int64 (to_int64 a + b) = to_int64 (a + b).
Proof.
  unfold to_int64. f_equal.
  replace ((a + 2 ^ 63) mod 2 ^ 64 - 2 ^ 63 + b + 2 ^ 63)
    with ((a + 2 ^ 63) mod 2 ^ 64 + b) by lia.
  rewrite Zplus_mod_idemp_l. f_equal. lia.
Qed.

Lemma owned_ids_app (t1 t2 : list Event) :
  owned_ids (t1 ++ t2) = owned_ids t1 ++ owned_ids t2.
Proof. apply omap_app. Qed.

Lemma owned_ids_fmap_None {A} (f : A -> Event) (xs : list A) :
  (forall x, owned_id (f x) = None) -> owned_ids (f <$> xs) = [].
Proof.
  intros H. induction xs as [|x xs IH]; [reflexivity|].
  cbn. unfold owned_ids in IH. rewrite H. exact IH.
Qed.

(** A call hands out no identifier, or the value of the counter, which it
    then increments. *)
Lemma exec_owned_ids (c : Call) (m m' : Messenger) (t : list Event) :
  exec c m = Returns tt m' t ->
  (owned_ids t = [] /\ next_task_id_ m' = next_task_id_ m) \/
  (owned_ids t = [next_task_id_ m] /\
   next_task_id_ m' = to_int64 (next_task_id_ m + 1)).
Proof.
  destruct c; intros H; run_method;
    repeat (rewrite ?owned_ids_app, ?owned_ids_fmap_None by reflexivity;
            unfold owned_ids; cbn; fold owned_ids);
    first [left; split; reflexivity | right; split; reflexivity].
Qed.

Lemma exec_all_owned_ids (cs : list Call) (m m' : Messenger) (t : list Event) :
  - 2 ^ 63 <= next_task_id_ m < 2 ^ 63 ->
  exec_all cs m = Returns tt m' t ->
  exists n : nat,
    (n <= length cs)%nat /\
    owned_ids t = (fun k : nat => to_int64 (next_task_id_ m + Z.of_nat k)) <$> seq 0 n /\
    next_task_id_ m' = to_int64 (next_task_id_ m + Z.of_nat n).
Proof.
  revert m m' t. induction cs as [|c cs IH]; intros m m' t Hrange Hrun.
  - injection Hrun as <- <-. exists 0%nat. split; [reflexivity|]. split; [reflexivity|].
    rewrite Z.add_0_r, to_int64_id by exact Hrange. reflexivity.
  - apply exec_all_cons in Hrun as (m1 & t1 & t2 & H1 & H2 & ->).
    rewrite owned_ids_app.
    destruct (exec_owned_ids _ _ _ _ H1) as [[Hids Hnext]|[Hids Hnext]].
    + destruct (IH m1 m' t2) as (n & Hn & Hids2 & Hnext2);
        [rewrite Hnext; exact Hrange|exact H2|].
      exists n. rewrite Hids, Hids2, Hnext2, Hnext. cbn. auto with lia.
    + destruct (IH m1 m' t2) as (n & Hn & Hids2 & Hnext2);
        [rewrite Hnext; apply to_int64_range|exact H2|].
      exists (S n). rewrite Hids, Hids2, Hnext2, Hnext. cbn [length seq fmap list_fmap app].
      split; [lia|]. split.
      * rewrite Z.add_0_r, (to_int64_id (next_task_id_ m)) by exact Hrange. f_equal.
        rewrite <- fmap_S_seq, <- list_fmap_compose. apply list_fmap_ext.
        intros _ k _. cbn. rewrite to_int64_add_l. f_equal. lia.
      * rewrite to_int64_add_l. f_equal. lia.
Qed.

(** Fewer than 2^64 calls never hand out one identifier twice. *)
Lemma exec_all_unique_ids (cs : list Call) (m m' : Messenger) (t : list Event) :
  - 2 ^ 63 <= next_task_id_ m < 2 ^ 63 ->
  Z.of_nat (length cs) <= 2 ^ 64 ->
  exec_all cs m = Returns tt m' t ->
  NoDup (owned_ids t).
Proof.
  intros Hrange Hlen Hrun.
  destruct (exec_all_owned_ids cs m m' t Hrange Hrun) as (n & Hn & -> & _).
  apply NoDup_fmap_2_strong; [|apply NoDup_seq].
  intros i j Hi Hj E. apply elem_of_seq in Hi, Hj.
  apply (to_int64_inj (next_task_id_ m)) in E; lia.
Qed.

(** C8. With at least one reactor, [ScheduleOnReactor] schedules the task on
    one reactor of [reactors_]: when the calling thread is the thread of a
    reactor of the list, on a reactor whose thread it is (hence on that very
    reactor when it is the only one); otherwise on the reactor at position
    [rand()] modulo the number of reactors.  With an owning messenger the
    identifier of the task is the value of [next_task_id_], which is
    incremented, the task is put in [scheduled_tasks_] under it, and
    [AbortOnReactor] of the identifier (when it is not -1) then aborts that
    task; without one the identifier is 0 and neither counter nor map
    changes.  No identifier is handed out twice by a sequence of at most
    2^64 calls of the methods embedded. *)
Theorem C8_ScheduleOnReactor (m : Messenger) (cur : Reactor -> bool) (rnd : Z)
    (func : Functor) (when : Z) :
  (1 <= length (reactors_ m))%nat ->
  exists chosen,
    chosen ∈ reactors_ m /\
    ((exists r, r ∈ reactors_ m /\ cur r = true) -> cur chosen = true) /\
    (forall r, r ∈ reactors_ m -> cur r = true ->
       (forall r', r' ∈ reactors_ m -> cur r' = true -> r' = r) -> chosen = r) /\
    ((forall r, r ∈ reactors_ m -> cur r = false) ->
       reactors_ m !! Z.to_nat (to_size_t rnd mod Z.of_nat (length (reactors_ m)))
         = Some chosen) /\
    (let id := next_task_id_ m in
     let task := mkDelayedTask func when id true in
     exists m',
       ScheduleOnReactor cur rnd func when true m =
         Returns id m' [Reactor_ScheduleReactorTask chosen (DelayedReactorTask task)] /\
       next_task_id_ m' = to_int64 (id + 1) /\
       next_task_id_ m' <> id /\
       scheduled_tasks_ m' = <[id := task]> (scheduled_tasks_ m) /\
       scheduled_tasks_ m' !! id = Some task /\
       (id <> -1 ->
          exists m'',
            AbortOnReactor id m' =
              Returns tt m''
                [DelayedTask_AbortTask task
                   (STATUS kAborted "Task aborted by messenger")])) /\
    ScheduleOnReactor cur rnd func when false m =
      Returns 0 m
        [Reactor_ScheduleReactorTask chosen
           (DelayedReactorTask (mkDelayedTask func when 0 false))] /\
    (forall cs m' t,
       - 2 ^ 63 <= next_task_id_ m < 2 ^ 63 ->
       Z.of_nat (length cs) <= 2 ^ 64 ->
       exec_all cs m = Returns tt m' t ->
       NoDup (owned_ids t)).
Proof.
  intros Hlen.
  destruct (ScheduleOnReactor_chosen cur rnd (reactors_ m) Hlen)
    as (chosen & Hch & Hin & Hcur & Hrnd).
  exists chosen. split; [exact Hin|]. split; [exact Hcur|]. split; [|split; [exact Hrnd|]].
  { intros r Hr Hc Huniq. apply Huniq; [exact Hin|]. apply Hcur. eauto. }
  split; [|split].
  - intros id task. eexists. split.
    { rewrite (ScheduleOnReactor_returns _ _ _ _ true _ _ Hch). reflexivity. }
    cbn. split; [reflexivity|]. split.
    { intros E. fold id in E.
      assert (to_int64 (id + 1) = to_int64 (id + 0)) as E2.
      { rewrite Z.add_0_r. rewrite E. symmetry. apply to_int64_id.
        rewrite <- E. apply to_int64_range. }
      apply to_int64_inj in E2; lia. }
    split; [reflexivity|]. split; [apply lookup_insert_eq|].
    intros Hid. eexists. apply AbortOnReactor_present; [exact Hid|].
    cbn. apply lookup_insert_eq.
  - rewrite (ScheduleOnReactor_returns _ _ _ _ false _ _ Hch). reflexivity.
  - intros cs m' t. apply exec_all_unique_ids.
Qed.


(** *** The rendezvous of [BreakConnectivityWith] *)

Lemma filter_latch_unknown (mine : nat) (w : Rendezvous.World) :
  Rendezvous.unknown_latch mine w ->
  filter (fun rt => Rendezvous.task_latch rt.2 = Some mine) (Rendezvous.pending w) = [].
Proof.
  unfold Rendezvous.unknown_latch. induction (Rendezvous.pending w) as [|x l IH];
    intros H; [reflexivity|].
  inversion H as [|? ? Hx Hl]; subst.
  rewrite filter_cons_False by exact Hx. auto.
Qed.

Lemma run_pending (r : Reactor) (t : ReactorTask) (w : Rendezvous.World) :
  Rendezvous.pending (Rendezvous.run r t w) = Rendezvous.pending w.
Proof. destruct t; reflexivity. Qed.

Lemma run_history (r : Reactor) (t : ReactorTask) (w : Rendezvous.World) :
  Rendezvous.history (Rendezvous.run r t w) = Rendezvous.history w ++ Rendezvous.body r t.
Proof.
  destruct t; unfold Rendezvous.run; cbn; rewrite <- ?app_assoc, ?app_nil_r; reflexivity.
Qed.

(** What a reactor has done stays done. *)
Lemma step_history (mine : nat) (w w' : Rendezvous.World) (e : Event) :
  Rendezvous.step mine w w' -> e ∈ Rendezvous.history w -> e ∈ Rendezvous.history w'.
Proof.
  intros [w1 r t before after _|w1 r t _] Hin; [|exact Hin].
  rewrite run_history. apply elem_of_app. left. exact Hin.
Qed.

Lemma step_unknown_latch (mine : nat) (w w' : Rendezvous.World) :
  Rendezvous.step mine w w' ->
  Rendezvous.unknown_latch mine w -> Rendezvous.unknown_latch mine w'.
Proof.
  unfold Rendezvous.unknown_latch.
  intros [w1 r t before after Hpending|w1 r t Hother] H.
  - rewrite run_pending. cbn. rewrite Hpending in H.
    apply Forall_app in H as [Hb Ha]. apply Forall_cons in Ha as [_ Ha].
    apply Forall_app. auto.
  - cbn. apply Forall_app. split; [exact H|]. apply Forall_singleton. exact Hother.
Qed.

Lemma counts_pending_step (mine : nat) (a : IpAddress) (rs : list Reactor) (k : nat)
    (w w' : Rendezvous.World) :
  Rendezvous.step mine w w' ->
  Rendezvous.counts_pending mine a rs k w -> Rendezvous.counts_pending mine a rs k w'.
Proof.
  intros Hstep [Hcount Hall].
  destruct Hstep as [w r t before after Hpending|w r t Hother].
  - rewrite Hpending in Hcount, Hall.
    assert (Hkeep : forall r',
      ((exists l, latch_addr l = mine /\
          (r', DropFunctor l a) ∈ before ++ (r, t) :: after) \/
       Rendezvous.has_dropped r' a w) ->
      (exists l, latch_addr l = mine /\ (r', DropFunctor l a) ∈ before ++ after) \/
      (exists l, latch_addr l = mine /\ r' = r /\ t = DropFunctor l a) \/
      Rendezvous.has_dropped r' a w).
    { intros r' [(l & Hl & Hin)|Hd]; [|auto].
      apply elem_of_app in Hin as [Hin|Hin].
      - left. exists l. split; [exact Hl|]. apply elem_of_app. auto.
      - apply elem_of_cons in Hin as [E|Hin].
        + injection E as -> <-. right. left. eauto.
        + left. exists l. split; [exact Hl|]. apply elem_of_app. auto. }
    rewrite filter_app in Hcount.
    destruct t as [call s|l a'|task]; unfold Rendezvous.run; cbn.
    + rewrite filter_cons_False in Hcount by discriminate.
      split; cbn; [rewrite filter_app; exact Hcount|].
      intros r' Hr'. destruct (Hkeep r' (Hall r' Hr')) as [H|[(l & _ & _ & E)|H]];
        [left; exact H|discriminate|].
      right. unfold Rendezvous.has_dropped in *. cbn. apply elem_of_app. auto.
    + split; cbn.
      * rewrite filter_app. destruct (decide (latch_addr l = mine)) as [E|Hne].
        -- rewrite filter_cons_True in Hcount by (cbn; congruence).
           rewrite E, lookup_alter_eq, Hcount. cbn.
           rewrite !length_app. cbn. f_equal. lia.
        -- rewrite filter_cons_False in Hcount by (cbn; congruence).
           rewrite lookup_alter_ne by exact Hne. exact Hcount.
      * intros r' Hr'. unfold Rendezvous.has_dropped in *. cbn.
        destruct (Hkeep r' (Hall r' Hr')) as [H|[(l' & _ & -> & E)|H]].
        -- left. exact H.
        -- injection E as -> ->. right. rewrite <- app_assoc.
           apply elem_of_app. right. left.
        -- right. do 2 (apply elem_of_app; left). exact H.
    + rewrite filter_cons_False in Hcount by discriminate.
      split; cbn; [rewrite filter_app; exact Hcount|].
      intros r' Hr'. destruct (Hkeep r' (Hall r' Hr')) as [H|[(l & _ & _ & E)|H]];
        [left; exact H|discriminate|right; exact H].
  - split; cbn.
    + rewrite filter_app, filter_cons_False, filter_nil, app_nil_r by exact Hother.
      exact Hcount.
    + intros r' Hr'. destruct (Hall r' Hr') as [(l & Hl & Hin)|H]; [left|right; exact H].
      exists l. split; [exact Hl|]. apply elem_of_app. auto.
Qed.

Lemma counts_pending_zero (mine : nat) (a : IpAddress) (rs : list Reactor)
    (w : Rendezvous.World) :
  Rendezvous.counts_pending mine a rs 0 w ->
  Rendezvous.latches w !! mine = Some 0%nat ->
  forall r, r ∈ rs -> Rendezvous.has_dropped r a w.
Proof.
  intros [Hcount Hall] Hzero r Hr.
  destruct (Hall r Hr) as [(l & Hl & Hin)|H]; [|exact H].
  rewrite Hcount in Hzero. injection Hzero as Hzero.
  apply length_zero_iff_nil in Hzero.
  assert ((r, DropFunctor l a) ∈
            filter (fun rt => Rendezvous.task_latch rt.2 = Some mine) (Rendezvous.pending w))
    as Hf.
  { apply list_elem_of_filter. split; [cbn; congruence|exact Hin]. }
  rewrite Hzero in Hf. inversion Hf.
Qed.

(** Scheduling one more drop task. *)
Lemma counts_pending_schedule (latch : CountDownLatch) (a : IpAddress)
    (rs : list Reactor) (r : Reactor) (k : nat) (w : Rendezvous.World) :
  Rendezvous.counts_pending (latch_addr latch) a rs (S k) w ->
  Rendezvous.counts_pending (latch_addr latch) a (rs ++ [r]) k
    (Rendezvous.deliver w (Reactor_ScheduleReactorTask r (DropFunctor latch a))).
Proof.
  intros [Hcount Hall]. split; cbn.
  - rewrite filter_app, filter_cons_True, filter_nil by reflexivity.
    rewrite Hcount, length_app. cbn. f_equal. lia.
  - intros r' Hr'. apply elem_of_app in Hr' as [Hr'|Hr'].
    + destruct (Hall r' Hr') as [(l & Hl & Hin)|H]; [left|right; exact H].
      exists l. split; [exact Hl|]. apply elem_of_app. auto.
    + apply list_elem_of_singleton in Hr' as ->. left. exists latch.
      split; [reflexivity|]. apply elem_of_app. right. left.
Qed.

Lemma during_step (latch : CountDownLatch) (a : IpAddress) (rs : list Reactor)
    (c c' : list Event * Rendezvous.World) :
  latch_count latch = length rs ->
  Rendezvous.call_step (latch_addr latch) c c' ->
  Rendezvous.during latch a rs c -> Rendezvous.during latch a rs c'.
Proof.
  intros Hn Hstep Hduring. unfold Rendezvous.during in *.
  destruct Hstep as [l rest w Hwait|e rest w He|rest w w' Hworld]; cbn in *.
  - (* the wait returns *)
    destruct Hduring as [[E _]|[(rs1 & rs2 & Hrs & E & Hcounts)|[E _]]];
      [discriminate E| |discriminate E].
    destruct rs2 as [|r rs2]; [|discriminate E].
    injection E as -> ->. rewrite app_nil_r in Hrs. subst rs1.
    right. right. split; [reflexivity|].
    eapply (counts_pending_zero (latch_addr latch)); [exact Hcounts|exact Hwait].
  - (* the call creates its latch or schedules a task *)
    destruct Hduring as [[E Hunknown]|[(rs1 & rs2 & Hrs & E & Hcounts)|[E _]]];
      [|destruct rs2 as [|r rs2]|discriminate E].
    + injection E as -> ->. right. left. exists [], rs.
      split; [reflexivity|]. split; [reflexivity|]. split; cbn.
      * rewrite lookup_insert_eq, (filter_latch_unknown _ _ Hunknown), Hn. cbn.
        f_equal. lia.
      * intros r Hr. inversion Hr.
    + injection E as -> ->. discriminate He.
    + injection E as -> ->. right. left. exists (rs1 ++ [r]), rs2.
      split; [rewrite <- app_assoc; exact Hrs|]. split; [reflexivity|].
      apply counts_pending_schedule, Hcounts.
  - (* the world takes a step *)
    destruct Hduring as [[E Hunknown]|[(rs1 & rs2 & Hrs & E & Hcounts)|[E Hall]]].
    + left. split; [exact E|]. eapply step_unknown_latch; eassumption.
    + right. left. exists rs1, rs2. split; [exact Hrs|]. split; [exact E|].
      eapply counts_pending_step; eassumption.
    + right. right. split; [exact E|]. intros r Hr.
      eapply step_history; [exact Hworld|]. apply Hall, Hr.
Qed.

Lemma during_steps (latch : CountDownLatch) (a : IpAddress) (rs : list Reactor)
    (c c' : list Event * Rendezvous.World) :
  latch_count latch = length rs ->
  rtc (Rendezvous.call_step (latch_addr latch)) c c' ->
  Rendezvous.during latch a rs c -> Rendezvous.during latch a rs c'.
Proof.
  intros Hn. induction 1 as [|c1 c2 c3 Hstep _ IH]; [auto|].
  intros H. apply IH. eapply during_step; eassumption.
Qed.

Lemma drops_nonempty (latch : CountDownLatch) (a : IpAddress) (rs : list Reactor) :
  [] = Rendezvous.drops latch a rs ++ [CountDownLatch_Wait latch] -> False.
Proof. intros E. symmetry in E. apply app_eq_nil in E as [_ E]. discriminate E. Qed.

(** When the call has returned every reactor has dropped. *)
Lemma during_returned (latch : CountDownLatch) (a : IpAddress) (rs : list Reactor)
    (w : Rendezvous.World) :
  Rendezvous.during latch a rs ([], w) ->
  forall r, r ∈ rs -> Rendezvous.has_dropped r a w.
Proof.
  intros [[E _]|[(rs1 & rs2 & _ & E & _)|[_ H]]]; cbn in *.
  - discriminate E.
  - destruct (drops_nonempty latch a rs2 E).
  - exact H.
Qed.

(** The call can return: it makes its calls, the reactors run the drop
    tasks one after the other, and the wait returns. *)
Lemma call_deliver_all (mine : nat) (es rest : list Event) (w : Rendezvous.World) :
  Forall (fun e => Rendezvous.is_Wait e = false) es ->
  rtc (Rendezvous.call_step mine) (es ++ rest, w) (rest, Rendezvous.deliver_all es w).
Proof.
  revert w. induction es as [|e es IH]; intros w H; [apply rtc_refl|].
  apply Forall_cons in H as [He Hes].
  eapply rtc_l; [apply Rendezvous.call_other, He|]. apply IH, Hes.
Qed.

Lemma call_world_steps (mine : nat) (rest : list Event) (w w' : Rendezvous.World) :
  rtc (Rendezvous.step mine) w w' ->
  rtc (Rendezvous.call_step mine) (rest, w) (rest, w').
Proof.
  induction 1 as [|w1 w2 w3 Hstep _ IH]; [apply rtc_refl|].
  eapply rtc_l; [apply Rendezvous.call_world, Hstep|exact IH].
Qed.

Lemma deliver_all_drops (latch : CountDownLatch) (a : IpAddress) (rs : list Reactor)
    (w : Rendezvous.World) :
  Rendezvous.deliver_all (Rendezvous.drops latch a rs) w =
    Rendezvous.mkWorld
      (Rendezvous.pending w ++ ((fun r => (r, DropFunctor latch a)) <$> rs))
      (Rendezvous.history w) (Rendezvous.latches w).
Proof.
  unfold Rendezvous.deliver_all, Rendezvous.drops. revert w.
  induction rs as [|r rs IH]; intros w; cbn.
  - rewrite app_nil_r. destruct w; reflexivity.
  - rewrite IH. cbn. rewrite <- app_assoc. reflexivity.
Qed.

Lemma drain_drop_tasks (latch : CountDownLatch) (a : IpAddress) (rs : list Reactor)
    (others : list (Reactor * ReactorTask)) (h : list Event) (ls : gmap nat nat) (n : nat) :
  ls !! latch_addr latch = Some (n + length rs)%nat ->
  exists h' ls',
    rtc (Rendezvous.step (latch_addr latch))
      (Rendezvous.mkWorld (others ++ ((fun r => (r, DropFunctor latch a)) <$> rs)) h ls)
      (Rendezvous.mkWorld others h' ls') /\
    ls' !! latch_addr latch = Some n.
Proof.
  revert h ls. induction rs as [|r rs IH]; intros h ls Hls.
  - exists h, ls. rewrite app_nil_r. split; [apply rtc_refl|].
    rewrite Hls. f_equal. cbn. lia.
  - destruct (IH ((h ++ [Reactor_DropWithRemoteAddress r a])
                    ++ [CountDownLatch_CountDown latch])
                 (alter Nat.pred (latch_addr latch) ls)) as (h' & ls' & Hsteps & Hn).
    { rewrite lookup_alter_eq, Hls. cbn. f_equal. lia. }
    exists h', ls'. split; [|exact Hn].
    eapply rtc_l; [|exact Hsteps].
    apply (Rendezvous.step_run (latch_addr latch)
             (Rendezvous.mkWorld
                (others ++ ((fun r => (r, DropFunctor latch a)) <$> r :: rs)) h ls)
             r (DropFunctor latch a) others ((fun r => (r, DropFunctor latch a)) <$> rs)).
    reflexivity.
Qed.

Lemma call_can_return (latch : CountDownLatch) (a : IpAddress) (rs : list Reactor)
    (w : Rendezvous.World) :
  latch_count latch = length rs ->
  exists w',
    rtc (Rendezvous.call_step (latch_addr latch))
      (CountDownLatch_new latch
       :: Rendezvous.drops latch a rs ++ [CountDownLatch_Wait latch], w)
      ([], w').
Proof.
  intros Hn.
  destruct (drain_drop_tasks latch a rs (Rendezvous.pending w) (Rendezvous.history w)
              (<[latch_addr latch := latch_count latch]> (Rendezvous.latches w)) 0)
    as (h' & ls' & Hsteps & Hzero).
  { rewrite lookup_insert_eq, Hn. reflexivity. }
  exists (Rendezvous.mkWorld (Rendezvous.pending w) h' ls').
  eapply rtc_l; [apply Rendezvous.call_other; reflexivity|].
  eapply rtc_trans.
  { apply call_deliver_all. unfold Rendezvous.drops. apply Forall_fmap, Forall_true.
    intros r. reflexivity. }
  rewrite deliver_all_drops. cbn.
  eapply rtc_trans; [apply call_world_steps, Hsteps|].
  apply rtc_once, Rendezvous.call_Wait. exact Hzero.
Qed.

Lemma BreakConnectivityWith_marked (m : Messenger) (addr : IpAddress) (fresh : nat) :
  addr ∈ broken_connectivity_ m ->
  BreakConnectivityWith addr fresh m = Returns tt m [].
Proof.
  intros Hin. unfold BreakConnectivityWith. unfold_monad. cbn beta iota.
  destruct (decide (broken_connectivity_ m = ∅)) as [E|_].
  { destruct (member_nonempty _ _ Hin E). }
  cbn. destruct (decide (addr ∈ broken_connectivity_ m)); [reflexivity|contradiction].
Qed.

Lemma BreakConnectivityWith_unmarked (m : Messenger) (addr : IpAddress) (fresh : nat) :
  addr ∉ broken_connectivity_ m ->
  let latch := mkCountDownLatch fresh (length (reactors_ m)) in
  exists m',
    BreakConnectivityWith addr fresh m =
      Returns tt m'
        (CountDownLatch_new latch
         :: Rendezvous.drops latch addr (reactors_ m) ++ [CountDownLatch_Wait latch]) /\
    broken_connectivity_ m' = {[addr]} ∪ broken_connectivity_ m /\
    reactors_ m' = reactors_ m.
Proof.
  intros Hnotin latch. unfold BreakConnectivityWith. unfold_monad. cbn beta iota.
  destruct (decide (broken_connectivity_ m = ∅)); cbn;
    (destruct (decide (addr ∈ broken_connectivity_ m)); [contradiction|]);
    cbn; rewrite for_each_returns; cbn; eexists; (split; [reflexivity|]);
    split; reflexivity.
Qed.

(** C9, as amended.  [BreakConnectivityWith] of an address that is already
    in the set of broken addresses makes no call at all (no latch, no task
    on any reactor, no wait) and leaves the messenger as it was.  Of an
    address that is not, it adds the address to the set, makes a latch whose
    count is the number of reactors, schedules on every reactor of
    [reactors_], in order, a task whose body drops the connections of that
    reactor with the address and then counts the latch down, and last waits
    on the latch.  Run against reactors that run the tasks scheduled on
    them, in any interleaving with the call and with what other threads
    schedule, and with a wait that returns only when the count is zero:
    once the call has returned every reactor of [reactors_] has dropped its
    connections with the address; and the call can return. *)
Theorem C9_BreakConnectivityWith (m : Messenger) (addr : IpAddress) (fresh : nat) :
  (addr ∈ broken_connectivity_ m ->
     BreakConnectivityWith addr fresh m = Returns tt m []) /\
  (addr ∉ broken_connectivity_ m ->
     let latch := mkCountDownLatch fresh (length (reactors_ m)) in
     let trace :=
       CountDownLatch_new latch
       :: ((fun r => Reactor_ScheduleReactorTask r (DropFunctor latch addr))
             <$> reactors_ m)
       ++ [CountDownLatch_Wait latch] in
     (exists m',
        BreakConnectivityWith addr fresh m = Returns tt m' trace /\
        broken_connectivity_ m' = {[addr]} ∪ broken_connectivity_ m) /\
     (forall r,
        Rendezvous.body r (DropFunctor latch addr) =
          [Reactor_DropWithRemoteAddress r addr; CountDownLatch_CountDown latch]) /\
     (forall w0 w,
        Rendezvous.unknown_latch fresh w0 ->
        rtc (Rendezvous.call_step fresh) (trace, w0) ([], w) ->
        forall r, r ∈ reactors_ m -> Rendezvous.has_dropped r addr w) /\
     (forall w0, exists w, rtc (Rendezvous.call_step fresh) (trace, w0) ([], w))).
Proof.
  split; [apply BreakConnectivityWith_marked|].
  intros Hnotin latch trace. split; [|split; [|split]].
  - destruct (BreakConnectivityWith_unmarked m addr fresh Hnotin) as (m' & Hrun & Hset & _).
    exists m'. split; assumption.
  - reflexivity.
  - intros w0 w Hunknown Hsteps.
    apply (during_returned latch addr (reactors_ m) w).
    apply (during_steps latch addr (reactors_ m) _ _ eq_refl Hsteps).
    left. split; [reflexivity|exact Hunknown].
  - intros w0. apply (call_can_return latch addr (reactors_ m) w0 eq_refl).
Qed.

(** ** Further properties of the methods *)

Lemma Messenger_ext (x y : Messenger) :
  name_ x = name_ y -> reactors_ x = reactors_ y -> acceptor_ x = acceptor_ y ->
  rpc_services_ x = rpc_services_ y -> rpc_services_cache_ x = rpc_services_cache_ y ->
  scheduled_tasks_ x = scheduled_tasks_ y -> next_task_id_ x = next_task_id_ y ->
  broken_connectivity_ x = broken_connectivity_ y ->
  has_broken_connectivity_ x = has_broken_connectivity_ y ->
  closing_ x = closing_ y -> x = y.
Proof. destruct x, y; cbn; intros; subst; reflexivity. Qed.

(** *** The registry and its published copy *)

Lemma exec_snapshot_inv (c : Call) (m m' : Messenger) (t : list Event) :
  c <> Call_Shutdown ->
  exec c m = Returns tt m' t -> snapshot_inv m -> snapshot_inv m'.
Proof.
  unfold snapshot_inv.
  destruct c; intros Hc H Hinv; try contradiction; run_method;
    first [exact Hinv | reflexivity | idtac].
  rewrite Hinv. symmetry. apply delete_id.
  destruct (rpc_services_ m !! name) eqn:E; [|reflexivity].
  exfalso. eauto.
Qed.

(** X1. Every method embedded other than [Shutdown] keeps the published
    copy of the registry equal to the registry: in a messenger where they
    are equal, after any sequence of calls without [Shutdown] they are
    equal, and [rpc_service] finds under a name exactly what the registry
    holds under it. *)
Theorem X1_snapshot_is_registry (cs : list Call) (m m' : Messenger) (t : list Event) :
  snapshot_inv m ->
  Forall (fun c => c <> Call_Shutdown) cs ->
  exec_all cs m = Returns tt m' t ->
  snapshot_inv m' /\
  forall name, rpc_service name m' = Returns (rpc_services_ m' !! name) m' [].
Proof.
  intros Hinv Hcs Hrun.
  assert (Hinv' : snapshot_inv m').
  { revert m t Hinv Hrun. induction Hcs as [|c cs Hc Hcs IH]; intros m t Hinv Hrun.
    - injection Hrun as <- _. exact Hinv.
    - apply exec_all_cons in Hrun as (m1 & t1 & t2 & H1 & H2 & _).
      eapply IH; [|exact H2]. eapply exec_snapshot_inv; eassumption. }
  split; [exact Hinv'|]. intros name. unfold rpc_service. unfold_monad.
  cbn beta iota. rewrite Hinv'. reflexivity.
Qed.

(** X2. [Shutdown] of a messenger with a published service, by the build.
    In the release build (and in the debug build when the registry is
    empty) [Shutdown] empties the registry but does not publish it: the
    published copy is what it was, so that after the shutdown an inbound
    call for a service published before is still handed to that service by
    [QueueInboundCall] and by [Handle].  In the debug build, on a registry
    that is not empty, [Shutdown] fails its [DCHECK] and the process aborts
    before any collaborator is called. *)
Theorem X2_Shutdown_keeps_snapshot (m : Messenger) (call : InboundCall) (svc : RpcService) :
  closing_ m = false ->
  rpc_services_cache_ m !! service_name call = Some svc ->
  (NDEBUG = true \/ rpc_services_ m = ∅ ->
   exists m' t,
     Shutdown m = Returns tt m' t /\
     rpc_services_ m' = ∅ /\
     rpc_services_cache_ m' = rpc_services_cache_ m /\
     QueueInboundCall call m' = Returns tt m' [RpcService_QueueInboundCall svc call] /\
     Handle call m' = Returns tt m' [RpcService_Handle svc call]) /\
  (NDEBUG = false -> rpc_services_ m <> ∅ -> Shutdown m = CheckFailed []).
Proof.
  intros Hclosing Hsvc. split; [|apply Shutdown_DCHECK, Hclosing].
  intros Hcheck. rewrite (Shutdown_first m Hclosing Hcheck).
  eexists _, _. split; [reflexivity|]. split; [reflexivity|]. split; [reflexivity|].
  unfold QueueInboundCall, Handle, rpc_service. unfold_monad. cbn beta iota.
  cbn [rpc_services_cache_]. rewrite Hsvc. split; reflexivity.
Qed.

(** X3. [RegisterService] does not look at the closing flag: whatever the
    messenger, it returns OK or AlreadyPresent, and after a [Shutdown] that
    has returned (in the release build, or in the debug build from an empty
    registry) it registers and publishes a service under any name, which
    dispatch then finds, the messenger staying closed. *)
Theorem X3_RegisterService_after_Shutdown (m : Messenger) (name : string)
    (service : RpcService) :
  (forall s m' t,
     RegisterService name service m = Returns s m' t ->
     (code s = kOk \/ code s = kAlreadyPresent) /\ closing_ m' = closing_ m) /\
  (closing_ m = false ->
   NDEBUG = true \/ rpc_services_ m = ∅ ->
   exists m1 t1 m2,
     Shutdown m = Returns tt m1 t1 /\
     RegisterService name service m1 = Returns Status_OK m2 [] /\
     closing_ m2 = true /\
     rpc_services_ m2 = {[name := service]} /\
     rpc_service name m2 = Returns (Some service) m2 []).
Proof.
  split.
  - intros s m' t H. destruct (rpc_services_ m !! name) as [old|] eqn:E.
    + rewrite (RegisterService_present m name service old E) in H.
      injection H as <- <- _. split; [right; reflexivity|reflexivity].
    + rewrite (RegisterService_absent m name service E) in H.
      injection H as <- <- _. split; [left; reflexivity|reflexivity].
  - intros Hclosing Hcheck. rewrite (Shutdown_first m Hclosing Hcheck).
    eexists _, _, _. split; [reflexivity|]. split.
    { apply RegisterService_absent. cbn. apply lookup_empty. }
    cbn. split; [reflexivity|]. split; [apply insert_empty|].
    unfold rpc_service. unfold_monad. cbn. rewrite lookup_insert_eq. reflexivity.
Qed.

(** X4. Registering a name that is free and unregistering it again gives
    back the very messenger, when the published copy was the registry: both
    calls return OK and registry and published copy are as before. *)
Theorem X4_register_unregister (m : Messenger) (name : string) (service : RpcService) :
  snapshot_inv m ->
  rpc_services_ m !! name = None ->
  exists m1,
    RegisterService name service m = Returns Status_OK m1 [] /\
    rpc_service name m1 = Returns (Some service) m1 [] /\
    UnregisterService name m1 = Returns Status_OK m [].
Proof.
  intros Hinv Hfree. rewrite (RegisterService_absent m name service Hfree).
  eexists. split; [reflexivity|]. split.
  - unfold rpc_service. unfold_monad. cbn. rewrite lookup_insert_eq. reflexivity.
  - unfold UnregisterService, UpdateServicesCache. unfold_monad. cbn.
    destruct (decide (is_Some (<[name:=service]> (rpc_services_ m) !! name))) as [_|Hn].
    + cbn. rewrite delete_insert_id by exact Hfree. f_equal.
      unfold snapshot_inv in Hinv. destruct m; cbn in *. rewrite Hinv. reflexivity.
    + destruct Hn. rewrite lookup_insert_eq. eauto.
Qed.

(** *** Breaking and restoring connectivity *)

Lemma RestoreConnectivityWith_unmarked (m : Messenger) (addr : IpAddress) :
  connectivity_inv m ->
  addr ∉ broken_connectivity_ m ->
  RestoreConnectivityWith addr m = Returns tt m [].
Proof.
  intros [Hto Hfrom] Hnotin.
  assert (E : broken_connectivity_ m ∖ {[addr]} = broken_connectivity_ m).
  { apply difference_disjoint_L, disjoint_singleton_r, Hnotin. }
  unfold RestoreConnectivityWith. unfold_monad. cbn beta iota. rewrite E.
  destruct (decide (broken_connectivity_ m = ∅)) as [He|Hne]; cbn.
  - f_equal. destruct (has_broken_connectivity_ m) eqn:F.
    + destruct (Hto eq_refl He).
    + destruct m; cbn in *. rewrite F. reflexivity.
  - f_equal. destruct m; reflexivity.
Qed.

(** X5. In a messenger whose flag agrees with its set of broken addresses:
    restoring connectivity with an address that is not broken changes
    nothing, and breaking connectivity with such an address and restoring
    it gives back the very messenger. *)
Theorem X5_break_restore (m : Messenger) (addr : IpAddress) (fresh : nat) :
  connectivity_inv m ->
  addr ∉ broken_connectivity_ m ->
  RestoreConnectivityWith addr m = Returns tt m [] /\
  exists m1 t,
    BreakConnectivityWith addr fresh m = Returns tt m1 t /\
    IsArtificiallyDisconnectedFrom addr m1 = Returns true m1 [] /\
    RestoreConnectivityWith addr m1 = Returns tt m [].
Proof.
  intros Hinv Hnotin. split; [apply RestoreConnectivityWith_unmarked; assumption|].
  destruct (BreakConnectivityWith_unmarked m addr fresh Hnotin) as (m1 & Hrun & Hset & _).
  pose proof (BreakConnectivityWith_inv _ _ _ _ _ Hrun Hinv) as Hinv1.
  pose proof (BreakConnectivityWith_state _ _ _ _ _ Hrun) as [_ Hflag].
  exists m1. eexists. split; [exact Hrun|]. split.
  { rewrite IsArtificiallyDisconnectedFrom_inv by exact Hinv1.
    rewrite bool_decide_eq_true_2; [reflexivity|].
    rewrite Hset. apply elem_of_union_l, elem_of_singleton_2. reflexivity. }
  assert (E : broken_connectivity_ m1 ∖ {[addr]} = broken_connectivity_ m).
  { rewrite Hset, difference_union_distr_l_L, difference_diag_L, union_empty_l_L.
    apply difference_disjoint_L, disjoint_singleton_r, Hnotin. }
  assert (Hrest : forall x, x = m1 ->
            name_ x = name_ m /\ reactors_ x = reactors_ m /\ acceptor_ x = acceptor_ m /\
            rpc_services_ x = rpc_services_ m /\
            rpc_services_cache_ x = rpc_services_cache_ m /\
            scheduled_tasks_ x = scheduled_tasks_ m /\
            next_task_id_ x = next_task_id_ m /\ closing_ x = closing_ m).
  { intros x ->. clear -Hrun. run_method; repeat split; reflexivity. }
  destruct (Hrest m1 eq_refl) as (H1 & H2 & H3 & H4 & H5 & H6 & H7 & H8).
  unfold RestoreConnectivityWith. unfold_monad. cbn beta iota. rewrite E.
  destruct Hinv as [Hto Hfrom].
  destruct (decide (broken_connectivity_ m = ∅)) as [He|Hne]; cbn; f_equal;
    apply Messenger_ext; cbn; try assumption; try reflexivity.
  destruct (has_broken_connectivity_ m) eqn:F; [|reflexivity].
  destruct (Hto eq_refl He).
Qed.


(** *** Routing and broken connectivity together *)

Lemma QueueOutboundCall_returns (m : Messenger) (call : OutboundCall) (r : Reactor) :
  Z.of_nat (length (reactors_ m)) <= INT_MAX ->
  reactors_ m !! position (remote (conn_id call)) (idx (conn_id call)) (length (reactors_ m))
    = Some r ->
  connectivity_inv m ->
  QueueOutboundCall call m =
    Returns tt m
      [if bool_decide (address (remote (conn_id call)) ∈ broken_connectivity_ m)
       then Reactor_ScheduleReactorTask r
              (TransferredFunctor call (STATUS kNetworkError "TEST: Connectivity is broken"))
       else Reactor_QueueOutboundCall r call].
Proof.
  intros Hmax Hr Hinv.
  unfold QueueOutboundCall, mbind, Action_bind.
  rewrite (RemoteToReactor_position m _ _ r Hmax Hr).
  rewrite (IsArtificiallyDisconnectedFrom_inv m _ Hinv).
  destruct (bool_decide _); reflexivity.
Qed.

(** X6. With at least one reactor, in a messenger whose flag agrees with its
    set of broken addresses, breaking and restoring connectivity change what
    [QueueOutboundCall] does for the calls to that address only, and never
    the reactor: after [BreakConnectivityWith] of the remote address of a
    call the call is answered by the task that fails it, after
    [RestoreConnectivityWith] of that address the call is queued on the
    reactor, and breaking or restoring another address leaves what is done
    with the call as it was. *)
Theorem X6_break_affects_one_address (m : Messenger) (call : OutboundCall) :
  (1 <= length (reactors_ m))%nat ->
  Z.of_nat (length (reactors_ m)) <= INT_MAX ->
  connectivity_inv m ->
  exists r,
    RemoteToReactor (remote (conn_id call)) (idx (conn_id call)) m = Returns r m [] /\
    (forall fresh m1 t,
       BreakConnectivityWith (address (remote (conn_id call))) fresh m = Returns tt m1 t ->
       QueueOutboundCall call m1 =
         Returns tt m1
           [Reactor_ScheduleReactorTask r
              (TransferredFunctor call
                 (STATUS kNetworkError "TEST: Connectivity is broken"))]) /\
    (forall m1 t,
       RestoreConnectivityWith (address (remote (conn_id call))) m = Returns tt m1 t ->
       QueueOutboundCall call m1 = Returns tt m1 [Reactor_QueueOutboundCall r call]) /\
    (forall other fresh m1 t,
       other <> address (remote (conn_id call)) ->
       BreakConnectivityWith other fresh m = Returns tt m1 t ->
       trace_of (QueueOutboundCall call m1) = trace_of (QueueOutboundCall call m)) /\
    (forall other m1 t,
       other <> address (remote (conn_id call)) ->
       RestoreConnectivityWith other m = Returns tt m1 t ->
       trace_of (QueueOutboundCall call m1) = trace_of (QueueOutboundCall call m)).
Proof.
  intros Hmin Hmax Hinv.
  destruct (RemoteToReactor_returns m (remote (conn_id call)) (idx (conn_id call))
              Hmin Hmax) as (r & Hr & Hrun).
  exists r. split; [exact Hrun|].
  assert (Hafter : forall m1,
    reactors_ m1 = reactors_ m -> connectivity_inv m1 ->
    QueueOutboundCall call m1 =
      Returns tt m1
        [if bool_decide (address (remote (conn_id call)) ∈ broken_connectivity_ m1)
         then Reactor_ScheduleReactorTask r
                (TransferredFunctor call
                   (STATUS kNetworkError "TEST: Connectivity is broken"))
         else Reactor_QueueOutboundCall r call]).
  { intros m1 Hrs Hinv1.
    apply QueueOutboundCall_returns; rewrite ?Hrs; assumption. }
  rewrite (QueueOutboundCall_returns m call r Hmax Hr Hinv).
  split; [|split; [|split]].
  - intros fresh m1 t H.
    rewrite (Hafter m1 (BreakConnectivityWith_reactors _ _ _ _ _ H)
               (BreakConnectivityWith_inv _ _ _ _ _ H Hinv)).
    apply BreakConnectivityWith_state in H as [Hset _].
    rewrite bool_decide_eq_true_2; [reflexivity|].
    rewrite Hset. apply elem_of_union_l, elem_of_singleton_2. reflexivity.
  - intros m1 t H.
    rewrite (Hafter m1 (RestoreConnectivityWith_reactors _ _ _ _ H)
               (RestoreConnectivityWith_inv _ _ _ _ H Hinv)).
    destruct (RestoreConnectivityWith_state m (address (remote (conn_id call))))
      as (m2 & Hrun2 & Hset & _).
    rewrite Hrun2 in H. injection H as <- _.
    rewrite bool_decide_eq_false_2; [reflexivity|].
    rewrite Hset. intros Hin. apply elem_of_difference in Hin as [_ Hin].
    apply Hin, elem_of_singleton_2. reflexivity.
  - intros other fresh m1 t Hother H.
    rewrite (Hafter m1 (BreakConnectivityWith_reactors _ _ _ _ _ H)
               (BreakConnectivityWith_inv _ _ _ _ _ H Hinv)).
    apply BreakConnectivityWith_state in H as [Hset _]. cbn.
    erewrite bool_decide_ext; [reflexivity|].
    rewrite Hset, elem_of_union, elem_of_singleton.
    split; [intros [E|Hin]; [congruence|exact Hin]|auto].
  - intros other m1 t Hother H.
    rewrite (Hafter m1 (RestoreConnectivityWith_reactors _ _ _ _ H)
               (RestoreConnectivityWith_inv _ _ _ _ H Hinv)).
    destruct (RestoreConnectivityWith_state m other) as (m2 & Hrun2 & Hset & _).
    rewrite Hrun2 in H. injection H as <- _. cbn.
    erewrite bool_decide_ext; [reflexivity|].
    rewrite Hset, elem_of_difference, elem_of_singleton.
    split; [intros [Hin _]; exact Hin|]. intros Hin. split; [exact Hin|congruence].
Qed.

(** *** Identifiers and the map of scheduled tasks *)

Lemma exec_tasks_below (c : Call) (m m' : Messenger) (t : list Event) :
  - 2 ^ 63 <= next_task_id_ m < 2 ^ 63 - 1 ->
  exec c m = Returns tt m' t ->
  tasks_below m ->
  tasks_below m' /\ next_task_id_ m <= next_task_id_ m' <= next_task_id_ m + 1.
Proof.
  unfold tasks_below. intros Hrange H Hinv.
  assert (Hnext : to_int64 (next_task_id_ m + 1) = next_task_id_ m + 1)
    by (apply to_int64_id; lia).
  destruct c; run_method; rewrite ?Hnext;
    (split; [|lia]); try exact Hinv; intros id' Hid';
    try (apply lookup_delete_is_Some in Hid' as [_ Hid']; auto).
  all: apply lookup_insert_is_Some in Hid' as [<-|[_ Hid']]; [lia|].
  all: apply Hinv in Hid'; lia.
Qed.

Lemma exec_all_tasks_below (cs : list Call) (m m' : Messenger) (t : list Event) :
  - 2 ^ 63 <= next_task_id_ m ->
  next_task_id_ m + Z.of_nat (length cs) < 2 ^ 63 ->
  exec_all cs m = Returns tt m' t ->
  tasks_below m ->
  tasks_below m'.
Proof.
  revert m t. induction cs as [|c cs IH]; intros m t Hlow Hhigh Hrun Hinv.
  - injection Hrun as <- _. exact Hinv.
  - apply exec_all_cons in Hrun as (m1 & t1 & t2 & H1 & H2 & _).
    cbn [length] in Hhigh.
    destruct (exec_tasks_below c m m1 t1) as [Hinv1 Hnext]; [lia|exact H1|exact Hinv|].
    eapply IH; [| |exact H2|exact Hinv1]; lia.
Qed.

(** X7. While every identifier in the map of scheduled tasks is below the
    counter, and the counter is below the largest 64-bit integer,
    [ScheduleOnReactor] with an owning messenger never replaces a task of
    the map: the identifier it hands out was in no entry, the map grows by
    exactly this one entry and keeps the others; and every sequence of
    calls that does not drive the counter to its end keeps the identifiers
    of the map below the counter. *)
Theorem X7_schedule_never_overwrites (m : Messenger) (cur : Reactor -> bool) (rnd : Z)
    (func : Functor) (when : Z) :
  tasks_below m ->
  - 2 ^ 63 <= next_task_id_ m < 2 ^ 63 - 1 ->
  (forall id m' t,
     ScheduleOnReactor cur rnd func when true m = Returns id m' t ->
     scheduled_tasks_ m !! id = None /\
     size (scheduled_tasks_ m') = S (size (scheduled_tasks_ m)) /\
     (forall id' task,
        scheduled_tasks_ m !! id' = Some task -> scheduled_tasks_ m' !! id' = Some task) /\
     tasks_below m') /\
  (forall cs m' t,
     next_task_id_ m + Z.of_nat (length cs) < 2 ^ 63 ->
     exec_all cs m = Returns tt m' t ->
     tasks_below m').
Proof.
  intros Hinv Hrange. split.
  - intros id m' t H.
    assert (Hfree : scheduled_tasks_ m !! next_task_id_ m = None).
    { destruct (scheduled_tasks_ m !! next_task_id_ m) eqn:E; [|reflexivity].
      assert (next_task_id_ m < next_task_id_ m) by (apply Hinv; eauto). lia. }
    assert (Hexec : exec (Call_ScheduleOnReactor cur rnd func when true) m
                    = Returns tt m' t).
    { cbn [exec]. unfold mbind, Action_bind. rewrite H. cbn. rewrite app_nil_r.
      reflexivity. }
    apply exec_tasks_below in Hexec as [Hinv' _]; [|exact Hrange|exact Hinv].
    run_method; (split; [exact Hfree|]);
      (split; [apply map_size_insert_None, Hfree|]); (split; [|exact Hinv']);
      intros id' task Hid'; rewrite lookup_insert_ne; [exact Hid'|congruence
                                                      |exact Hid'|congruence].
  - intros cs m' t Hlen Hrun. eapply exec_all_tasks_below; [| |exact Hrun|exact Hinv]; lia.
Qed.

(** X8. Scheduling a task with an owning messenger and removing it again
    with [RemoveScheduledTask], as a task that has run does, gives back the
    map of scheduled tasks when the identifier was free and is not -1; an
    [AbortOnReactor] of the identifier then finds nothing to abort.  The
    counter stays incremented. *)
Theorem X8_schedule_remove (m : Messenger) (cur : Reactor -> bool) (rnd : Z)
    (func : Functor) (when : Z) (id : Z) (m1 : Messenger) (t : list Event) :
  scheduled_tasks_ m !! next_task_id_ m = None ->
  next_task_id_ m <> -1 ->
  ScheduleOnReactor cur rnd func when true m = Returns id m1 t ->
  id = next_task_id_ m /\
  exists m2,
    RemoveScheduledTask id m1 = Returns tt m2 [] /\
    scheduled_tasks_ m2 = scheduled_tasks_ m /\
    next_task_id_ m2 = to_int64 (next_task_id_ m + 1) /\
    AbortOnReactor id m2 = Returns tt m2 [].
Proof.
  intros Hfree Hid H.
  assert (id = next_task_id_ m /\
          scheduled_tasks_ m1 = <[id := mkDelayedTask func when id true]> (scheduled_tasks_ m) /\
          next_task_id_ m1 = to_int64 (next_task_id_ m + 1)) as (-> & Htasks & Hnext).
  { run_method; repeat split; reflexivity. }
  split; [reflexivity|].
  unfold RemoveScheduledTask. unfold_monad. cbn beta iota.
  destruct (decide (next_task_id_ m = -1)) as [|_]; [contradiction|]. cbn.
  eexists. split; [reflexivity|]. cbn.
  assert (E : delete (next_task_id_ m) (scheduled_tasks_ m1) = scheduled_tasks_ m).
  { rewrite Htasks. apply delete_insert_id, Hfree. }
  split; [exact E|]. split; [exact Hnext|].
  apply AbortOnReactor_absent; [exact Hid|]. cbn. rewrite E. exact Hfree.
Qed.

(** *** How connections to one remote spread over the reactors *)

Lemma position_shift (ep : Endpoint) (i k : Z) (n : nat) :
  (1 <= n)%nat -> 0 <= i -> 0 <= k ->
  to_uint32 (hash_value ep) + i + k < 2 ^ 32 ->
  Z.of_nat (position ep (i + k) n) = (Z.of_nat (position ep i n) + k) mod Z.of_nat n.
Proof.
  intros Hn Hi Hk Hsum. unfold position.
  pose proof (Z.mod_pos_bound (hash_value ep) (2 ^ 32) eq_refl) as Hh.
  fold (to_uint32 (hash_value ep)) in Hh.
  rewrite !Z2Nat.id by (apply Z.mod_pos_bound; lia).
  assert (E1 : to_uint32 (to_uint32 (hash_value ep) + (i + k))
               = to_uint32 (hash_value ep) + i + k)
    by (unfold to_uint32 at 1; rewrite Z.add_assoc; apply Z.mod_small; lia).
  assert (E2 : to_uint32 (to_uint32 (hash_value ep) + i) = to_uint32 (hash_value ep) + i)
    by (unfold to_uint32 at 1; apply Z.mod_small; lia).
  rewrite E1, E2. apply eq_sym, Zplus_mod_idemp_l.
Qed.

Lemma add_mod_same (a k n : Z) :
  0 <= a < n -> ((a + k) mod n = a <-> k mod n = 0).
Proof.
  intros Ha.
  pose proof (Z.mod_pos_bound k n ltac:(lia)) as Hk.
  rewrite <- (Zplus_mod_idemp_r k a n). split.
  - intros E. destruct (Z_lt_ge_dec (a + k mod n) n) as [Hlt|Hge].
    + rewrite Z.mod_small in E by lia. lia.
    + replace (a + k mod n) with ((a + k mod n - n) + 1 * n) in E by lia.
      rewrite Z_mod_plus_full, Z.mod_small in E by lia. lia.
  - intros ->. rewrite Z.add_0_r. apply Z.mod_small, Ha.
Qed.

(** X9. With the reactors as the constructor makes them, n of them, and
    connection indices whose sum with the hash does not wrap around 32
    bits: the connections of indices i and i + k to one remote are on the
    same reactor exactly when n divides k.  So up to n parallel connections
    to a remote are on different reactors, and the index i + n is on the
    reactor of the index i. *)
Theorem X9_connections_spread (m : Messenger) (ep : Endpoint) (i k : Z) (n : Z) :
  reactors_ m = Messenger_reactors n ->
  1 <= n <= INT_MAX ->
  0 <= i -> 0 <= k ->
  to_uint32 (hash_value ep) + i + k < 2 ^ 32 ->
  exists r1 r2,
    RemoteToReactor ep i m = Returns r1 m [] /\
    RemoteToReactor ep (i + k) m = Returns r2 m [] /\
    (r1 = r2 <-> k mod n = 0).
Proof.
  intros Hrs Hn Hi Hk Hsum.
  assert (Hlen : Z.of_nat (length (reactors_ m)) = n)
    by (rewrite Hrs; apply Messenger_reactors_length; lia).
  assert (Hmin : (1 <= length (reactors_ m))%nat) by lia.
  assert (Hmax : Z.of_nat (length (reactors_ m)) <= INT_MAX) by lia.
  destruct (RemoteToReactor_returns m ep i Hmin Hmax) as (r1 & Hr1 & Hrun1).
  destruct (RemoteToReactor_returns m ep (i + k) Hmin Hmax) as (r2 & Hr2 & Hrun2).
  exists r1, r2. split; [exact Hrun1|]. split; [exact Hrun2|].
  pose proof (position_shift ep i k (length (reactors_ m)) Hmin Hi Hk Hsum) as Hshift.
  pose proof (position_lt ep i (length (reactors_ m)) Hmin) as Hlt.
  rewrite Hrs in Hr1, Hr2, Hshift, Hlt, Hlen.
  apply Messenger_reactors_lookup in Hr1. apply Messenger_reactors_lookup in Hr2.
  subst r1 r2. rewrite Hlen in Hshift.
  rewrite <- (add_mod_same
                (Z.of_nat (position ep i (length (Messenger_reactors n)))) k n) by lia.
  rewrite <- Hshift. split.
  - intros [= E]. rewrite E. reflexivity.
  - intros E. f_equal. lia.
Qed.


(** ** The whole object *)

Lemma each_effect {A} (f : A -> Effect) (xs : list A) (o : MessengerObject) :
  each xs (fun x => effect (f x)) o = Finished tt o (f <$> xs).
Proof.
  induction xs as [|x xs IH]; [reflexivity|].
  cbn [each]. unfold mbind, Method_bind, effect at 1. cbn beta iota.
  rewrite IH. reflexivity.
Qed.

Lemma each_finishes {A} (f : A -> Effect) (xs : list A) (o : MessengerObject) :
  each xs (fun x o' => Finished tt o' [f x]) o = Finished tt o (f <$> xs).
Proof. exact (each_effect f xs o). Qed.

Ltac unfold_object :=
  unfold invoke in *;
  unfold MessengerBuilder_Build, AllExternalReferencesDropped, Messenger_Init, ListenAddress,
    StartAcceptor, RegisterInboundSocket, DumpRunningRpcs, QueueEventOnAllReactors,
    Messenger_destructor in *;
  unfold mbind, Method_bind, mret, Method_ret, reads, update, effect, unspecified,
    CHECK, lift in *.

(** *** The loops that stop at the first failure *)

Lemma each_RETURN_NOT_OK_all_ok (rs : list Reactor) (call : Reactor -> Effect)
    (status : Reactor -> Status) (o : MessengerObject) :
  Forall (fun r => Status_ok (status r) = true) rs ->
  each_RETURN_NOT_OK rs call status o = Finished Status_OK o (call <$> rs).
Proof.
  induction 1 as [|r rs Hr _ IH]; [reflexivity|].
  cbn [each_RETURN_NOT_OK]. unfold mbind, Method_bind, effect. rewrite Hr, IH. reflexivity.
Qed.

Lemma each_RETURN_NOT_OK_first_failure (rs : list Reactor) (call : Reactor -> Effect)
    (status : Reactor -> Status) (o : MessengerObject) (k : nat) (r : Reactor) :
  rs !! k = Some r ->
  Status_ok (status r) = false ->
  Forall (fun r' => Status_ok (status r') = true) (take k rs) ->
  each_RETURN_NOT_OK rs call status o = Finished (status r) o (call <$> take (S k) rs).
Proof.
  revert k. induction rs as [|r0 rs IH]; intros k Hk Hr Hbefore; [discriminate|].
  cbn [each_RETURN_NOT_OK]. unfold mbind, Method_bind, effect. destruct k as [|k].
  - injection Hk as ->. rewrite Hr. reflexivity.
  - cbn in Hk. rewrite firstn_cons in Hbefore. apply Forall_cons in Hbefore as [H0 Hbefore].
    rewrite H0, (IH k Hk Hr Hbefore). reflexivity.
Qed.

Lemma each_RETURN_NOT_OK_total (rs : list Reactor) (call : Reactor -> Effect)
    (status : Reactor -> Status) (o : MessengerObject) :
  exists s n,
    each_RETURN_NOT_OK rs call status o = Finished s o (call <$> take n rs) /\
    (Status_ok s = true <-> Forall (fun r => Status_ok (status r) = true) rs).
Proof.
  induction rs as [|r rs (s & n & IH & Hs)].
  - exists Status_OK, 0%nat. split; [reflexivity|]. split; [constructor|reflexivity].
  - cbn [each_RETURN_NOT_OK]. unfold mbind, Method_bind, effect.
    destruct (Status_ok (status r)) eqn:Hr.
    + exists s, (S n). rewrite IH. split; [reflexivity|].
      rewrite Forall_cons. tauto.
    + exists (status r), 1%nat. split; [reflexivity|].
      rewrite Forall_cons. rewrite Hr. split; [discriminate|]. intros [? _]. discriminate.
Qed.

(** X10. [Init] initialises the reactors in their order and stops at the
    first whose [Init] fails: it returns OK, having initialised them all,
    when every reactor answers OK; otherwise it returns the status of the
    first failing reactor, and the reactors after that one are not
    initialised.  It always returns, its status is OK exactly when all
    reactors answer OK, and it leaves the messenger as it was. *)
Theorem X10_Init_first_failure (init : Reactor -> Status) (o : MessengerObject) :
  (exists s n,
     Messenger_Init init o = Finished s o (Reactor_Init <$> take n (reactors_ (members o))) /\
     (Status_ok s = true <->
      Forall (fun r => Status_ok (init r) = true) (reactors_ (members o)))) /\
  (Forall (fun r => Status_ok (init r) = true) (reactors_ (members o)) ->
   Messenger_Init init o = Finished Status_OK o (Reactor_Init <$> reactors_ (members o))) /\
  (forall k r,
     reactors_ (members o) !! k = Some r ->
     Status_ok (init r) = false ->
     Forall (fun r' => Status_ok (init r') = true) (take k (reactors_ (members o))) ->
     Messenger_Init init o =
       Finished (init r) o (Reactor_Init <$> take (S k) (reactors_ (members o)))).
Proof.
  unfold Messenger_Init, mbind, Method_bind, reads.
  split; [|split].
  - destruct (each_RETURN_NOT_OK_total (reactors_ (members o)) Reactor_Init init o)
      as (s & n & -> & Hs).
    exists s, n. split; [reflexivity|exact Hs].
  - intros Hall. rewrite (each_RETURN_NOT_OK_all_ok _ _ _ _ Hall). reflexivity.
  - intros k r Hk Hr Hbefore.
    rewrite (each_RETURN_NOT_OK_first_failure _ _ _ _ k r Hk Hr Hbefore). reflexivity.
Qed.

(** [Shutdown] returns on a messenger that is closing, in the release
    build, and on an empty registry. *)
Lemma Shutdown_returns (m : Messenger) :
  closing_ m = true \/ NDEBUG = true \/ rpc_services_ m = ∅ ->
  exists m' t, Shutdown m = Returns tt m' t.
Proof.
  intros Hcheck. destruct (closing_ m) eqn:Hc.
  - exists m, []. apply Shutdown_closing, Hc.
  - destruct Hcheck as [Hcheck|Hcheck]; [discriminate|].
    eexists _, _. apply (Shutdown_first m Hc Hcheck).
Qed.

Lemma Shutdown_finished (m m' : Messenger) (t : list Event) :
  Shutdown m = Returns tt m' t ->
  closing_ m' = true /\ reactors_ m' = reactors_ m /\ name_ m' = name_ m /\
  (closing_ m = false -> acceptor_ m' = None).
Proof.
  intros H. destruct (closing_ m) eqn:Hc.
  - rewrite (Shutdown_closing m Hc) in H. injection H as <- _.
    repeat split; auto. discriminate.
  - destruct (NDEBUG || bool_decide (rpc_services_ m = ∅)) eqn:Hpass.
    + apply orb_true_iff in Hpass as [Hpass|Hpass].
      * rewrite (Shutdown_first m Hc (or_introl Hpass)) in H. injection H as <- _.
        repeat split; reflexivity.
      * apply bool_decide_eq_true in Hpass.
        rewrite (Shutdown_first m Hc (or_intror Hpass)) in H. injection H as <- _.
        repeat split; reflexivity.
    + apply orb_false_iff in Hpass as [Hdebug Hservices].
      apply bool_decide_eq_false in Hservices.
      rewrite (Shutdown_DCHECK m Hc Hdebug Hservices) in H. discriminate.
Qed.

Lemma Shutdown_reactors_kept (o o1 : MessengerObject) (t : list Effect) :
  lift Shutdown o = Finished tt o1 t ->
  reactors_ (members o1) = reactors_ (members o) /\ closing_ (members o1) = true.
Proof.
  unfold lift. intros H. destruct (Shutdown (members o)) as [[] m' t'| |] eqn:E;
    [|discriminate..].
  injection H as <- _. apply Shutdown_finished in E as (Hc & Hrs & _). cbn. auto.
Qed.

(** X11. [DumpRunningRpcs] asks the reactors in their order and stops at
    the first that fails, whose status it returns; [QueueEventOnAllReactors]
    hands the event to every reactor and returns OK.  Neither looks at
    [closing_]: after [Shutdown] both still call the reactors, all of them,
    that have been shut down and joined. *)
Theorem X11_reactors_asked_in_order (dump : Reactor -> Status) (server_event : ServerEventList)
    (o : MessengerObject) :
  (Forall (fun r => Status_ok (dump r) = true) (reactors_ (members o)) ->
   DumpRunningRpcs dump o =
     Finished Status_OK o (Reactor_DumpRunningRpcs <$> reactors_ (members o))) /\
  (forall k r,
     reactors_ (members o) !! k = Some r ->
     Status_ok (dump r) = false ->
     Forall (fun r' => Status_ok (dump r') = true) (take k (reactors_ (members o))) ->
     DumpRunningRpcs dump o =
       Finished (dump r) o (Reactor_DumpRunningRpcs <$> take (S k) (reactors_ (members o)))) /\
  QueueEventOnAllReactors server_event o =
    Finished Status_OK o
      ((fun r => Reactor_QueueEventOnAllConnections r server_event)
         <$> reactors_ (members o)) /\
  (forall o1 t,
     lift Shutdown o = Finished tt o1 t ->
     QueueEventOnAllReactors server_event o1 =
       Finished Status_OK o1
         ((fun r => Reactor_QueueEventOnAllConnections r server_event)
            <$> reactors_ (members o)) /\
     (Forall (fun r => Status_ok (dump r) = true) (reactors_ (members o)) ->
      DumpRunningRpcs dump o1 =
        Finished Status_OK o1 (Reactor_DumpRunningRpcs <$> reactors_ (members o)))).
Proof.
  assert (Hqueue : forall o',
    QueueEventOnAllReactors server_event o' =
      Finished Status_OK o'
        ((fun r => Reactor_QueueEventOnAllConnections r server_event)
           <$> reactors_ (members o'))).
  { intros o'. unfold QueueEventOnAllReactors, mbind, Method_bind, reads.
    rewrite each_effect. cbn. rewrite app_nil_r. reflexivity. }
  assert (Hdump : forall o',
    Forall (fun r => Status_ok (dump r) = true) (reactors_ (members o')) ->
    DumpRunningRpcs dump o' =
      Finished Status_OK o' (Reactor_DumpRunningRpcs <$> reactors_ (members o'))).
  { intros o' Hall. unfold DumpRunningRpcs, mbind, Method_bind, reads.
    rewrite (each_RETURN_NOT_OK_all_ok _ _ _ _ Hall). reflexivity. }
  split; [apply Hdump|]. split; [|split; [apply Hqueue|]].
  - intros k r Hk Hr Hbefore. unfold DumpRunningRpcs, mbind, Method_bind, reads.
    rewrite (each_RETURN_NOT_OK_first_failure _ _ _ _ k r Hk Hr Hbefore). reflexivity.
  - intros o1 t H. apply Shutdown_reactors_kept in H as [Hrs _].
    rewrite <- Hrs. split; [apply Hqueue|apply Hdump].
Qed.


(** *** Construction *)

Lemma MessengerObject_ext (o1 o2 : MessengerObject) :
  members o1 = members o2 ->
  metric_entity_ o1 = metric_entity_ o2 ->
  retain_self_ o1 = retain_self_ o2 ->
  outbound_address_v4_ o1 = outbound_address_v4_ o2 ->
  outbound_address_v6_ o1 = outbound_address_v6_ o2 ->
  num_connections_accepted_ o1 = num_connections_accepted_ o2 ->
  o1 = o2.
Proof. destruct o1, o2. cbn. intros. subst. reflexivity. Qed.

Lemma push_back_loop (bld : MessengerBuilder.t) (k a : nat) (o : MessengerObject) :
  each (seq a k)
    (fun i =>
       effect (Reactor_new (mkReactor i) bld);;
       update (fun o =>
         set_members (set_reactors_ (reactors_ (members o) ++ [mkReactor i]) (members o)) o))
    o =
  Finished tt
    (set_members
       (set_reactors_ (reactors_ (members o) ++ (mkReactor <$> seq a k)) (members o)) o)
    ((fun r => Reactor_new r bld) <$> (mkReactor <$> seq a k)).
Proof.
  revert a o. induction k as [|k IH]; intros a o.
  - cbn. f_equal. rewrite app_nil_r. destruct o as [[]]. reflexivity.
  - cbn [seq each]. unfold mbind at 1, Method_bind at 1.
    unfold mbind at 1, Method_bind at 1, effect at 1, update at 1. cbn beta iota.
    rewrite IH. cbn. rewrite <- app_assoc. reflexivity.
Qed.

Lemma Messenger_Messenger_returns (bld : MessengerBuilder.t) (io : Z) (o : MessengerObject) :
  Messenger_Messenger bld io o =
    Finished tt
      (mkMessengerObject
         (mkMessenger (MessengerBuilder.name_ bld)
            (reactors_ (members o)
               ++ Messenger_reactors (MessengerBuilder.num_reactors_ bld))
            (acceptor_ (members o)) (rpc_services_ (members o))
            (rpc_services_cache_ (members o)) (scheduled_tasks_ (members o))
            (next_task_id_ (members o)) (broken_connectivity_ (members o))
            (has_broken_connectivity_ (members o)) (closing_ (members o)))
         (MessengerBuilder.metric_entity_ bld) true (outbound_address_v4_ o)
         (outbound_address_v6_ o) (num_connections_accepted_ o))
      ([IoThreadPool_new io; Scheduler_new]
         ++ ((fun r => Reactor_new r bld)
               <$> Messenger_reactors (MessengerBuilder.num_reactors_ bld))).
Proof.
  unfold Messenger_Messenger.
  unfold mbind at 1 2 3 4 5, Method_bind at 1 2 3 4 5, update at 1 2 3, effect at 1 2.
  cbn beta iota. rewrite push_back_loop. reflexivity.
Qed.

(** What [Build] does up to the call of [Init]. *)
Lemma Build_returns (bld : MessengerBuilder.t) (io : Z) (init : Reactor -> Status)
    (decl : MessengerObject) :
  reactors_ (members decl) = [] ->
  exists o,
    Messenger_Messenger bld io decl =
      Finished tt o
        ([IoThreadPool_new io; Scheduler_new]
           ++ ((fun r => Reactor_new r bld)
                 <$> Messenger_reactors (MessengerBuilder.num_reactors_ bld))) /\
    name_ (members o) = MessengerBuilder.name_ bld /\
    reactors_ (members o) = Messenger_reactors (MessengerBuilder.num_reactors_ bld) /\
    retain_self_ o = true /\
    closing_ (members o) = closing_ (members decl) /\
    acceptor_ (members o) = acceptor_ (members decl).
Proof.
  intros Hrs. rewrite Messenger_Messenger_returns. eexists. split; [reflexivity|].
  cbn. rewrite Hrs. repeat split; reflexivity.
Qed.

Lemma Build_finishes (bld : MessengerBuilder.t) (io : Z) (init : Reactor -> Status)
    (decl : MessengerObject) :
  reactors_ (members decl) = [] ->
  Forall (fun r => Status_ok (init r) = true)
    (Messenger_reactors (MessengerBuilder.num_reactors_ bld)) ->
  exists o,
    MessengerBuilder_Build bld io init decl =
      Finished Built_messenger o
        ([IoThreadPool_new io; Scheduler_new]
           ++ ((fun r => Reactor_new r bld)
                 <$> Messenger_reactors (MessengerBuilder.num_reactors_ bld))
           ++ (Reactor_Init <$> Messenger_reactors (MessengerBuilder.num_reactors_ bld))) /\
    name_ (members o) = MessengerBuilder.name_ bld /\
    reactors_ (members o) = Messenger_reactors (MessengerBuilder.num_reactors_ bld) /\
    retain_self_ o = true /\
    closing_ (members o) = closing_ (members decl) /\
    acceptor_ (members o) = acceptor_ (members decl).
Proof.
  intros Hrs Hall.
  destruct (Build_returns bld io init decl Hrs) as (o & Hnew & Hname & Hreactors & Hrest).
  exists o. split; [|split; [exact Hname|split; [exact Hreactors|exact Hrest]]].
  unfold MessengerBuilder_Build, mbind, Method_bind. rewrite Hnew.
  unfold Messenger_Init, mbind, Method_bind, reads. rewrite Hreactors.
  rewrite (each_RETURN_NOT_OK_all_ok _ _ _ _ Hall).
  change (Status_ok Status_OK) with true. cbn.
  rewrite app_nil_r. reflexivity.
Qed.

(** X12. On an object without reactors, when every reactor initialises,
    [Build] returns the messenger: it has the name of the builder, the
    reactors 0, 1, .. up to the number of the builder, all of them
    constructed before the first is initialised, and it holds itself; and
    with a number of reactors between 1 and [INT_MAX] it routes every
    connection to the reactor at the position of the hash. *)
Theorem X12_Build (bld : MessengerBuilder.t) (io : Z) (init : Reactor -> Status)
    (decl : MessengerObject) :
  reactors_ (members decl) = [] ->
  Forall (fun r => Status_ok (init r) = true)
    (Messenger_reactors (MessengerBuilder.num_reactors_ bld)) ->
  exists o,
    MessengerBuilder_Build bld io init decl =
      Finished Built_messenger o
        ([IoThreadPool_new io; Scheduler_new]
           ++ ((fun r => Reactor_new r bld)
                 <$> Messenger_reactors (MessengerBuilder.num_reactors_ bld))
           ++ (Reactor_Init <$> Messenger_reactors (MessengerBuilder.num_reactors_ bld))) /\
    name_ (members o) = MessengerBuilder.name_ bld /\
    reactors_ (members o) = Messenger_reactors (MessengerBuilder.num_reactors_ bld) /\
    retain_self_ o = true /\
    closing_ (members o) = closing_ (members decl) /\
    acceptor_ (members o) = acceptor_ (members decl) /\
    (1 <= MessengerBuilder.num_reactors_ bld <= INT_MAX ->
     forall ep i,
       RemoteToReactor ep i (members o) =
         Returns
           (mkReactor (position ep i (Z.to_nat (MessengerBuilder.num_reactors_ bld))))
           (members o) []).
Proof.
  intros Hrs Hall.
  destruct (Build_finishes bld io init decl Hrs Hall)
    as (o & Hrun & Hname & Hreactors & Hretain & Hclosing & Hacceptor).
  exists o. repeat (split; [assumption|]).
  intros Hn ep i.
  assert (Hlen : Z.of_nat (length (reactors_ (members o)))
                 = MessengerBuilder.num_reactors_ bld)
    by (rewrite Hreactors; apply Messenger_reactors_length; lia).
  destruct (RemoteToReactor_returns (members o) ep i) as (r & Hr & Hrun'); [lia..|].
  rewrite Hrun'. f_equal.
  rewrite Hreactors in Hr. apply Messenger_reactors_lookup in Hr. rewrite Hr.
  do 2 f_equal. rewrite Hreactors in Hlen. lia.
Qed.


(** X14. When the [Init] of a reactor fails, [Build] on an object that is
    not closing does not return the status: the [unique_ptr] deletes the
    messenger, whose destructor fails its [CHECK] of [closing_] and aborts
    the process.  The reactors up to the failing one have been initialised
    by then, and none is shut down or deleted. *)
Theorem X14_Build_aborts_when_Init_fails (bld : MessengerBuilder.t) (io : Z)
    (init : Reactor -> Status) (decl : MessengerObject) (k : nat) (r : Reactor) :
  reactors_ (members decl) = [] ->
  closing_ (members decl) = false ->
  Messenger_reactors (MessengerBuilder.num_reactors_ bld) !! k = Some r ->
  Status_ok (init r) = false ->
  Forall (fun r' => Status_ok (init r') = true)
    (take k (Messenger_reactors (MessengerBuilder.num_reactors_ bld))) ->
  MessengerBuilder_Build bld io init decl =
    Aborted
      ([IoThreadPool_new io; Scheduler_new]
         ++ ((fun r => Reactor_new r bld)
               <$> Messenger_reactors (MessengerBuilder.num_reactors_ bld))
         ++ (Reactor_Init
               <$> take (S k) (Messenger_reactors (MessengerBuilder.num_reactors_ bld)))).
Proof.
  intros Hrs Hclosing Hk Hr Hbefore.
  destruct (Build_returns bld io init decl Hrs)
    as (o & Hnew & _ & Hreactors & _ & Hclosing' & _).
  unfold MessengerBuilder_Build, mbind, Method_bind. rewrite Hnew.
  unfold Messenger_Init, mbind, Method_bind, reads. rewrite Hreactors.
  rewrite (each_RETURN_NOT_OK_first_failure _ _ _ _ k r Hk Hr Hbefore). rewrite Hr.
  unfold Messenger_destructor, mbind, Method_bind, reads, CHECK.
  rewrite Hclosing', Hclosing. cbn. rewrite !app_nil_r. reflexivity.
Qed.


(** *** Sequences of calls on the whole object *)

(** Runs a method on the whole object symbolically. *)
Ltac run_object :=
  unfold_object; cbn beta iota in *;
  repeat match goal with
  | H : context [each_RETURN_NOT_OK ?rs ?c ?s ?o] |- _ =>
      let E := fresh "E" in
      destruct (each_RETURN_NOT_OK_total rs c s o) as (? & ? & E & _);
      rewrite E in H; clear E
  end;
  rewrite ?each_finishes in *;
  repeat (case_match; simplify_eq/=);
  simplify_eq/=.

Lemma exec_name (c : Call) (m m' : Messenger) (t : list Event) :
  exec c m = Returns tt m' t -> name_ m' = name_ m.
Proof. destruct c; intros H; run_method; reflexivity. Qed.

Lemma invoke_Call (c : Call) (o o' : MessengerObject) (t : list Effect) :
  invoke (Op_Call c) o = Finished tt o' t ->
  exists m' t',
    exec c (members o) = Returns tt m' t' /\ o' = set_members m' o /\ t = Collaborator <$> t'.
Proof.
  cbn [invoke]. unfold lift.
  destruct (exec c (members o)) as [[] m' t'| |]; [|discriminate..].
  intros [= <- <-]. eauto.
Qed.

Lemma invoke_all_cons (op : Op) (ops : list Op) (o o' : MessengerObject) (t : list Effect) :
  invoke_all (op :: ops) o = Finished tt o' t ->
  exists o1 t1 t2,
    invoke op o = Finished tt o1 t1 /\ invoke_all ops o1 = Finished tt o' t2 /\ t = t1 ++ t2.
Proof.
  unfold invoke_all. cbn [each]. unfold mbind, Method_bind.
  destruct (invoke op o) as [[] o1 t1| |]; [|discriminate..].
  destruct (each ops invoke o1) as [[] o2 t2| |] eqn:E; [|discriminate..].
  intros [= <- <-]. eauto 6.
Qed.

(** A property every call keeps is kept by every sequence of calls. *)
Lemma invoke_all_invariant (P : MessengerObject -> Prop) (Q : Op -> Prop) :
  (forall op o o' t, Q op -> invoke op o = Finished tt o' t -> P o -> P o') ->
  forall ops o o' t,
    Forall Q ops -> invoke_all ops o = Finished tt o' t -> P o -> P o'.
Proof.
  intros Hstep ops. induction ops as [|op ops IH]; intros o o' t HQ Hrun HP.
  - injection Hrun as <- _. exact HP.
  - apply invoke_all_cons in Hrun as (o1 & t1 & t2 & H1 & H2 & _).
    apply Forall_cons in HQ as [HQ1 HQ]. eauto.
Qed.

Lemma lift_finished {A} (body : Action A) (o o1 : MessengerObject) (a : A)
    (t1 : list Effect) :
  lift body o = Finished a o1 t1 ->
  exists m' t',
    body (members o) = Returns a m' t' /\ o1 = set_members m' o /\ t1 = Collaborator <$> t'.
Proof.
  unfold lift. destruct (body (members o)) as [a' m' t'| |]; [|discriminate..].
  intros [= <- <- <-]. eauto.
Qed.

Lemma AllExternalReferencesDropped_finished (o o' : MessengerObject) (t : list Effect) :
  AllExternalReferencesDropped o = Finished tt o' t ->
  exists m' t',
    Shutdown (members o) = Returns tt m' t' /\ retain_self_ o = true /\
    o' = set_retain_self_ false (set_members m' o) /\ t = Collaborator <$> t'.
Proof.
  unfold AllExternalReferencesDropped, mbind, Method_bind, lift.
  destruct (Shutdown (members o)) as [[] m' t'| |]; [|discriminate..].
  unfold reads, CHECK, update. cbn. destruct (retain_self_ o); [|discriminate].
  cbn. rewrite app_nil_r. intros [= <- <-]. exists m', t'. repeat split; reflexivity.
Qed.

Lemma AllExternalReferencesDropped_retained (o : MessengerObject) :
  retain_self_ o = true ->
  closing_ (members o) = true \/ NDEBUG = true \/ rpc_services_ (members o) = ∅ ->
  exists m' t',
    Shutdown (members o) = Returns tt m' t' /\
    AllExternalReferencesDropped o =
      Finished tt (set_retain_self_ false (set_members m' o)) (Collaborator <$> t').
Proof.
  intros Hretain Hcheck.
  destruct (Shutdown_returns (members o) Hcheck) as (m' & t' & Hrun).
  exists m', t'. split; [exact Hrun|].
  unfold AllExternalReferencesDropped, mbind, Method_bind, lift. rewrite Hrun.
  unfold reads, CHECK, update. cbn. rewrite Hretain. cbn. rewrite app_nil_r. reflexivity.
Qed.

Lemma invoke_frame (op : Op) (o o' : MessengerObject) (t : list Effect) :
  invoke op o = Finished tt o' t ->
  reactors_ (members o') = reactors_ (members o) /\
  name_ (members o') = name_ (members o) /\
  (closing_ (members o) = true -> closing_ (members o') = true) /\
  (retain_self_ o = false -> retain_self_ o' = false) /\
  (op <> Op_AllExternalReferencesDropped -> retain_self_ o' = retain_self_ o).
Proof.
  destruct op; intros H.
  - apply invoke_Call in H as (m' & t' & H & -> & _). cbn.
    pose proof (exec_reactors _ _ _ _ H). pose proof (exec_name _ _ _ _ H).
    pose proof (exec_closing _ _ _ _ H). auto.
  - cbn [invoke] in H.
    apply AllExternalReferencesDropped_finished in H as (m' & t' & H & Hretain & -> & _).
    apply Shutdown_finished in H as (? & ? & ? & _).
    cbn. repeat split; auto. congruence.
  - run_object. auto.
  - run_object; auto.
  - run_object; auto.
  - run_object; run_method; cbn; auto.
  - run_object. auto.
  - run_object. auto.
Qed.

(** *** The life of the object *)

(** X15. No method but [AllExternalReferencesDropped] gives up the
    reference of the messenger to itself.  After any calls of the other
    methods on a messenger that holds itself,
    [AllExternalReferencesDropped], when its [Shutdown] returns (the
    messenger is closing already, or the build is the release build, or the
    registry is empty), shuts the messenger down and gives the reference
    up; then the destructor passes its [CHECK] and deletes every reactor,
    and a second [AllExternalReferencesDropped] fails its [CHECK] and
    aborts the process.  In the debug build, on a messenger that is not
    closing and has a service registered, [AllExternalReferencesDropped]
    itself aborts the process, at the [DCHECK] of [Shutdown]. *)
Theorem X15_AllExternalReferencesDropped_once (ops : list Op) (o o' : MessengerObject)
    (t : list Effect) :
  retain_self_ o = true ->
  Forall (fun op => op <> Op_AllExternalReferencesDropped) ops ->
  invoke_all ops o = Finished tt o' t ->
  retain_self_ o' = true /\
  (closing_ (members o') = true \/ NDEBUG = true \/ rpc_services_ (members o') = ∅ ->
   exists o1 t1,
     AllExternalReferencesDropped o' = Finished tt o1 t1 /\
     closing_ (members o1) = true /\
     retain_self_ o1 = false /\
     AllExternalReferencesDropped o1 = Aborted [] /\
     exists o2,
       Messenger_destructor o1
         = Finished tt o2 (Reactor_delete <$> reactors_ (members o)) /\
       reactors_ (members o2) = []) /\
  (closing_ (members o') = false -> NDEBUG = false -> rpc_services_ (members o') <> ∅ ->
   AllExternalReferencesDropped o' = Aborted []).
Proof.
  intros Hretain Hops Hrun.
  assert (Hkept : retain_self_ o' = true /\ reactors_ (members o') = reactors_ (members o)).
  { apply (invoke_all_invariant
             (fun x => retain_self_ x = true /\ reactors_ (members x) = reactors_ (members o))
             (fun op => op <> Op_AllExternalReferencesDropped)) in Hrun; auto.
    intros op x x' tx Hop Hx [Hr Hrs].
    apply invoke_frame in Hx as (Hrs' & _ & _ & _ & Hsame).
    split; [rewrite (Hsame Hop); exact Hr|congruence]. }
  destruct Hkept as [Hretain' Hreactors]. split; [exact Hretain'|]. split.
  2: { intros Hopen Hdebug Hservices.
       unfold AllExternalReferencesDropped, mbind, Method_bind, lift.
       rewrite (Shutdown_DCHECK _ Hopen Hdebug Hservices). reflexivity. }
  intros Hcheck.
  destruct (AllExternalReferencesDropped_retained o' Hretain' Hcheck)
    as (m' & t' & Hdown & Hall).
  destruct (Shutdown_finished _ _ _ Hdown) as (Hclosing & Hrs & _).
  eexists _, _. split; [exact Hall|]. cbn. split; [exact Hclosing|]. split; [reflexivity|].
  split.
  - unfold AllExternalReferencesDropped, mbind, Method_bind, lift. cbn.
    rewrite (Shutdown_closing m' Hclosing). reflexivity.
  - eexists. unfold Messenger_destructor, mbind, Method_bind, reads, CHECK, update. cbn.
    rewrite Hclosing, each_effect. cbn. rewrite !app_nil_r, Hrs, Hreactors.
    split; reflexivity.
Qed.


(** *** Listening *)

Lemma ListenAddress_finishes (ep : Endpoint) (fresh : nat) (listen : Status)
    (o : MessengerObject) :
  ListenAddress ep fresh listen o =
    Finished listen
      (mkMessengerObject
         (set_acceptor_ (Some (default (mkAcceptor fresh) (acceptor_ (members o))))
            (members o))
         (metric_entity_ o) (retain_self_ o)
         (if negb (is_v6 (address ep)) && is_unspecified (outbound_address_v4_ o)
             && negb (is_unspecified (address ep))
          then address ep else outbound_address_v4_ o)
         (if is_v6 (address ep) && is_unspecified (outbound_address_v6_ o)
             && negb (is_unspecified (address ep))
          then address ep else outbound_address_v6_ o)
         (num_connections_accepted_ o))
      (match acceptor_ (members o) with
       | Some _ => []
       | None => [Acceptor_new (mkAcceptor fresh)]
       end
       ++ [Acceptor_Listen (default (mkAcceptor fresh) (acceptor_ (members o))) ep]).
Proof.
  destruct o as [[] ? ? ? ? ?]. unfold ListenAddress. unfold_object. cbn.
  destruct acceptor_0; cbn;
    destruct (is_v6 (address ep)); cbn;
    destruct (is_unspecified (address ep)); cbn;
    repeat match goal with
           | |- context [is_unspecified ?a] => destruct (is_unspecified a)
           end; reflexivity.
Qed.

Lemma StartAcceptor_none (start : Status) (o : MessengerObject) :
  acceptor_ (members o) = None ->
  StartAcceptor start o =
    Finished (STATUS kIllegalState "Trying to start acceptor w/o active addresses") o [].
Proof. intros H. unfold StartAcceptor. unfold_object. rewrite H. reflexivity. Qed.

Lemma StartAcceptor_some (start : Status) (o : MessengerObject) (a : Acceptor) :
  acceptor_ (members o) = Some a ->
  StartAcceptor start o = Finished start o [Acceptor_Start a].
Proof. intros H. unfold StartAcceptor. unfold_object. rewrite H. reflexivity. Qed.

Lemma ShutdownAcceptor_some (o : MessengerObject) (a : Acceptor) :
  acceptor_ (members o) = Some a ->
  lift ShutdownAcceptor o =
    Finished tt (set_members (set_acceptor_ None (members o)) o)
      [Collaborator (Acceptor_Shutdown a)].
Proof.
  intros H. unfold lift, ShutdownAcceptor. unfold_monad. cbn beta iota. rewrite H.
  reflexivity.
Qed.

(** X16. [ListenAddress] makes the acceptor when there is none and uses
    the one there is otherwise, and returns what the acceptor's [Listen]
    returns.  After it every further [ListenAddress] listens on the same
    acceptor and makes none, and [StartAcceptor] starts this acceptor and
    returns what its [Start] returns.  [StartAcceptor] without an acceptor,
    before the first [ListenAddress] or after [ShutdownAcceptor], calls
    nothing and returns IllegalState. *)
Theorem X16_ListenAddress_one_acceptor (accept_endpoint : Endpoint) (fresh : nat)
    (listen : Status) (o : MessengerObject) :
  exists o1 a,
    a = default (mkAcceptor fresh) (acceptor_ (members o)) /\
    ListenAddress accept_endpoint fresh listen o =
      Finished listen o1
        (match acceptor_ (members o) with
         | Some _ => []
         | None => [Acceptor_new a]
         end ++ [Acceptor_Listen a accept_endpoint]) /\
    acceptor_ (members o1) = Some a /\
    (forall ep' fresh' listen',
       exists o2,
         ListenAddress ep' fresh' listen' o1 = Finished listen' o2 [Acceptor_Listen a ep'] /\
         acceptor_ (members o2) = Some a) /\
    (forall start, StartAcceptor start o1 = Finished start o1 [Acceptor_Start a]) /\
    (acceptor_ (members o) = None ->
     forall start,
       StartAcceptor start o =
         Finished (STATUS kIllegalState "Trying to start acceptor w/o active addresses")
           o []) /\
    (exists o3,
       lift ShutdownAcceptor o1 = Finished tt o3 [Collaborator (Acceptor_Shutdown a)] /\
       forall start,
         StartAcceptor start o3 =
           Finished (STATUS kIllegalState "Trying to start acceptor w/o active addresses")
             o3 []).
Proof.
  eexists _, _. split; [reflexivity|].
  split; [rewrite ListenAddress_finishes; f_equal;
          destruct (acceptor_ (members o)); reflexivity|].
  split; [reflexivity|]. split; [|split; [|split]].
  - intros ep' fresh' listen'. eexists. rewrite ListenAddress_finishes. cbn.
    split; reflexivity.
  - intros start. apply StartAcceptor_some. reflexivity.
  - intros Hnone start. apply StartAcceptor_none, Hnone.
  - eexists. split; [apply ShutdownAcceptor_some; reflexivity|].
    intros start. apply StartAcceptor_none. reflexivity.
Qed.

(** X18. [ListenAddress] does not look at [closing_].  After [Shutdown]
    has taken the acceptor away, [StartAcceptor] returns IllegalState, but
    [ListenAddress] makes a new acceptor and returns what its [Listen]
    returns, and [StartAcceptor] starts it.  A further [Shutdown] returns
    at once and leaves this acceptor running; only [ShutdownAcceptor] shuts
    it down. *)
Theorem X18_ListenAddress_after_Shutdown (o o1 : MessengerObject) (t : list Effect)
    (accept_endpoint : Endpoint) (fresh : nat) (listen start : Status) :
  closing_ (members o) = false ->
  lift Shutdown o = Finished tt o1 t ->
  StartAcceptor start o1 =
    Finished (STATUS kIllegalState "Trying to start acceptor w/o active addresses") o1 [] /\
  exists o2,
    ListenAddress accept_endpoint fresh listen o1 =
      Finished listen o2
        [Acceptor_new (mkAcceptor fresh);
         Acceptor_Listen (mkAcceptor fresh) accept_endpoint] /\
    closing_ (members o2) = true /\
    StartAcceptor start o2 = Finished start o2 [Acceptor_Start (mkAcceptor fresh)] /\
    lift Shutdown o2 = Finished tt o2 [] /\
    exists o3,
      lift ShutdownAcceptor o2 =
        Finished tt o3 [Collaborator (Acceptor_Shutdown (mkAcceptor fresh))].
Proof.
  intros Hopen Hdown.
  apply lift_finished in Hdown as (m' & t' & Hdown & -> & _).
  destruct (Shutdown_finished _ _ _ Hdown) as (Hclosing & _ & _ & Hnone).
  specialize (Hnone Hopen).
  split; [apply StartAcceptor_none; exact Hnone|].
  eexists. rewrite ListenAddress_finishes. cbn [members set_members].
  rewrite Hnone. cbn. split; [reflexivity|]. split; [exact Hclosing|].
  split; [apply StartAcceptor_some; reflexivity|]. split.
  - unfold lift. cbn. rewrite Shutdown_closing by exact Hclosing. reflexivity.
  - eexists. apply ShutdownAcceptor_some. reflexivity.
Qed.

Lemma first_specified_cons (v6 : bool) (a : IpAddress) (hosts : list IpAddress) :
  first_specified v6 (a :: hosts) =
    if Bool.eqb (is_v6 a) v6 && negb (is_unspecified a) then Some a
    else first_specified v6 hosts.
Proof.
  unfold first_specified. rewrite filter_cons.
  destruct (decide (is_v6 a = v6 /\ is_unspecified a = false)) as [[H1 H2]|Hn].
  - rewrite H1, H2, Bool.eqb_reflx. reflexivity.
  - destruct (Bool.eqb (is_v6 a) v6) eqn:E1; [|reflexivity].
    destruct (is_unspecified a) eqn:E2; [reflexivity|].
    apply Bool.eqb_prop in E1. destruct Hn. auto.
Qed.

Lemma invoke_outbound_address (op : Op) (o o' : MessengerObject) (t : list Effect) :
  invoke op o = Finished tt o' t ->
  outbound_address_v4_ o' =
    (if is_unspecified (outbound_address_v4_ o)
     then default (outbound_address_v4_ o) (first_specified false (listen_hosts [op]))
     else outbound_address_v4_ o) /\
  outbound_address_v6_ o' =
    (if is_unspecified (outbound_address_v6_ o)
     then default (outbound_address_v6_ o) (first_specified true (listen_hosts [op]))
     else outbound_address_v6_ o).
Proof.
  assert (Hsame : forall a : IpAddress, a = if is_unspecified a then a else a)
    by (intros a; destruct (is_unspecified a); reflexivity).
  destruct op; intros H;
    try (cbn [listen_hosts omap];
         change (first_specified _ []) with (@None IpAddress); cbn [default]).
  - apply invoke_Call in H as (m' & t' & _ & -> & _). cbn. split; apply Hsame.
  - apply AllExternalReferencesDropped_finished in H as (m' & t' & _ & _ & -> & _).
    cbn. split; apply Hsame.
  - run_object; split; first [reflexivity|apply Hsame].
  - cbn [invoke] in H. unfold mbind, Method_bind in H.
    rewrite ListenAddress_finishes in H. cbn in H. injection H as <- _. cbn.
    rewrite !first_specified_cons. cbn.
    destruct (is_v6 (address accept_endpoint)), (is_unspecified (address accept_endpoint));
      cbn; destruct (is_unspecified (outbound_address_v4_ o)),
             (is_unspecified (outbound_address_v6_ o)); split; reflexivity.
  - run_object; split; first [reflexivity|apply Hsame].
  - run_object; run_method; split; first [reflexivity|apply Hsame].
  - run_object; split; first [reflexivity|apply Hsame].
  - run_object; split; first [reflexivity|apply Hsame].
Qed.

(** X17. The outbound address of a family is set once.  Over every
    sequence of calls of the methods, an outbound address that is specified
    stays as it is, and one that is unspecified becomes the host of the
    first [ListenAddress] of the sequence whose host is of the family and
    specified, and stays as it is when there is none. *)
Theorem X17_outbound_address_set_once (ops : list Op) (o o' : MessengerObject)
    (t : list Effect) :
  invoke_all ops o = Finished tt o' t ->
  outbound_address_v4_ o' =
    (if is_unspecified (outbound_address_v4_ o)
     then default (outbound_address_v4_ o) (first_specified false (listen_hosts ops))
     else outbound_address_v4_ o) /\
  outbound_address_v6_ o' =
    (if is_unspecified (outbound_address_v6_ o)
     then default (outbound_address_v6_ o) (first_specified true (listen_hosts ops))
     else outbound_address_v6_ o).
Proof.
  revert o t. induction ops as [|op ops IH]; intros o t Hrun.
  - injection Hrun as <- _. cbn.
    destruct (is_unspecified (outbound_address_v4_ o)),
      (is_unspecified (outbound_address_v6_ o)); split; reflexivity.
  - apply invoke_all_cons in Hrun as (o1 & t1 & t2 & H1 & H2 & _).
    apply IH in H2 as [IH4 IH6]. apply invoke_outbound_address in H1 as [H4 H6].
    rewrite IH4, IH6, H4, H6. clear IH4 IH6 H4 H6 IH.
    assert (Hhosts : listen_hosts (op :: ops) = listen_hosts [op] ++ listen_hosts ops)
      by (destruct op; reflexivity).
    rewrite Hhosts. clear Hhosts.
    assert (Hops : listen_hosts [op] = []
                   \/ exists a, listen_hosts [op] = [a])
      by (destruct op; cbn; eauto).
    destruct Hops as [->|[a ->]]; cbn [app].
    + change (first_specified _ []) with (@None IpAddress). cbn [default].
      destruct (is_unspecified (outbound_address_v4_ o)) eqn:E4,
        (is_unspecified (outbound_address_v6_ o)) eqn:E6;
        rewrite ?E4, ?E6; split; reflexivity.
    + rewrite !first_specified_cons.
      change (first_specified _ []) with (@None IpAddress).
      destruct (is_v6 a) eqn:Ev, (is_unspecified a) eqn:Eu; cbn;
        destruct (is_unspecified (outbound_address_v4_ o)) eqn:E4,
          (is_unspecified (outbound_address_v6_ o)) eqn:E6; cbn;
        rewrite ?E4, ?E6, ?Eu; split; reflexivity.
Qed.


(** *** Sockets from the acceptor *)

(** X19. [RegisterInboundSocket], in a messenger whose flag agrees with
    its set of broken addresses: a socket from a broken address is closed,
    and neither counted nor given to a reactor; with the flag
    [num_connections_to_server] at 0 a socket from another address is a
    remainder by zero; and with a positive flag, a counter from 0 to below
    [INT_MAX] and at least one reactor, the socket is counted and given to
    the reactor that [RemoteToReactor] has for the remote and the counter
    modulo the flag. *)
Theorem X19_RegisterInboundSocket (o : MessengerObject) (new_socket : Socket)
    (remote : Endpoint) :
  connectivity_inv (members o) ->
  (address remote ∈ broken_connectivity_ (members o) ->
   RegisterInboundSocket new_socket remote o = Finished tt o [Socket_Close new_socket]) /\
  (address remote ∉ broken_connectivity_ (members o) ->
   FLAGS_num_connections_to_server = 0 ->
   RegisterInboundSocket new_socket remote o = Unspecified) /\
  (address remote ∉ broken_connectivity_ (members o) ->
   (1 <= length (reactors_ (members o)))%nat ->
   Z.of_nat (length (reactors_ (members o))) <= INT_MAX ->
   0 <= num_connections_accepted_ o < INT_MAX ->
   0 < FLAGS_num_connections_to_server ->
   exists r,
     RemoteToReactor remote
       (num_connections_accepted_ o mod FLAGS_num_connections_to_server) (members o)
       = Returns r (members o) [] /\
     RegisterInboundSocket new_socket remote o =
       Finished tt (set_num_connections_accepted_ (num_connections_accepted_ o + 1) o)
         [Reactor_RegisterInboundSocket r new_socket remote]).
Proof.
  intros Hinv.
  pose proof (IsArtificiallyDisconnectedFrom_inv (members o) (address remote) Hinv) as Hdisc.
  unfold RegisterInboundSocket, mbind, Method_bind. unfold lift at 1 3 5.
  rewrite Hdisc. split; [|split].
  - intros Hin. rewrite bool_decide_eq_true_2 by exact Hin.
    cbn. destruct o; reflexivity.
  - intros Hout Hzero. rewrite bool_decide_eq_false_2 by exact Hout.
    unfold reads, update, unspecified. cbn.
    destruct (decide _) as [_|Hn]; [reflexivity|]. destruct Hn. auto.
  - intros Hout Hmin Hmax Hcount Hflag. rewrite bool_decide_eq_false_2 by exact Hout.
    destruct (RemoteToReactor_returns (members o) remote
                (num_connections_accepted_ o mod FLAGS_num_connections_to_server)
                Hmin Hmax) as (r & _ & Hrun).
    exists r. split; [exact Hrun|].
    unfold reads, update, unspecified, effect, lift. cbn.
    destruct (decide _) as [[Hz|[Hz _]]|_]; [lia|unfold INT_MAX in Hcount; lia|].
    rewrite Z.rem_mod_nonneg by lia.
    pose proof (Z.mod_pos_bound (num_connections_accepted_ o)
                  FLAGS_num_connections_to_server Hflag) as Hidx.
    assert (Hle : num_connections_accepted_ o mod FLAGS_num_connections_to_server
                  <= num_connections_accepted_ o) by (apply Z.mod_le; lia).
    assert (Hu : to_uint32 (num_connections_accepted_ o mod FLAGS_num_connections_to_server)
                 = num_connections_accepted_ o mod FLAGS_num_connections_to_server).
    { unfold to_uint32. apply Z.mod_small. unfold INT_MAX in Hcount. lia. }
    rewrite Hu. cbn [members set_num_connections_accepted_ set_members].
    rewrite Hrun, to_int_small by lia. cbn. f_equal.
Qed.

(** *** The life of an acceptor *)

Lemma calls_on_app (a : Acceptor) (t1 t2 : list Effect) :
  calls_on a (t1 ++ t2) = calls_on a t1 ++ calls_on a t2.
Proof. apply filter_app. Qed.

Lemma calls_on_quiet (a : Acceptor) (t : list Effect) :
  Forall (fun e => on_acceptor e = None) t -> calls_on a t = [].
Proof.
  induction 1 as [|e t He _ IH]; [reflexivity|].
  unfold calls_on in *. rewrite filter_cons_False by congruence. exact IH.
Qed.

Lemma calls_on_other (a : Acceptor) (e : Effect) (t : list Effect) :
  on_acceptor e <> Some a -> calls_on a (e :: t) = calls_on a t.
Proof. intros H. unfold calls_on. apply filter_cons_False, H. Qed.

Lemma calls_on_same (a : Acceptor) (e : Effect) (t : list Effect) :
  on_acceptor e = Some a -> calls_on a (e :: t) = e :: calls_on a t.
Proof. intros H. unfold calls_on. apply filter_cons_True, H. Qed.

(** Proves that a trace has no call on an acceptor. *)
Ltac quiet :=
  repeat first
    [ apply Forall_nil_2
    | apply Forall_app_2
    | apply Forall_cons_2; [reflexivity|]
    | rewrite Forall_fmap
    | apply Forall_true; intros ?; reflexivity ].

(** What a call does with the acceptor: nothing, or it shuts the installed
    one down and takes it away. *)
Lemma exec_acceptor (c : Call) (m m' : Messenger) (t : list Event) :
  exec c m = Returns tt m' t ->
  (acceptor_ m' = acceptor_ m /\
   Forall (fun e => on_acceptor e = None) (Collaborator <$> t)) \/
  (exists a0 t2,
     acceptor_ m = Some a0 /\ acceptor_ m' = None /\
     t = Acceptor_Shutdown a0 :: t2 /\
     Forall (fun e => on_acceptor e = None) (Collaborator <$> t2)).
Proof.
  destruct c; intros H; run_method;
    try (left; split; [first [reflexivity|cbn; congruence]|quiet]; fail).
  all: right; eexists _, _; split; [first [reflexivity|eassumption]|];
    split; [reflexivity|]; split; [reflexivity|]; quiet.
Qed.


(** What a call on the whole object does with the acceptor: nothing; one
    use of the installed one; making and installing one and listening on
    it; or shutting the installed one down and taking it away. *)
Lemma invoke_acceptor (op : Op) (o o1 : MessengerObject) (t1 : list Effect) :
  invoke op o = Finished tt o1 t1 ->
  (acceptor_ (members o1) = acceptor_ (members o) /\
   Forall (fun e => on_acceptor e = None) t1) \/
  (exists a e,
     acceptor_ (members o) = Some a /\ acceptor_ (members o1) = Some a /\
     t1 = [e] /\ is_use a e) \/
  (exists ep fresh listen,
     op = Op_ListenAddress ep fresh listen /\
     acceptor_ (members o) = None /\ acceptor_ (members o1) = Some (mkAcceptor fresh) /\
     t1 = [Acceptor_new (mkAcceptor fresh); Acceptor_Listen (mkAcceptor fresh) ep]) \/
  (exists a0 t2,
     acceptor_ (members o) = Some a0 /\ acceptor_ (members o1) = None /\
     t1 = Collaborator (Acceptor_Shutdown a0) :: t2 /\
     Forall (fun e => on_acceptor e = None) t2).
Proof.
  assert (Hbase : forall c m' t',
    exec c (members o) = Returns tt m' t' ->
    (acceptor_ m' = acceptor_ (members o) /\
     Forall (fun e => on_acceptor e = None) (Collaborator <$> t')) \/
    (exists a0 t2,
       acceptor_ (members o) = Some a0 /\ acceptor_ m' = None /\
       Collaborator <$> t' = Collaborator (Acceptor_Shutdown a0) :: t2 /\
       Forall (fun e => on_acceptor e = None) t2)).
  { intros c m' t' H. apply exec_acceptor in H as [H|(a0 & t2 & Ha & Hn & -> & Hq)].
    - left. exact H.
    - right. exists a0, (Collaborator <$> t2). auto. }
  destruct op; intros H.
  - apply invoke_Call in H as (m' & t' & H & -> & ->).
    apply Hbase in H as [H|H]; [left; exact H|right; right; right; exact H].
  - apply AllExternalReferencesDropped_finished in H as (m' & t' & H & _ & -> & ->).
    apply (Hbase Call_Shutdown) in H as [H|H]; [left; exact H|right; right; right; exact H].
  - clear Hbase. run_object. left. split; [reflexivity|quiet].
  - cbn [invoke] in H. unfold mbind, Method_bind in H.
    rewrite ListenAddress_finishes in H. cbn in H. injection H as <- <-.
    destruct (acceptor_ (members o)) as [a|] eqn:Ha; cbn; rewrite ?Ha.
    + right; left. exists a, (Acceptor_Listen a accept_endpoint).
      repeat split; try reflexivity. right. eauto.
    + right; right; left. exists accept_endpoint, fresh, listen. repeat split; reflexivity.
  - clear Hbase. run_object.
    + right; left. eexists _, _. split; [reflexivity|]. split; [eassumption|].
      split; [reflexivity|]. left. reflexivity.
    + left. split; [first [reflexivity|eassumption]|quiet].
  - clear Hbase. run_object; run_method; left;
      (split; [first [reflexivity|eassumption]|quiet]).
  - clear Hbase. run_object. left. split; [reflexivity|quiet].
  - clear Hbase. run_object. left. split; [reflexivity|rewrite app_nil_r; quiet].
Qed.

Lemma acceptor_life_iff (a : Acceptor) (P Q : Prop) (calls : list Effect) :
  (P <-> Q) -> acceptor_life a P calls -> acceptor_life a Q calls.
Proof. unfold acceptor_life. intros HPQ H. setoid_rewrite <- HPQ. exact H. Qed.

Lemma acceptor_life_installed (a : Acceptor) (P : Prop) (calls : list Effect) :
  P -> acceptor_life a P calls ->
  exists uses, Forall (is_use a) uses /\ calls = Acceptor_new a :: uses.
Proof.
  intros HP [[_ Hn]|(uses & Huses & [[-> _]|[_ Hn]])]; [contradiction| |contradiction].
  exists uses. auto.
Qed.

Lemma new_acceptors_cons (op : Op) (ops : list Op) :
  new_acceptors (op :: ops) = new_acceptors ops \/
  exists ep fresh listen,
    op = Op_ListenAddress ep fresh listen /\
    new_acceptors (op :: ops) = mkAcceptor fresh :: new_acceptors ops.
Proof. destruct op; cbn; eauto 6. Qed.

(** The invariant of a sequence of calls: the life of every acceptor in the
    trace so far, and no call yet on the acceptors still to be made. *)
Lemma invoke_all_acceptor_life (ops : list Op) (o o' : MessengerObject)
    (t0 t : list Effect) :
  (forall a, acceptor_life a (acceptor_ (members o) = Some a) (calls_on a t0)) ->
  (forall a, a ∈ new_acceptors ops -> calls_on a t0 = []) ->
  NoDup (new_acceptors ops) ->
  invoke_all ops o = Finished tt o' t ->
  forall a, acceptor_life a (acceptor_ (members o') = Some a) (calls_on a (t0 ++ t)).
Proof.
  revert o t0 t. induction ops as [|op ops IH]; intros o t0 t Hlife Hfresh Hnodup Hrun.
  - injection Hrun as <- <-. rewrite app_nil_r. exact Hlife.
  - apply invoke_all_cons in Hrun as (o1 & t1 & t2 & H1 & H2 & ->).
    rewrite app_assoc.
    assert (Hsub : forall a, a ∈ new_acceptors ops -> a ∈ new_acceptors (op :: ops)).
    { intros a Ha. destruct (new_acceptors_cons op ops) as [->|(? & ? & ? & _ & ->)];
        [exact Ha|apply list_elem_of_further, Ha]. }
    assert (Hnodup' : NoDup (new_acceptors ops)).
    { destruct (new_acceptors_cons op ops) as [E|(? & ? & ? & _ & E)];
        rewrite E in Hnodup; [exact Hnodup|]. apply NoDup_cons_1_2 in Hnodup. exact Hnodup. }
    assert (Hnot : forall a, a ∈ new_acceptors ops -> acceptor_ (members o) <> Some a).
    { intros a Ha Hinst. destruct (acceptor_life_installed a _ _ Hinst (Hlife a))
        as (uses & _ & E). rewrite (Hfresh a (Hsub a Ha)) in E. discriminate. }
    apply (IH o1 (t0 ++ t1) t2); [| |exact Hnodup'|exact H2]; clear IH H2;
      apply invoke_acceptor in H1
        as [[Hsame Hq]|[(a1 & e & Ha & Ha' & -> & Huse)
           |[(ep & fresh & listen & -> & Ha & Ha' & ->)|(a0 & t3 & Ha & Ha' & -> & Hq)]]].
    + intros a. rewrite calls_on_app, (calls_on_quiet a t1 Hq), app_nil_r, Hsame.
      apply Hlife.
    + intros a. rewrite calls_on_app. destruct (decide (a = a1)) as [->|Hne].
      * destruct (acceptor_life_installed a1 _ _ Ha (Hlife a1)) as (uses & Huses & ->).
        assert (Hon : on_acceptor e = Some a1)
          by (destruct Huse as [->|[? ->]]; reflexivity).
        rewrite (calls_on_same a1 e [] Hon). right. exists (uses ++ [e]).
        split; [apply Forall_app_2; [exact Huses|apply Forall_singleton, Huse]|].
        left. split; [reflexivity|exact Ha'].
      * assert (Hon : on_acceptor e <> Some a)
          by (destruct Huse as [->|[? ->]]; cbn; congruence).
        rewrite (calls_on_other a e [] Hon). cbn. rewrite app_nil_r.
        apply (acceptor_life_iff a (acceptor_ (members o) = Some a)); [|apply Hlife].
        rewrite Ha, Ha'. reflexivity.
    + intros a. rewrite calls_on_app. destruct (decide (a = mkAcceptor fresh)) as [->|Hne].
      * rewrite (Hfresh (mkAcceptor fresh)) by (cbn; apply list_elem_of_here).
        rewrite calls_on_same, calls_on_same by reflexivity. cbn.
        right. exists [Acceptor_Listen (mkAcceptor fresh) ep].
        split; [apply Forall_singleton; right; eauto|]. left. split; [reflexivity|exact Ha'].
      * rewrite calls_on_other, calls_on_other by (cbn; congruence).
        cbn. rewrite app_nil_r.
        apply (acceptor_life_iff a (acceptor_ (members o) = Some a)); [|apply Hlife].
        rewrite Ha, Ha'. split; [discriminate|congruence].
    + intros a. rewrite calls_on_app. destruct (decide (a = a0)) as [->|Hne].
      * destruct (acceptor_life_installed a0 _ _ Ha (Hlife a0)) as (uses & Huses & ->).
        rewrite calls_on_same by reflexivity. rewrite (calls_on_quiet a0 t3 Hq).
        right. exists uses. split; [exact Huses|]. right. split; [reflexivity|].
        rewrite Ha'. discriminate.
      * rewrite calls_on_other by (cbn; congruence).
        rewrite (calls_on_quiet a t3 Hq), app_nil_r.
        apply (acceptor_life_iff a (acceptor_ (members o) = Some a)); [|apply Hlife].
        rewrite Ha, Ha'. split; [congruence|discriminate].
    + intros a Hin. rewrite calls_on_app, (calls_on_quiet a t1 Hq), app_nil_r.
      apply Hfresh, Hsub, Hin.
    + intros a Hin. rewrite calls_on_app, (Hfresh a (Hsub a Hin)).
      assert (Hon : on_acceptor e <> Some a).
      { pose proof (Hnot a Hin) as Hn. rewrite Ha in Hn.
        destruct Huse as [->|[? ->]]; cbn; congruence. }
      rewrite (calls_on_other a e [] Hon). reflexivity.
    + intros a Hin. rewrite calls_on_app, (Hfresh a (Hsub a Hin)).
      assert (Hne : a <> mkAcceptor fresh).
      { intros ->. cbn in Hnodup. apply NoDup_cons_1_1 in Hnodup. contradiction. }
      rewrite calls_on_other, calls_on_other by (cbn; congruence). reflexivity.
    + intros a Hin. rewrite calls_on_app, (Hfresh a (Hsub a Hin)).
      assert (Hne : a <> a0) by (intros ->; exact (Hnot a0 Hin Ha)).
      rewrite calls_on_other by (cbn; congruence).
      rewrite (calls_on_quiet a t3 Hq). reflexivity.
Qed.

(** X20. An acceptor is made once, then used, then shut down at most once,
    and never used after.  On a messenger without acceptor, for every
    sequence of calls of the methods in which every [new Acceptor] gives an
    object of its own, the calls on an acceptor are none; or [new], then
    calls of [Listen] and [Start] only, the acceptor being the installed
    one; or [new], calls of [Listen] and [Start], and one [Shutdown] as the
    last call, the acceptor being installed no more. *)
Theorem X20_acceptor_life (ops : list Op) (o o' : MessengerObject) (t : list Effect) :
  acceptor_ (members o) = None ->
  NoDup (new_acceptors ops) ->
  invoke_all ops o = Finished tt o' t ->
  forall a, acceptor_life a (acceptor_ (members o') = Some a) (calls_on a t).
Proof.
  intros Hnone Hnodup Hrun.
  apply (invoke_all_acceptor_life ops o o' [] t); [| |exact Hnodup|exact Hrun].
  - intros a. left. split; [reflexivity|]. rewrite Hnone. discriminate.
  - reflexivity.
Qed.


(** *** What no method changes *)

Lemma invoke_connectivity_inv (op : Op) (o o' : MessengerObject) (t : list Effect) :
  invoke op o = Finished tt o' t ->
  connectivity_inv (members o) -> connectivity_inv (members o').
Proof.
  destruct op; intros H Hinv.
  - apply invoke_Call in H as (m' & t' & H & -> & _).
    exact (exec_connectivity_inv _ _ _ _ H Hinv).
  - apply AllExternalReferencesDropped_finished in H as (m' & t' & H & _ & -> & _).
    exact (exec_connectivity_inv Call_Shutdown _ _ _ H Hinv).
  - run_object. exact Hinv.
  - cbn [invoke] in H. unfold mbind, Method_bind in H.
    rewrite ListenAddress_finishes in H. cbn in H. injection H as <- _. exact Hinv.
  - run_object; exact Hinv.
  - run_object; run_method; exact Hinv.
  - run_object. exact Hinv.
  - run_object. exact Hinv.
Qed.

(** X21. What the methods leave as it is, over every sequence of calls of
    them: the name and the reactors of the messenger never change; a
    messenger that is closing stays closing and one that has given up the
    reference to itself does not take it again; and the flag of broken
    connectivity keeps agreeing with the set of broken addresses. *)
Theorem X21_kept_by_every_method (ops : list Op) (o o' : MessengerObject)
    (t : list Effect) :
  invoke_all ops o = Finished tt o' t ->
  name_ (members o') = name_ (members o) /\
  reactors_ (members o') = reactors_ (members o) /\
  (closing_ (members o) = true -> closing_ (members o') = true) /\
  (retain_self_ o = false -> retain_self_ o' = false) /\
  (connectivity_inv (members o) -> connectivity_inv (members o')).
Proof.
  intros Hrun.
  apply (invoke_all_invariant
           (fun x =>
              name_ (members x) = name_ (members o) /\
              reactors_ (members x) = reactors_ (members o) /\
              (closing_ (members o) = true -> closing_ (members x) = true) /\
              (retain_self_ o = false -> retain_self_ x = false) /\
              (connectivity_inv (members o) -> connectivity_inv (members x)))
           (fun _ => True)) in Hrun; auto.
  - clear. intros op x x' tx _ Hx (Hname & Hrs & Hclosing & Hretain & Hinv).
    pose proof (invoke_connectivity_inv _ _ _ _ Hx) as Hinv'.
    apply invoke_frame in Hx as (Hrs' & Hname' & Hclosing' & Hretain' & _).
    split; [congruence|]. split; [congruence|]. split; [auto|]. split; auto.
  - apply Forall_true. auto.
Qed.


(** *** Who reads [closing_] *)

Lemma each_RETURN_NOT_OK_uniform (rs : list Reactor) (call : Reactor -> Effect)
    (status : Reactor -> Status) :
  exists s t, forall o, each_RETURN_NOT_OK rs call status o = Finished s o t.
Proof.
  induction rs as [|r rs (s & t & IH)].
  - exists Status_OK, []. reflexivity.
  - cbn [each_RETURN_NOT_OK]. unfold mbind, Method_bind, effect.
    destruct (Status_ok (status r)).
    + exists s, (call r :: t). intros o. rewrite IH. reflexivity.
    + exists (status r), [call r]. reflexivity.
Qed.

Lemma exec_closing_not_read (c : Call) (m : Messenger) (b : bool) :
  c <> Call_Shutdown ->
  exec c (set_closing_ b m) =
    match exec c m with
    | Returns a m' t => Returns a (set_closing_ b m') t
    | CheckFailed t => CheckFailed t
    | Undefined => Undefined
    end.
Proof.
  destruct m. destruct c; intros Hc; try contradiction; clear Hc;
    unfold_methods; unfold_monad; cbn; rewrite ?for_each_returns; cbn;
    repeat (case_match; simplify_eq/=; rewrite ?for_each_returns in *; cbn);
    try reflexivity; try congruence.
Qed.

(** X22. [closing_] is read by [Shutdown] only (and by the destructor):
    every other method does on a closing messenger what it does on one that
    is not closing.  For every call but [Shutdown] and
    [AllExternalReferencesDropped], setting [closing_] to any value before
    the call gives the same result and the same calls on collaborators, and
    the same messenger with [closing_] set to that value. *)
Theorem X22_closing_read_by_Shutdown_only (op : Op) (o : MessengerObject) (b : bool) :
  op <> Op_Call Call_Shutdown ->
  op <> Op_AllExternalReferencesDropped ->
  invoke op (with_closing b o) = Outcome_map (with_closing b) (invoke op o).
Proof.
  intros Hshutdown Hall. destruct op; try contradiction.
  - cbn [invoke]. unfold lift, with_closing. cbn [members set_members].
    rewrite exec_closing_not_read by congruence.
    destruct (exec c (members o)) as [[] m' t| |]; reflexivity.
  - cbn [invoke]. unfold Messenger_Init, mbind, Method_bind, reads.
    destruct (each_RETURN_NOT_OK_uniform (reactors_ (members o)) Reactor_Init init)
      as (s & t & E).
    cbn. rewrite !E. reflexivity.
  - cbn [invoke]. unfold mbind, Method_bind. rewrite !ListenAddress_finishes.
    destruct o as [[] ? ? ? ? ?]. reflexivity.
  - cbn [invoke]. unfold StartAcceptor. unfold_object. destruct o as [[] ? ? ? ? ?]. cbn.
    destruct acceptor_0; reflexivity.
  - cbn [invoke]. unfold RegisterInboundSocket, mbind, Method_bind, lift.
    destruct o as [[] ? ? ? ? ?]. unfold_methods. unfold_monad. unfold_object. cbn.
    repeat (case_match; simplify_eq/=); try reflexivity; try congruence.
  - cbn [invoke]. unfold DumpRunningRpcs, mbind, Method_bind, reads.
    destruct (each_RETURN_NOT_OK_uniform (reactors_ (members o)) Reactor_DumpRunningRpcs
                dump) as (s & t & E).
    cbn. rewrite !E. reflexivity.
  - cbn [invoke]. unfold QueueEventOnAllReactors, mbind, Method_bind, reads.
    cbn. rewrite !each_effect. reflexivity.
Qed.

End Methods.

(** * Properties of the administration tool *)

Lemma first_leader_found (replicas : list Admin.ReplicaPB) (k : nat)
    (replica : Admin.ReplicaPB) :
  replicas !! k = Some replica ->
  Admin.role replica = Admin.LEADER ->
  Forall (fun r => Admin.role r <> Admin.LEADER) (take k replicas) ->
  Admin.first_leader replicas = Some replica.
Proof.
  revert k. induction replicas as [|r rs IH]; intros k Hk Hrole Hbefore; [discriminate|].
  cbn [Admin.first_leader]. destruct k as [|k].
  - injection Hk as ->. rewrite decide_True by exact Hrole. reflexivity.
  - cbn in Hk. rewrite firstn_cons in Hbefore. apply Forall_cons in Hbefore as [Hr Hbefore].
    rewrite decide_False by exact Hr. exact (IH k Hk Hrole Hbefore).
Qed.

Lemma first_leader_none (replicas : list Admin.ReplicaPB) :
  Forall (fun r => Admin.role r <> Admin.LEADER) replicas ->
  Admin.first_leader replicas = None.
Proof.
  induction 1 as [|r rs Hr _ IH]; [reflexivity|].
  cbn [Admin.first_leader]. rewrite decide_False by exact Hr. exact IH.
Qed.

Lemma ok_true (s : Admin.Status) : Admin.ok s = true -> s = Admin.OK.
Proof. destruct s; [reflexivity|discriminate]. Qed.

(** X23. [GetTabletLeader], case by case.  A failure of the RPC is
    returned as it is.  After a good RPC the error of the response, when
    there is one, and else the first of the per-tablet errors, when there
    is one, ends the lookup with no location read: when its status is not
    OK, this status is returned; when its status is OK, the tablet id is
    compared with the id of a location that has no field set, so that the
    [CHECK_EQ] fails for every tablet id but the empty one, for which the
    result is NotFound.  In all these cases [ts_info] is as it was.  With
    no error and no per-tablet error, a response without exactly one
    location, or with a location of another tablet, fails a [CHECK].
    Otherwise the result is OK with the server of the first replica whose
    role is LEADER, and, when no replica is the leader, NotFound with
    [ts_info] as it was. *)
Theorem X23_GetTabletLeader (tablet_id : string) (rpc : Admin.Status)
    (resp : Admin.GetTabletLocationsResponsePB) (ts_info0 : Admin.TSInfoPB) :
  let not_found :=
    Admin.Error Admin.NotFound "No leader replica found for tablet" tablet_id in
  (Admin.ok rpc = false ->
   Admin.GetTabletLeader tablet_id rpc resp ts_info0 = Admin.Returned rpc ts_info0 []) /\
  (Admin.ok rpc = true ->
   (forall s,
      Admin.error resp = Some s ->
      (Admin.ok s = false ->
       Admin.GetTabletLeader tablet_id rpc resp ts_info0 = Admin.Returned s ts_info0 []) /\
      (Admin.ok s = true ->
       (tablet_id <> "" ->
        Admin.GetTabletLeader tablet_id rpc resp ts_info0 = Admin.CheckFailed []) /\
       (tablet_id = "" ->
        Admin.GetTabletLeader tablet_id rpc resp ts_info0
          = Admin.Returned not_found ts_info0 []))) /\
   (Admin.error resp = None ->
    (forall s rest,
       Admin.errors resp = s :: rest ->
       (Admin.ok s = false ->
        Admin.GetTabletLeader tablet_id rpc resp ts_info0 = Admin.Returned s ts_info0 []) /\
       (Admin.ok s = true ->
        (tablet_id <> "" ->
         Admin.GetTabletLeader tablet_id rpc resp ts_info0 = Admin.CheckFailed []) /\
        (tablet_id = "" ->
         Admin.GetTabletLeader tablet_id rpc resp ts_info0
           = Admin.Returned not_found ts_info0 []))) /\
    (Admin.errors resp = [] ->
     (length (Admin.tablet_locations resp) <> 1%nat ->
      Admin.GetTabletLeader tablet_id rpc resp ts_info0 = Admin.CheckFailed []) /\
     (forall location,
        Admin.tablet_locations resp = [location] ->
        (Admin.tablet_id location <> tablet_id ->
         Admin.GetTabletLeader tablet_id rpc resp ts_info0 = Admin.CheckFailed []) /\
        (Admin.tablet_id location = tablet_id ->
         (forall k replica,
            Admin.replicas location !! k = Some replica ->
            Admin.role replica = Admin.LEADER ->
            Forall (fun r => Admin.role r <> Admin.LEADER)
              (take k (Admin.replicas location)) ->
            Admin.GetTabletLeader tablet_id rpc resp ts_info0 =
              Admin.Returned Admin.OK (Admin.ts_info replica) []) /\
         (Forall (fun r => Admin.role r <> Admin.LEADER) (Admin.replicas location) ->
          Admin.GetTabletLeader tablet_id rpc resp ts_info0 =
            Admin.Returned not_found ts_info0 [])))))).
Proof.
  intros not_found.
  assert (Hempty : forall s,
    Admin.ok s = true ->
    let result :=
      if negb (Admin.ok s) then Admin.Returned s ts_info0 []
      else if negb (String.eqb tablet_id
                      (Admin.tablet_id Admin.TabletLocationsPB_default))
      then Admin.CheckFailed []
      else match Admin.first_leader (Admin.replicas Admin.TabletLocationsPB_default) with
           | Some replica => Admin.Returned Admin.OK (Admin.ts_info replica) []
           | None => Admin.Returned not_found ts_info0 []
           end in
    (tablet_id <> "" -> result = Admin.CheckFailed []) /\
    (tablet_id = "" -> result = Admin.Returned not_found ts_info0 [])).
  { intros s Hs result. subst result. rewrite Hs. cbn. split.
    - intros Hne. apply String.eqb_neq in Hne. rewrite Hne. reflexivity.
    - intros E. rewrite E. reflexivity. }
  unfold Admin.GetTabletLeader, Admin.GetTabletLocations. split.
  - intros H. rewrite H. cbn. rewrite H. reflexivity.
  - intros ->. cbn [negb]. split.
    + intros s ->. split.
      * intros Hs. rewrite Hs. reflexivity.
      * intros Hs. exact (Hempty s Hs).
    + intros ->. split.
      * intros s rest ->. split.
        -- intros Hs. rewrite Hs. reflexivity.
        -- intros Hs. exact (Hempty s Hs).
      * intros ->. split.
        -- intros Hlen. destruct (Admin.tablet_locations resp) as [|l [|l' ls]];
             [reflexivity|contradiction|reflexivity].
        -- intros location ->. cbn [Admin.ok negb]. split.
           ++ intros Hne. apply not_eq_sym, String.eqb_neq in Hne. rewrite Hne. reflexivity.
           ++ intros <-. rewrite String.eqb_refl. cbn [negb]. split.
              ** intros k replica Hk Hrole Hbefore.
                 rewrite (first_leader_found _ k replica Hk Hrole Hbefore). reflexivity.
              ** intros Hnone. rewrite (first_leader_none _ Hnone). reflexivity.
Qed.

Lemma first_address_found (uuid : string) (servers : list Admin.Entry) (k : nat)
    (server : Admin.Entry) :
  servers !! k = Some server ->
  Admin.instance_id_permanent_uuid server = uuid ->
  Forall (fun e => Admin.instance_id_permanent_uuid e <> uuid) (take k servers) ->
  Admin.first_address uuid servers =
    match Admin.registration server with
    | Some (address :: _) => Some address
    | _ => None
    end.
Proof.
  revert k. induction servers as [|e es IH]; intros k Hk Huuid Hbefore; [discriminate|].
  cbn [Admin.first_address]. destruct k as [|k].
  - injection Hk as ->. rewrite Huuid, String.eqb_refl. reflexivity.
  - cbn in Hk. rewrite firstn_cons in Hbefore. apply Forall_cons in Hbefore as [He Hbefore].
    apply String.eqb_neq in He. rewrite He. exact (IH k Hk Huuid Hbefore).
Qed.

Lemma first_address_none (uuid : string) (servers : list Admin.Entry) :
  Forall (fun e => Admin.instance_id_permanent_uuid e <> uuid) servers ->
  Admin.first_address uuid servers = None.
Proof.
  induction 1 as [|e es He _ IH]; [reflexivity|].
  cbn [Admin.first_address]. apply String.eqb_neq in He. rewrite He. exact IH.
Qed.

(** X24. [GetFirstRpcAddressForTS], case by case.  A failure of the RPC is
    returned as it is, and so is an error of the response whose status is
    not OK.  An error of the response whose status is OK leaves the list of
    servers empty: the result is NotFound, whatever servers the response
    lists.  In a response without error the function looks at the first
    server of the UUID and at no other: when this server has a registration
    with an address, the result is what [HostPortFromPB] makes of its first
    address; when it has none the result is NotFound, also if a later
    server of the same UUID has an address; and without a server of the
    UUID the result is NotFound.  Wherever [HostPortFromPB] is not called,
    [hp] is as it was. *)
Theorem X24_GetFirstRpcAddressForTS
    (HostPortFromPB : Admin.HostPortPB -> Admin.HostPort -> Admin.Status * Admin.HostPort)
    (uuid : string) (rpc : Admin.Status) (resp : Admin.ListTabletServersResponsePB)
    (hp : Admin.HostPort) :
  let not_found :=
    Admin.Error Admin.NotFound
      ("Server with UUID " +:+ uuid +:+ " has no RPC address registered with the Master")
      "" in
  (Admin.ok rpc = false ->
   Admin.GetFirstRpcAddressForTS HostPortFromPB uuid rpc resp hp = Admin.Returned rpc hp []) /\
  (Admin.ok rpc = true ->
   (forall s,
      Admin.servers_error resp = Some s ->
      (Admin.ok s = false ->
       Admin.GetFirstRpcAddressForTS HostPortFromPB uuid rpc resp hp
         = Admin.Returned s hp []) /\
      (Admin.ok s = true ->
       Admin.GetFirstRpcAddressForTS HostPortFromPB uuid rpc resp hp
         = Admin.Returned not_found hp [])) /\
   (Admin.servers_error resp = None ->
    (forall k server,
       Admin.servers resp !! k = Some server ->
       Admin.instance_id_permanent_uuid server = uuid ->
       Forall (fun e => Admin.instance_id_permanent_uuid e <> uuid)
         (take k (Admin.servers resp)) ->
       Admin.GetFirstRpcAddressForTS HostPortFromPB uuid rpc resp hp =
         match Admin.registration server with
         | Some (address :: _) =>
             Admin.Returned (HostPortFromPB address hp).1 (HostPortFromPB address hp).2 []
         | _ => Admin.Returned not_found hp []
         end) /\
    (Forall (fun e => Admin.instance_id_permanent_uuid e <> uuid) (Admin.servers resp) ->
     Admin.GetFirstRpcAddressForTS HostPortFromPB uuid rpc resp hp
       = Admin.Returned not_found hp []))).
Proof.
  intros not_found. unfold Admin.GetFirstRpcAddressForTS, Admin.ListTabletServers. split.
  - intros H. rewrite H. cbn. rewrite H. reflexivity.
  - intros ->. cbn [negb]. split.
    + intros s ->. split.
      * intros Hs. rewrite Hs. reflexivity.
      * intros Hs. rewrite Hs. reflexivity.
    + intros ->. cbn [Admin.ok negb]. split.
      * intros k server Hk Huuid Hbefore.
        rewrite (first_address_found uuid _ k server Hk Huuid Hbefore).
        destruct (Admin.registration server) as [[|address rest]|]; try reflexivity.
        destruct (HostPortFromPB address hp) as [converted hp'] eqn:E. cbn.
        destruct (Admin.ok converted) eqn:Hc; [|reflexivity].
        apply ok_true in Hc. subst converted. reflexivity.
      * intros Hnone. rewrite (first_address_none uuid _ Hnone). reflexivity.
Qed.



(** X26. [ChangeConfig] checks its arguments before it asks anybody, and in
    this order: a change type that does not parse, or parses to
    UNKNOWN_CHANGE, gives InvalidArgument "Unsupported change_type"; then a
    member type that is given and does not parse gives InvalidArgument
    "Unrecognized member_type", also for REMOVE_SERVER, which needs none;
    then a missing member type gives InvalidArgument for ADD_SERVER and
    CHANGE_ROLE.  The results are the same whatever the master and the
    tablet servers would answer.  Before [Init] the [CHECK] fails. *)
Theorem X26_ChangeConfig_validation (env : Admin.Environment)
    (tablet_id change_type peer_uuid : string) (member_type : option string) :
  Admin.ChangeConfig env false tablet_id change_type peer_uuid member_type
    = Admin.CheckFailed [] /\
  (Admin.ChangeConfigType_Parse env (Admin.ToUpperCase env change_type) = None \/
   Admin.ChangeConfigType_Parse env (Admin.ToUpperCase env change_type)
     = Some Admin.UNKNOWN_CHANGE ->
   Admin.ChangeConfig env true tablet_id change_type peer_uuid member_type =
     Admin.Returned
       (Admin.Error Admin.InvalidArgument "Unsupported change_type" change_type) tt []) /\
  (forall cc_type,
     Admin.ChangeConfigType_Parse env (Admin.ToUpperCase env change_type) = Some cc_type ->
     cc_type <> Admin.UNKNOWN_CHANGE ->
     (forall given,
        member_type = Some given ->
        Admin.MemberType_Parse env (Admin.ToUpperCase env given) = None ->
        Admin.ChangeConfig env true tablet_id change_type peer_uuid member_type =
          Admin.Returned
            (Admin.Error Admin.InvalidArgument "Unrecognized member_type" given) tt []) /\
     (member_type = None ->
      cc_type = Admin.ADD_SERVER \/ cc_type = Admin.CHANGE_ROLE ->
      Admin.ChangeConfig env true tablet_id change_type peer_uuid member_type =
        Admin.Returned
          (Admin.Error Admin.InvalidArgument
             "Must specify member_type when adding a server or changing a role" "")
          tt [])).
Proof.
  unfold Admin.ChangeConfig. split; [reflexivity|]. cbn [negb]. split.
  - intros [-> | ->]; reflexivity.
  - intros cc_type -> Hknown. split.
    + intros given -> ->. destruct cc_type; [contradiction|reflexivity..].
    + intros -> [-> | ->]; reflexivity.
Qed.


(** X29. Adding a server: [ChangeConfig] asks the master for the address of
    the new server before it looks for the leader of the tablet.  When the
    lookup of the address fails, for a server that the master does not
    list or lists without address, its status is the result and the leader
    is not looked for; otherwise the request that is sent to the leader of
    the tablet names the new server with the member type given and, as its
    last known address, the first address that the master has for it. *)
Theorem X29_ChangeConfig_add_server (env : Admin.Environment)
    (tablet_id change_type peer_uuid given : string) (member_type_val : Z) :
  Admin.ChangeConfigType_Parse env (Admin.ToUpperCase env change_type)
    = Some Admin.ADD_SERVER ->
  Admin.MemberType_Parse env (Admin.ToUpperCase env given) = Some member_type_val ->
  let lookup :=
    Admin.GetFirstRpcAddressForTS (Admin.HostPortFromPB env) peer_uuid
      (Admin.master_ListTabletServers env).1 (Admin.master_ListTabletServers env).2
      (Admin.HostPort_new env) in
  (forall s host_port,
     lookup = Admin.Returned s host_port [] -> Admin.ok s = false ->
     Admin.ChangeConfig env true tablet_id change_type peer_uuid (Some given)
       = Admin.Returned s tt []) /\
  (forall host_port addr leader,
     lookup = Admin.Returned Admin.OK host_port [] ->
     Admin.HostPortToPB env host_port = (Admin.OK, addr) ->
     Admin.SetTabletLeaderInfo env 0 tablet_id ("", Admin.mkSockaddr 0)
       = Admin.Returned Admin.OK leader [] ->
     Admin.ChangeConfig env true tablet_id change_type peer_uuid (Some given) =
       Admin.Returned
         (Admin.send_ChangeConfig env leader tablet_id Admin.ADD_SERVER
            (Admin.mkRaftPeerPB peer_uuid (Some member_type_val) (Some addr)))
         tt []).
Proof.
  intros Hparse Hmember lookup. unfold Admin.ChangeConfig. rewrite Hparse, Hmember.
  cbn [negb].
  change (bool_decide (Some given = None) &&
          (bool_decide (Admin.ADD_SERVER = Admin.ADD_SERVER)
           || bool_decide (Admin.ADD_SERVER = Admin.CHANGE_ROLE))) with false.
  change (bool_decide (Admin.ADD_SERVER = Admin.ADD_SERVER)) with true.
  change (bool_decide (Admin.ADD_SERVER = Admin.REMOVE_SERVER)) with false.
  cbn iota. fold lookup. split.
  - intros s host_port -> Hs. rewrite Hs. reflexivity.
  - intros host_port addr leader -> Haddr ->. cbn [Admin.ok negb]. rewrite Haddr.
    reflexivity.
Qed.

Lemma eqb_operation (op name : string) :
  name ∈ Admin.operations -> String.eqb op name = true -> op ∈ Admin.operations.
Proof. intros Hin Heq. apply String.eqb_eq in Heq. subst. exact Hin. Qed.

(** X28. The command line.  The connection comes before the operation:
    when [Init] fails, the tool writes that it is unable to establish a
    connection, shows the usage and exits with 1, whatever the operation
    and its arguments are, also for an operation that does not exist.  The
    tool returns 0 only after [Init] has returned OK, for one of the six
    operations, and without having written anything to [cerr]; it returns
    no code but 0 and 1 and exits with no code but 1.  Arguments after
    those of the operation are not looked at. *)
Theorem X28_ClusterAdminCliMain (argv : list string) (addrs : string)
    (client : Admin.Client) :
  (forall prog op arguments s,
     argv = prog :: op :: arguments ->
     Admin.client_Init client = Some s -> Admin.ok s = false ->
     Admin.ClusterAdminCliMain argv addrs client =
       ([Admin.cerr_status ("Unable to establish connection to " +:+ addrs) s;
         Admin.ShowUsage], Admin.exit 1)) /\
  ((Admin.ClusterAdminCliMain argv addrs client).2 = Admin.returns 0 ->
   Admin.client_Init client = Some Admin.OK /\
   (Admin.ClusterAdminCliMain argv addrs client).1 = [] /\
   exists prog op arguments, argv = prog :: op :: arguments /\ op ∈ Admin.operations) /\
  (forall code,
     (Admin.ClusterAdminCliMain argv addrs client).2 = Admin.returns code ->
     code = 0 \/ code = 1) /\
  (forall code,
     (Admin.ClusterAdminCliMain argv addrs client).2 = Admin.exit code -> code = 1) /\
  (forall prog tablet_id change_type peer_uuid member_type extra,
     Admin.ClusterAdminCliMain
       (prog :: Admin.kChangeConfigOp :: tablet_id :: change_type :: peer_uuid
          :: member_type :: extra) addrs client =
     Admin.ClusterAdminCliMain
       [prog; Admin.kChangeConfigOp; tablet_id; change_type; peer_uuid; member_type]
       addrs client) /\
  (forall prog op argument extra,
     op ∈ [Admin.kListTabletsOp; Admin.kListTabletServersOp; Admin.kDeleteTableOp] ->
     Admin.ClusterAdminCliMain (prog :: op :: argument :: extra) addrs client =
     Admin.ClusterAdminCliMain [prog; op; argument] addrs client) /\
  (forall prog op extra,
     op ∈ [Admin.kListTablesOp; Admin.kListAllTabletServersOp] ->
     Admin.ClusterAdminCliMain (prog :: op :: extra) addrs client =
     Admin.ClusterAdminCliMain [prog; op] addrs client).
Proof.
  assert (Hops : forall name, name ∈ Admin.operations ->
                 forall op, String.eqb op name = true -> op ∈ Admin.operations)
    by (intros name Hin op; apply eqb_operation, Hin).
  assert (H1 : Admin.kChangeConfigOp ∈ Admin.operations) by (apply list_elem_of_here).
  assert (H2 : Admin.kListTablesOp ∈ Admin.operations)
    by (apply list_elem_of_further, list_elem_of_here).
  assert (H3 : Admin.kListAllTabletServersOp ∈ Admin.operations)
    by (do 2 apply list_elem_of_further; apply list_elem_of_here).
  assert (H4 : Admin.kListTabletsOp ∈ Admin.operations)
    by (do 3 apply list_elem_of_further; apply list_elem_of_here).
  assert (H5 : Admin.kListTabletServersOp ∈ Admin.operations)
    by (do 4 apply list_elem_of_further; apply list_elem_of_here).
  assert (H6 : Admin.kDeleteTableOp ∈ Admin.operations)
    by (do 5 apply list_elem_of_further; apply list_elem_of_here).
  split; [|split; [|split; [|split; [|split; [|split]]]]].
  - intros prog op arguments s -> Hinit Hs. unfold Admin.ClusterAdminCliMain.
    rewrite Hinit, Hs. reflexivity.
  - unfold Admin.ClusterAdminCliMain, Admin.report.
    intros H. repeat (case_match; simplify_eq/=); try discriminate;
      repeat match goal with
             | E : negb (Admin.ok _) = false |- _ =>
                 apply Bool.negb_false_iff, ok_true in E; subst
             end;
      (split; [first [reflexivity|assumption]|]; split; [reflexivity|]; eexists _, _, _;
       split; [reflexivity|]; eauto).
  - unfold Admin.ClusterAdminCliMain, Admin.report.
    intros code H. repeat (case_match; simplify_eq/=); auto.
  - unfold Admin.ClusterAdminCliMain, Admin.report.
    intros code H. repeat (case_match; simplify_eq/=); auto.
  - intros. unfold Admin.ClusterAdminCliMain. rewrite String.eqb_refl. reflexivity.
  - intros prog op argument extra Hop.
    repeat (apply elem_of_cons in Hop as [->|Hop]); [reflexivity..|].
    apply elem_of_nil in Hop. contradiction.
  - intros prog op extra Hop.
    repeat (apply elem_of_cons in Hop as [->|Hop]); [reflexivity..|].
    apply elem_of_nil in Hop. contradiction.
Qed.

(** * The theorems at work on the sample messenger *)

Lemma C1_witness :
  (1 <= length (reactors_ Sample.m))%nat /\
  Z.of_nat (length (reactors_ Sample.m)) <= INT_MAX /\
  reactors_ Sample.m = Messenger_reactors 3 /\
  RemoteToReactor Sample.hash (mkEndpoint Sample.a1 9100) 0 Sample.m
    = Returns (mkReactor 1) Sample.m [].
Proof.
  split; [cbn; lia|]. split; [vm_compute; discriminate|]. split; [reflexivity|].
  destruct (C1_RemoteToReactor_stable Sample.hash Sample.release Sample.m
              (mkEndpoint Sample.a1 9100) 0)
    as (r & _ & Hrun & _ & Hmade); [cbn; lia|vm_compute; discriminate|].
  rewrite Hrun, (Hmade 3 eq_refl). reflexivity.
Defined.

Lemma C2_witness :
  closing_ Sample.m = false /\
  (Sample.release = true \/ rpc_services_ Sample.m = ∅) /\
  exists after sequence,
    Shutdown Sample.release Sample.m = Returns tt after sequence /\
    exec_all Sample.hash Sample.release (replicate 3 Call_Shutdown) Sample.m
      = Returns tt after sequence /\
    length sequence = 10%nat.
Proof.
  split; [reflexivity|]. split; [left; reflexivity|].
  destruct (C2_Shutdown_idempotent Sample.hash Sample.release Sample.m 2 eq_refl
              (or_introl eq_refl)) as (H1 & _ & H3 & _).
  eexists _, _. split; [exact H1|]. split; [exact H3|reflexivity].
Defined.

Lemma C3_witness :
  (1 <= length (reactors_ Sample.m))%nat /\
  Z.of_nat (length (reactors_ Sample.m)) <= INT_MAX /\
  connectivity_inv Sample.m /\
  QueueOutboundCall Sample.hash Sample.to_a1 Sample.m =
    Returns tt Sample.m
      [Reactor_ScheduleReactorTask Sample.r1
         (TransferredFunctor Sample.to_a1
            (STATUS kNetworkError "TEST: Connectivity is broken"))] /\
  QueueOutboundCall Sample.hash Sample.to_a2 Sample.m =
    Returns tt Sample.m [Reactor_QueueOutboundCall Sample.r2 Sample.to_a2].
Proof.
  assert (Hinv : connectivity_inv Sample.m).
  { unfold connectivity_inv. apply (bool_decide_unpack _). vm_compute. exact I. }
  split; [cbn; lia|]. split; [vm_compute; discriminate|]. split; [exact Hinv|].
  split.
  - destruct (C3_QueueOutboundCall Sample.hash Sample.m Sample.to_a1)
      as (r & Hr & Hbroken & _); [cbn; lia|vm_compute; discriminate|exact Hinv|].
    assert (r = Sample.r1) as -> by (vm_compute in Hr; injection Hr as <-; reflexivity).
    apply Hbroken. apply (bool_decide_unpack _). vm_compute. exact I.
  - destruct (C3_QueueOutboundCall Sample.hash Sample.m Sample.to_a2)
      as (r & Hr & _ & Hfine); [cbn; lia|vm_compute; discriminate|exact Hinv|].
    assert (r = Sample.r2) as -> by (vm_compute in Hr; injection Hr as <-; reflexivity).
    apply Hfine. apply (bool_decide_unpack _). vm_compute. exact I.
Defined.

(** C3, as the claim has it, fails: the call to the broken address is not
    failed by [QueueOutboundCall], which calls no [Transferred]; what it
    does is a call on a reactor. *)
Lemma C3_counterexample :
  address (remote (conn_id Sample.to_a1)) ∈ broken_connectivity_ Sample.m /\
  ~ (exists s,
       OutboundCall_Transferred Sample.to_a1 s
         ∈ trace_of (QueueOutboundCall Sample.hash Sample.to_a1 Sample.m)) /\
  ~ Forall (fun e => on_reactor e = None)
      (trace_of (QueueOutboundCall Sample.hash Sample.to_a1 Sample.m)).
Proof.
  split; [apply (bool_decide_unpack _); vm_compute; exact I|].
  assert (trace_of (QueueOutboundCall Sample.hash Sample.to_a1 Sample.m) =
            [Reactor_ScheduleReactorTask Sample.r1
               (TransferredFunctor Sample.to_a1
                  (STATUS kNetworkError "TEST: Connectivity is broken"))]) as ->
    by (vm_compute; reflexivity).
  split.
  - intros (s & Hin). apply list_elem_of_singleton in Hin. discriminate.
  - intros H. apply Forall_inv in H. discriminate.
Qed.

Lemma C4_witness :
  rpc_services_ Sample.m !! "S" = Some Sample.service /\
  rpc_services_ Sample.m !! "T" = None /\
  Forall (fun c => unregisters "T" c = false) Sample.schedules /\
  RegisterService "S" (mkRpcService 2) Sample.m =
    Returns (STATUS kAlreadyPresent "Service S is already present") Sample.m [] /\
  (exists m',
     RegisterService "T" (mkRpcService 2) Sample.m = Returns Status_OK m' [] /\
     rpc_services_cache_ m' !! "T" = Some (mkRpcService 2) /\
     RegisterService "T" (mkRpcService 3) m' =
       Returns (STATUS kAlreadyPresent "Service T is already present") m' [] /\
     exists m'' t,
       exec_all Sample.hash Sample.release Sample.schedules m' = Returns tt m'' t /\
       RegisterService "T" (mkRpcService 3) m'' =
         Returns (STATUS kAlreadyPresent "Service T is already present") m'' []).
Proof.
  assert (HS : rpc_services_ Sample.m !! "S" = Some Sample.service)
    by (vm_compute; reflexivity).
  assert (HT : rpc_services_ Sample.m !! "T" = None) by (vm_compute; reflexivity).
  assert (Hcs : Forall (fun c => unregisters "T" c = false) Sample.schedules)
    by (repeat constructor).
  split; [exact HS|]. split; [exact HT|]. split; [exact Hcs|].
  destruct (C4_RegisterService Sample.hash Sample.release Sample.m "S" (mkRpcService 2))
    as (Hpresent & _ & _).
  destruct (C4_RegisterService Sample.hash Sample.release Sample.m "T" (mkRpcService 2))
    as (_ & Habsent & Htwice & Hlater).
  split; [exact (Hpresent _ HS)|].
  destruct (Habsent HT) as (m' & Hrun & Hreg & Hcache).
  exists m'. split; [exact Hrun|]. split; [|split].
  - rewrite Hcache, Hreg. apply lookup_insert_eq.
  - exact (Htwice (mkRpcService 3) _ _ _ Hrun).
  - destruct (exec_all Sample.hash Sample.release Sample.schedules m') as [[] m'' t| |] eqn:E.
    + exists m'', t. split; [reflexivity|].
      exact (Hlater (mkRpcService 3) _ _ _ _ _ _ Hrun Hcs E).
    + exfalso. rewrite (RegisterService_absent Sample.m "T" (mkRpcService 2) HT) in Hrun.
      injection Hrun as <-. vm_compute in E. discriminate E.
    + exfalso. rewrite (RegisterService_absent Sample.m "T" (mkRpcService 2) HT) in Hrun.
      injection Hrun as <-. vm_compute in E. discriminate E.
Defined.

Lemma C5_witness :
  rpc_services_ Sample.m !! "T" = None /\
  rpc_services_ Sample.m !! "S" = Some Sample.service /\
  UnregisterService "T" Sample.m =
    Returns (STATUS kServiceUnavailable "service T not registered on ts-1") Sample.m [] /\
  (exists m',
     UnregisterService "S" Sample.m = Returns Status_OK m' [] /\
     rpc_services_cache_ m' !! "S" = None).
Proof.
  assert (HS : rpc_services_ Sample.m !! "S" = Some Sample.service)
    by (vm_compute; reflexivity).
  assert (HT : rpc_services_ Sample.m !! "T" = None) by (vm_compute; reflexivity).
  split; [exact HT|]. split; [exact HS|].
  destruct (C5_UnregisterService Sample.m "T") as (Habsent & _ & _).
  destruct (C5_UnregisterService Sample.m "S") as (_ & Hpresent & _).
  split; [exact (Habsent HT)|].
  destruct (Hpresent _ HS) as (m' & Hrun & _ & Hgone & Hcache).
  exists m'. split; [exact Hrun|]. rewrite Hcache. exact Hgone.
Defined.

Lemma C6_witness :
  rpc_services_cache_ Sample.m !! service_name Sample.for_T = None /\
  rpc_services_cache_ Sample.m !! service_name Sample.for_S = Some Sample.service /\
  QueueInboundCall Sample.for_T Sample.m =
    Returns tt Sample.m
      [InboundCall_RespondFailure Sample.for_T ERROR_NO_SUCH_SERVICE
         (STATUS kServiceUnavailable "Service T not registered on ts-1")] /\
  Handle Sample.for_S Sample.m =
    Returns tt Sample.m [RpcService_Handle Sample.service Sample.for_S].
Proof.
  assert (HT : rpc_services_cache_ Sample.m !! service_name Sample.for_T = None)
    by (vm_compute; reflexivity).
  assert (HS : rpc_services_cache_ Sample.m !! service_name Sample.for_S
               = Some Sample.service) by (vm_compute; reflexivity).
  split; [exact HT|]. split; [exact HS|].
  destruct (C6_inbound_dispatch Sample.m Sample.for_T) as (Habsent & _).
  destruct (C6_inbound_dispatch Sample.m Sample.for_S) as (_ & Hpresent).
  split; [exact (proj1 (Habsent HT))|exact (proj2 (Hpresent _ HS))].
Defined.

Lemma C7_witness :
  5 <> -1 /\ 4 <> -1 /\
  scheduled_tasks_ Sample.m !! 5 = Some Sample.task5 /\
  scheduled_tasks_ Sample.m !! 4 = None /\
  AbortOnReactor (-1) Sample.m = CheckFailed [] /\
  AbortOnReactor 4 Sample.m = Returns tt Sample.m [] /\
  (exists m',
     AbortOnReactor 5 Sample.m =
       Returns tt m'
         [DelayedTask_AbortTask Sample.task5 (STATUS kAborted "Task aborted by messenger")] /\
     AbortOnReactor 5 m' = Returns tt m' []).
Proof.
  assert (H5 : scheduled_tasks_ Sample.m !! 5 = Some Sample.task5)
    by (vm_compute; reflexivity).
  assert (H4 : scheduled_tasks_ Sample.m !! 4 = None) by (vm_compute; reflexivity).
  split; [lia|]. split; [lia|]. split; [exact H5|]. split; [exact H4|].
  destruct (C7_AbortOnReactor Sample.m (-1)) as (Hcheck & _).
  destruct (C7_AbortOnReactor Sample.m 4) as (_ & Hfour).
  destruct (C7_AbortOnReactor Sample.m 5) as (_ & Hfive).
  split; [exact (Hcheck eq_refl)|].
  destruct (Hfour ltac:(lia)) as (_ & Habsent & _).
  destruct (Hfive ltac:(lia)) as (Hpresent & _ & _).
  split; [exact (Habsent H4)|].
  destruct (Hpresent _ H5) as (m' & Hrun & _ & _ & Hagain).
  exists m'. split; [exact Hrun|exact Hagain].
Defined.

(** C7, as the claim has it, fails: -1 is in no map of scheduled tasks, and
    [AbortOnReactor] of it does not return. *)
Lemma C7_counterexample :
  scheduled_tasks_ Sample.m !! (-1) = None /\
  AbortOnReactor (-1) Sample.m = CheckFailed [] /\
  AbortOnReactor (-1) Sample.m <> Returns tt Sample.m [].
Proof.
  split; [vm_compute; reflexivity|]. split; [reflexivity|]. discriminate.
Qed.

Lemma C8_witness :
  (1 <= length (reactors_ Sample.m))%nat /\
  - 2 ^ 63 <= next_task_id_ Sample.m < 2 ^ 63 /\
  (exists m',
     ScheduleOnReactor Sample.on_r1 7 (mkFunctor 9) 250 true Sample.m =
       Returns 6 m'
         [Reactor_ScheduleReactorTask Sample.r1
            (DelayedReactorTask (mkDelayedTask (mkFunctor 9) 250 6 true))] /\
     scheduled_tasks_ m' !! 6 = Some (mkDelayedTask (mkFunctor 9) 250 6 true) /\
     next_task_id_ m' = 7) /\
  ScheduleOnReactor (fun _ => false) 7 (mkFunctor 9) 250 false Sample.m =
    Returns 0 Sample.m
      [Reactor_ScheduleReactorTask Sample.r1
         (DelayedReactorTask (mkDelayedTask (mkFunctor 9) 250 0 false))] /\
  (exists m' t,
     exec_all Sample.hash Sample.release Sample.schedules Sample.m = Returns tt m' t /\
     owned_ids t = [6; 7] /\
     NoDup (owned_ids t)).
Proof.
  assert (Hrange : - 2 ^ 63 <= next_task_id_ Sample.m < 2 ^ 63) by (cbn; lia).
  split; [cbn; lia|]. split; [exact Hrange|].
  destruct (C8_ScheduleOnReactor Sample.hash Sample.release Sample.m Sample.on_r1 7
              (mkFunctor 9) 250)
    as (chosen & _ & _ & Honly & _ & Howned & _ & Hunique); [cbn; lia|].
  assert (chosen = Sample.r1) as ->.
  { apply Honly.
    - apply (bool_decide_unpack _). vm_compute. exact I.
    - reflexivity.
    - intros r' _ Hr'. apply bool_decide_eq_true in Hr'. exact Hr'. }
  destruct (C8_ScheduleOnReactor Sample.hash Sample.release Sample.m (fun _ => false) 7
              (mkFunctor 9) 250)
    as (chosen & _ & _ & _ & Hrandom & _ & Hfree & _); [cbn; lia|].
  assert (chosen = Sample.r1) as ->.
  { specialize (Hrandom (fun _ _ => eq_refl)). vm_compute in Hrandom.
    injection Hrandom as <-. reflexivity. }
  split; [|split; [exact Hfree|]].
  - destruct Howned as (m' & Hrun & Hnext & _ & _ & Hreg & _).
    exists m'. split; [exact Hrun|]. split; [exact Hreg|]. rewrite Hnext. reflexivity.
  - eexists _, _. split; [vm_compute; reflexivity|]. split; [reflexivity|].
    eapply (Hunique Sample.schedules);
      [exact Hrange|vm_compute; discriminate|vm_compute; reflexivity].
Defined.

Lemma C9_witness :
  Sample.a1 ∈ broken_connectivity_ Sample.m /\
  (Sample.a2 ∉ broken_connectivity_ Sample.m) /\
  Rendezvous.unknown_latch 7 Sample.idle /\
  BreakConnectivityWith Sample.a1 7 Sample.m = Returns tt Sample.m [] /\
  (exists m' w,
     BreakConnectivityWith Sample.a2 7 Sample.m =
       Returns tt m' (Sample.break_trace Sample.a2) /\
     rtc (Rendezvous.call_step 7) (Sample.break_trace Sample.a2, Sample.idle) ([], w) /\
     Rendezvous.has_dropped Sample.r0 Sample.a2 w /\
     Rendezvous.has_dropped Sample.r1 Sample.a2 w /\
     Rendezvous.has_dropped Sample.r2 Sample.a2 w).
Proof.
  assert (H1 : Sample.a1 ∈ broken_connectivity_ Sample.m)
    by (apply (bool_decide_unpack _); vm_compute; exact I).
  assert (H2 : Sample.a2 ∉ broken_connectivity_ Sample.m)
    by (apply (bool_decide_unpack _); vm_compute; exact I).
  assert (H0 : Rendezvous.unknown_latch 7 Sample.idle) by apply Forall_nil_2.
  split; [exact H1|]. split; [exact H2|]. split; [exact H0|].
  destruct (C9_BreakConnectivityWith Sample.m Sample.a1 7) as (Hmarked & _).
  destruct (C9_BreakConnectivityWith Sample.m Sample.a2 7) as (_ & Hunmarked).
  split; [exact (Hmarked H1)|].
  destruct (Hunmarked H2) as ((m' & Hrun & _) & _ & Hsafe & Hlive).
  destruct (Hlive Sample.idle) as (w & Hsteps).
  exists m', w. split; [exact Hrun|]. split; [exact Hsteps|].
  pose proof (Hsafe Sample.idle w H0 Hsteps) as Hall.
  split; [|split]; apply Hall; apply (bool_decide_unpack _); vm_compute; exact I.
Defined.

(** C9, as the claim has it, fails.  A call for an address that is already
    broken schedules a drop task on no reactor and waits on no latch.  And
    while a first call for [a1] waits on its latch, its three drop tasks
    pending and none run, a second call for [a1] returns at once: at its
    return no reactor has dropped its connections with [a1]. *)
Lemma C9_counterexample :
  Sample.a1 ∈ broken_connectivity_ Sample.m /\
  BreakConnectivityWith Sample.a1 8 Sample.m = Returns tt Sample.m [] /\
  ~ (forall r, r ∈ reactors_ Sample.m ->
       exists l,
         Reactor_ScheduleReactorTask r (DropFunctor l Sample.a1)
           ∈ trace_of (BreakConnectivityWith Sample.a1 8 Sample.m)) /\
  BreakConnectivityWith Sample.a1 7 Sample.connected =
    Returns tt Sample.m (Sample.break_trace Sample.a1) /\
  exists w,
    rtc (Rendezvous.call_step 7)
      (Sample.break_trace Sample.a1, Sample.idle)
      ([CountDownLatch_Wait Sample.latch7], w) /\
    ~ Rendezvous.Wait_returns Sample.latch7 w /\
    forall r, ~ Rendezvous.has_dropped r Sample.a1 w.
Proof.
  split; [apply (bool_decide_unpack _); vm_compute; exact I|].
  split; [vm_compute; reflexivity|]. split; [|split].
  - intros H. destruct (H Sample.r0) as (l & Hin); [left|].
    vm_compute in Hin. inversion Hin.
  - vm_compute. reflexivity.
  - exists (Rendezvous.deliver_all (Sample.critical_section Sample.a1) Sample.idle).
    split; [|split].
    + apply call_deliver_all. repeat constructor.
    + unfold Rendezvous.Wait_returns. vm_compute. discriminate.
    + intros r H. unfold Rendezvous.has_dropped in H. cbn in H. inversion H.
Qed.

Lemma C10_witness :
  connectivity_inv Sample.m /\
  IsArtificiallyDisconnectedFrom Sample.a1 Sample.m = Returns true Sample.m [] /\
  IsArtificiallyDisconnectedFrom Sample.a2 Sample.m = Returns false Sample.m [] /\
  (exists m',
     RestoreConnectivityWith Sample.a1 Sample.m = Returns tt m' [] /\
     has_broken_connectivity_ m' = false /\
     IsArtificiallyDisconnectedFrom Sample.a1 m' = Returns false m' []) /\
  (exists m' t,
     exec_all Sample.hash Sample.release Sample.breaks Sample.m = Returns tt m' t /\
     connectivity_inv m').
Proof.
  assert (Hinv : connectivity_inv Sample.m).
  { unfold connectivity_inv. apply (bool_decide_unpack _). vm_compute. exact I. }
  split; [exact Hinv|].
  destruct (C10_connectivity_flag Sample.hash Sample.release Sample.m) as (_ & Hrestore & Hunder).
  destruct (Hunder Hinv) as (_ & Hrestored & Hquery & Hcalls).
  split; [|split; [|split]].
  - destruct (IsArtificiallyDisconnectedFrom Sample.a1 Sample.m) as [b m' t| |] eqn:E;
      [|discriminate E..].
    destruct (Hquery _ _ _ _ E) as (-> & -> & Hb).
    f_equal. apply Hb. apply (bool_decide_unpack _). vm_compute. exact I.
  - destruct (IsArtificiallyDisconnectedFrom Sample.a2 Sample.m) as [b m' t| |] eqn:E;
      [|discriminate E..].
    destruct (Hquery _ _ _ _ E) as (-> & -> & Hb).
    f_equal. destruct b; [|reflexivity].
    exfalso. revert Hb. intros [Hb _]. specialize (Hb eq_refl).
    apply (bool_decide_pack _) in Hb. vm_compute in Hb. exact Hb.
  - destruct (Hrestore Sample.a1) as (m' & Hrun & Hset & _).
    destruct (Hrestored _ _ _ Hrun) as (Hflag & Hinv').
    exists m'. split; [exact Hrun|].
    assert (Hempty : broken_connectivity_ m' = ∅).
    { rewrite Hset. apply (bool_decide_unpack _). vm_compute. exact I. }
    split; [apply Hflag, Hempty|].
    rewrite IsArtificiallyDisconnectedFrom_inv by exact Hinv'.
    rewrite Hempty. reflexivity.
  - eexists _, _. split; [vm_compute; reflexivity|].
    eapply (Hcalls Sample.breaks). vm_compute. reflexivity.
Defined.

(** ** The further properties at work *)

Lemma X1_witness :
  snapshot_inv Sample.m /\
  exists m' t,
    exec_all Sample.hash Sample.release
      [Call_RegisterService "T" (mkRpcService 2); Call_UnregisterService "S"] Sample.m
      = Returns tt m' t /\
    snapshot_inv m' /\
    rpc_service "T" m' = Returns (rpc_services_ m' !! "T") m' [].
Proof.
  assert (Hinv : snapshot_inv Sample.m) by reflexivity.
  split; [exact Hinv|].
  eexists _, _. split; [vm_compute; reflexivity|].
  edestruct (X1_snapshot_is_registry Sample.hash Sample.release
               [Call_RegisterService "T" (mkRpcService 2); Call_UnregisterService "S"]
               Sample.m) as [Hs Hr];
    [exact Hinv|repeat (apply Forall_cons_2; [discriminate|]); apply Forall_nil_2
    |vm_compute; reflexivity|].
  split; [exact Hs|apply Hr].
Defined.

Lemma X2_witness :
  closing_ Sample.m = false /\
  rpc_services_cache_ Sample.m !! service_name Sample.for_S = Some Sample.service /\
  rpc_services_ Sample.m <> ∅ /\
  (exists m' t,
     Shutdown Sample.release Sample.m = Returns tt m' t /\
     rpc_services_ m' = ∅ /\
     Handle Sample.for_S m' = Returns tt m' [RpcService_Handle Sample.service Sample.for_S]) /\
  Shutdown Sample.debug Sample.m = CheckFailed [].
Proof.
  assert (Hopen : closing_ Sample.m = false) by reflexivity.
  assert (HS : rpc_services_cache_ Sample.m !! service_name Sample.for_S
               = Some Sample.service) by (vm_compute; reflexivity).
  assert (Hfull : rpc_services_ Sample.m <> ∅).
  { intros Hempty. apply (f_equal (fun services => services !! "S")) in Hempty.
    vm_compute in Hempty. discriminate Hempty. }
  split; [exact Hopen|]. split; [exact HS|]. split; [exact Hfull|]. split.
  - destruct (X2_Shutdown_keeps_snapshot Sample.release Sample.m Sample.for_S
                Sample.service Hopen HS) as [Hreturns _].
    destruct (Hreturns (or_introl eq_refl)) as (m' & t & H1 & H2 & _ & _ & H5).
    exists m', t. auto.
  - destruct (X2_Shutdown_keeps_snapshot Sample.debug Sample.m Sample.for_S
                Sample.service Hopen HS) as [_ Haborts].
    exact (Haborts eq_refl Hfull).
Defined.

Lemma X3_witness :
  closing_ Sample.m = false /\
  exists m1 t1 m2,
    Shutdown Sample.release Sample.m = Returns tt m1 t1 /\
    RegisterService "S" Sample.service m1 = Returns Status_OK m2 [] /\
    closing_ m2 = true /\
    rpc_service "S" m2 = Returns (Some Sample.service) m2 [].
Proof.
  split; [reflexivity|].
  destruct (X3_RegisterService_after_Shutdown Sample.release Sample.m "S" Sample.service)
    as [_ H].
  destruct (H eq_refl (or_introl eq_refl)) as (m1 & t1 & m2 & H1 & H2 & H3 & _ & H5).
  exists m1, t1, m2. auto.
Defined.

Lemma X4_witness :
  snapshot_inv Sample.m /\
  rpc_services_ Sample.m !! "T" = None /\
  exists m1,
    RegisterService "T" (mkRpcService 2) Sample.m = Returns Status_OK m1 [] /\
    UnregisterService "T" m1 = Returns Status_OK Sample.m [].
Proof.
  assert (Hinv : snapshot_inv Sample.m) by reflexivity.
  assert (HT : rpc_services_ Sample.m !! "T" = None) by (vm_compute; reflexivity).
  split; [exact Hinv|]. split; [exact HT|].
  destruct (X4_register_unregister Sample.m "T" (mkRpcService 2) Hinv HT)
    as (m1 & H1 & _ & H3).
  exists m1. auto.
Defined.

Lemma X5_witness :
  connectivity_inv Sample.connected /\
  (Sample.a1 ∉ broken_connectivity_ Sample.connected) /\
  exists m1 t,
    BreakConnectivityWith Sample.a1 7 Sample.connected = Returns tt m1 t /\
    RestoreConnectivityWith Sample.a1 m1 = Returns tt Sample.connected [].
Proof.
  assert (Hinv : connectivity_inv Sample.connected).
  { unfold connectivity_inv. apply (bool_decide_unpack _). vm_compute. exact I. }
  assert (Hout : Sample.a1 ∉ broken_connectivity_ Sample.connected).
  { apply (bool_decide_unpack _). vm_compute. exact I. }
  split; [exact Hinv|]. split; [exact Hout|].
  destruct (X5_break_restore Sample.connected Sample.a1 7 Hinv Hout)
    as (_ & m1 & t & H1 & _ & H3).
  exists m1, t. auto.
Defined.

Lemma X6_witness :
  connectivity_inv Sample.connected /\
  exists r,
    RemoteToReactor Sample.hash (remote (conn_id Sample.to_a1)) (idx (conn_id Sample.to_a1))
      Sample.connected = Returns r Sample.connected [] /\
    forall m1 t,
      BreakConnectivityWith Sample.a1 7 Sample.connected = Returns tt m1 t ->
      QueueOutboundCall Sample.hash Sample.to_a1 m1 =
        Returns tt m1
          [Reactor_ScheduleReactorTask r
             (TransferredFunctor Sample.to_a1
                (STATUS kNetworkError "TEST: Connectivity is broken"))].
Proof.
  assert (Hinv : connectivity_inv Sample.connected).
  { unfold connectivity_inv. apply (bool_decide_unpack _). vm_compute. exact I. }
  split; [exact Hinv|].
  destruct (X6_break_affects_one_address Sample.hash Sample.connected Sample.to_a1)
    as (r & Hr & Hbreak & _); [cbn; lia|vm_compute; discriminate|exact Hinv|].
  exists r. split; [exact Hr|]. intros m1 t. apply (Hbreak 7%nat).
Defined.

Lemma X7_witness :
  tasks_below Sample.m /\
  exists m' t,
    exec_all Sample.hash Sample.release Sample.schedules Sample.m = Returns tt m' t /\
    tasks_below m'.
Proof.
  assert (Hinv : tasks_below Sample.m).
  { intros id [x Hx]. cbn in Hx. apply lookup_singleton_Some in Hx as [<- _]. cbn. lia. }
  split; [exact Hinv|].
  destruct (X7_schedule_never_overwrites Sample.hash Sample.release Sample.m Sample.on_r1 7
              (mkFunctor 9) 250 Hinv) as [_ Hseq]; [cbn; lia|].
  eexists _, _. split; [vm_compute; reflexivity|].
  eapply (Hseq Sample.schedules); [vm_compute; reflexivity|vm_compute; reflexivity].
Defined.

Lemma X8_witness :
  exists id m1 t m2,
    ScheduleOnReactor Sample.on_r1 7 (mkFunctor 9) 250 true Sample.m = Returns id m1 t /\
    id = 6 /\
    RemoveScheduledTask id m1 = Returns tt m2 [] /\
    scheduled_tasks_ m2 = scheduled_tasks_ Sample.m.
Proof.
  destruct (ScheduleOnReactor Sample.on_r1 7 (mkFunctor 9) 250 true Sample.m)
    as [id m1 t| |] eqn:E; [|vm_compute in E; discriminate E..].
  destruct (X8_schedule_remove Sample.m Sample.on_r1 7 (mkFunctor 9) 250 id m1 t)
    as (Hid & m2 & H1 & H2 & _); [vm_compute; reflexivity|cbn; lia|exact E|].
  exists id, m1, t, m2. auto.
Defined.

Lemma X9_witness :
  exists r,
    RemoteToReactor Sample.hash (mkEndpoint Sample.a1 9100) 0 Sample.m
      = Returns r Sample.m [] /\
    RemoteToReactor Sample.hash (mkEndpoint Sample.a1 9100) (0 + 3) Sample.m
      = Returns r Sample.m [].
Proof.
  destruct (X9_connections_spread Sample.hash Sample.m (mkEndpoint Sample.a1 9100) 0 3 3)
    as (r1 & r2 & H1 & H2 & Hsame);
    [reflexivity|unfold INT_MAX; lia|lia|lia|vm_compute; reflexivity|].
  assert (r1 = r2) as -> by (apply Hsame; reflexivity).
  exists r2. auto.
Defined.

Lemma X10_witness :
  Messenger_Init Sample.r1_fails Sample.built =
    Finished (STATUS kNetworkError "no thread") Sample.built
      [Reactor_Init Sample.r0; Reactor_Init Sample.r1].
Proof.
  destruct (X10_Init_first_failure Sample.r1_fails Sample.built) as (_ & _ & Hfail).
  apply (Hfail 1%nat Sample.r1); [reflexivity|reflexivity|].
  apply Forall_cons_2; [reflexivity|apply Forall_nil_2].
Defined.

Lemma X11_witness :
  DumpRunningRpcs Sample.r1_fails Sample.built =
    Finished (STATUS kNetworkError "no thread") Sample.built
      [Reactor_DumpRunningRpcs Sample.r0; Reactor_DumpRunningRpcs Sample.r1].
Proof.
  destruct (X11_reactors_asked_in_order Sample.release Sample.r1_fails
              (mkServerEventList 1) Sample.built)
    as (_ & Hfail & _).
  apply (Hfail 1%nat Sample.r1); [reflexivity|reflexivity|].
  apply Forall_cons_2; [reflexivity|apply Forall_nil_2].
Defined.

Lemma X12_witness :
  reactors_ (members Sample.declared) = [] /\
  exists o,
    MessengerBuilder_Build Sample.bld 4 Sample.all_ok Sample.declared =
      Finished Built_messenger o
        [IoThreadPool_new 4; Scheduler_new;
         Reactor_new Sample.r0 Sample.bld; Reactor_new Sample.r1 Sample.bld;
         Reactor_new Sample.r2 Sample.bld;
         Reactor_Init Sample.r0; Reactor_Init Sample.r1; Reactor_Init Sample.r2] /\
    reactors_ (members o) = [Sample.r0; Sample.r1; Sample.r2] /\
    retain_self_ o = true.
Proof.
  split; [reflexivity|].
  destruct (X12_Build Sample.hash Sample.bld 4 Sample.all_ok Sample.declared)
    as (o & Hrun & _ & Hrs & Hretain & _); [reflexivity| |].
  - repeat (apply Forall_cons_2; [reflexivity|]). apply Forall_nil_2.
  - exists o. auto.
Defined.


Lemma X14_witness :
  closing_ (members Sample.declared) = false /\
  MessengerBuilder_Build Sample.bld 4 Sample.r1_fails Sample.declared =
    Aborted
      [IoThreadPool_new 4; Scheduler_new;
       Reactor_new Sample.r0 Sample.bld; Reactor_new Sample.r1 Sample.bld;
       Reactor_new Sample.r2 Sample.bld;
       Reactor_Init Sample.r0; Reactor_Init Sample.r1].
Proof.
  split; [reflexivity|].
  apply (X14_Build_aborts_when_Init_fails Sample.bld 4 Sample.r1_fails Sample.declared
           1%nat Sample.r1); [reflexivity..|].
  apply Forall_cons_2; [reflexivity|apply Forall_nil_2].
Defined.

Lemma X15_witness :
  retain_self_ Sample.built = true /\
  exists o' t,
    invoke_all Sample.hash Sample.release 8
      [Op_ListenAddress Sample.any_v4 1 Status_OK;
       Op_Call (Call_RegisterService "T" (mkRpcService 2))] Sample.built
      = Finished tt o' t /\
    invoke_all Sample.hash Sample.debug 8
      [Op_ListenAddress Sample.any_v4 1 Status_OK;
       Op_Call (Call_RegisterService "T" (mkRpcService 2))] Sample.built
      = Finished tt o' t /\
    retain_self_ o' = true /\
    closing_ (members o') = false /\
    rpc_services_ (members o') <> ∅ /\
    (exists o1 t1,
       AllExternalReferencesDropped Sample.release o' = Finished tt o1 t1 /\
       AllExternalReferencesDropped Sample.release o1 = Aborted [] /\
       exists o2,
         Messenger_destructor o1 =
           Finished tt o2
             [Reactor_delete Sample.r0; Reactor_delete Sample.r1;
              Reactor_delete Sample.r2]) /\
    AllExternalReferencesDropped Sample.debug o' = Aborted [].
Proof.
  split; [reflexivity|].
  eexists _, _. split; [vm_compute; reflexivity|]. split; [vm_compute; reflexivity|].
  match goal with
  | |- retain_self_ ?o = true /\ _ =>
      assert (Hopen : closing_ (members o) = false) by reflexivity;
      assert (Hfull : rpc_services_ (members o) <> ∅)
  end.
  { intros Hempty. apply (f_equal (fun services => services !! "T")) in Hempty.
    vm_compute in Hempty. discriminate Hempty. }
  edestruct (X15_AllExternalReferencesDropped_once Sample.hash Sample.release 8
               [Op_ListenAddress Sample.any_v4 1 Status_OK;
                Op_Call (Call_RegisterService "T" (mkRpcService 2))] Sample.built)
    as (Hretain & Hreturns & _);
    [reflexivity|repeat (apply Forall_cons_2; [discriminate|]); apply Forall_nil_2
    |vm_compute; reflexivity|].
  edestruct (X15_AllExternalReferencesDropped_once Sample.hash Sample.debug 8
               [Op_ListenAddress Sample.any_v4 1 Status_OK;
                Op_Call (Call_RegisterService "T" (mkRpcService 2))] Sample.built)
    as (_ & _ & Haborts);
    [reflexivity|repeat (apply Forall_cons_2; [discriminate|]); apply Forall_nil_2
    |vm_compute; reflexivity|].
  split; [exact Hretain|]. split; [exact Hopen|]. split; [exact Hfull|]. split.
  - destruct (Hreturns (or_intror (or_introl eq_refl)))
      as (o1 & t1 & Hall & _ & _ & Hagain & o2 & Hdelete & _).
    exists o1, t1. split; [exact Hall|]. split; [exact Hagain|].
    exists o2. exact Hdelete.
  - exact (Haborts Hopen eq_refl Hfull).
Defined.

Lemma X16_witness :
  exists o1,
    ListenAddress Sample.at_a2 1 Status_OK Sample.built =
      Finished Status_OK o1
        [Acceptor_new (mkAcceptor 1); Acceptor_Listen (mkAcceptor 1) Sample.at_a2] /\
    StartAcceptor Status_OK o1 = Finished Status_OK o1 [Acceptor_Start (mkAcceptor 1)] /\
    StartAcceptor Status_OK Sample.built =
      Finished (STATUS kIllegalState "Trying to start acceptor w/o active addresses")
        Sample.built [].
Proof.
  destruct (X16_ListenAddress_one_acceptor Sample.at_a2 1 Status_OK Sample.built)
    as (o1 & a & -> & Hrun & _ & _ & Hstart & Hnone & _).
  exists o1. split; [exact Hrun|]. split; [apply Hstart|]. apply Hnone. reflexivity.
Defined.

Lemma X17_witness :
  exists o' t,
    invoke_all Sample.hash Sample.release 8
      [Op_ListenAddress Sample.any_v4 1 Status_OK;
       Op_ListenAddress Sample.at_a2 2 Status_OK;
       Op_ListenAddress (mkEndpoint Sample.a1 9100) 3 Status_OK] Sample.built
      = Finished tt o' t /\
    outbound_address_v4_ o' = Sample.a2 /\
    outbound_address_v6_ o' = IpV4 0.
Proof.
  eexists _, _. split; [vm_compute; reflexivity|].
  edestruct (X17_outbound_address_set_once Sample.hash Sample.release 8
               [Op_ListenAddress Sample.any_v4 1 Status_OK;
                Op_ListenAddress Sample.at_a2 2 Status_OK;
                Op_ListenAddress (mkEndpoint Sample.a1 9100) 3 Status_OK] Sample.built)
    as [H4 H6]; [vm_compute; reflexivity|].
  split; [rewrite H4|rewrite H6]; vm_compute; reflexivity.
Defined.

Lemma X18_witness :
  closing_ (members Sample.object) = false /\
  exists o1 t,
    lift (Shutdown Sample.release) Sample.object = Finished tt o1 t /\
    exists o2,
      ListenAddress Sample.at_a2 1 Status_OK o1 =
        Finished Status_OK o2
          [Acceptor_new (mkAcceptor 1); Acceptor_Listen (mkAcceptor 1) Sample.at_a2] /\
      StartAcceptor Status_OK o2 = Finished Status_OK o2 [Acceptor_Start (mkAcceptor 1)] /\
      lift (Shutdown Sample.release) o2 = Finished tt o2 [].
Proof.
  split; [reflexivity|].
  eexists _, _. split; [vm_compute; reflexivity|].
  edestruct (fun o1 t => X18_ListenAddress_after_Shutdown Sample.release Sample.object
                           o1 t Sample.at_a2 1%nat Status_OK Status_OK)
    as (_ & o2 & H1 & _ & H2 & H3 & _);
    [reflexivity|vm_compute; reflexivity|].
  exists o2. auto.
Defined.

Lemma X19_witness :
  connectivity_inv (members Sample.object) /\
  RegisterInboundSocket Sample.hash 8 Sample.socket Sample.from_a1 Sample.object =
    Finished tt Sample.object [Socket_Close Sample.socket] /\
  exists r,
    RegisterInboundSocket Sample.hash 8 Sample.socket Sample.from_a2 Sample.object =
      Finished tt (set_num_connections_accepted_ 1 Sample.object)
        [Reactor_RegisterInboundSocket r Sample.socket Sample.from_a2].
Proof.
  assert (Hinv : connectivity_inv (members Sample.object)).
  { unfold connectivity_inv. apply (bool_decide_unpack _). vm_compute. exact I. }
  split; [exact Hinv|]. split.
  - destruct (X19_RegisterInboundSocket Sample.hash 8 Sample.object Sample.socket
                Sample.from_a1 Hinv) as (Hclosed & _).
    apply Hclosed. apply (bool_decide_unpack _). vm_compute. exact I.
  - destruct (X19_RegisterInboundSocket Sample.hash 8 Sample.object Sample.socket
                Sample.from_a2 Hinv) as (_ & _ & Hgiven).
    destruct Hgiven as (r & _ & Hrun);
      [apply (bool_decide_unpack _); vm_compute; exact I
      |cbn; lia|vm_compute; discriminate|unfold INT_MAX; cbn; lia|lia|].
    exists r. exact Hrun.
Defined.

Lemma X20_witness :
  exists o' t,
    invoke_all Sample.hash Sample.release 8
      [Op_ListenAddress Sample.any_v4 1 Status_OK; Op_StartAcceptor Status_OK;
       Op_Call Call_ShutdownAcceptor; Op_ListenAddress Sample.at_a2 2 Status_OK]
      Sample.built = Finished tt o' t /\
    calls_on (mkAcceptor 1) t =
      [Acceptor_new (mkAcceptor 1); Acceptor_Listen (mkAcceptor 1) Sample.any_v4;
       Acceptor_Start (mkAcceptor 1); Collaborator (Acceptor_Shutdown (mkAcceptor 1))] /\
    acceptor_life (mkAcceptor 1) (acceptor_ (members o') = Some (mkAcceptor 1))
      (calls_on (mkAcceptor 1) t).
Proof.
  eexists _, _. split; [vm_compute; reflexivity|]. split; [vm_compute; reflexivity|].
  eapply (X20_acceptor_life Sample.hash Sample.release 8
            [Op_ListenAddress Sample.any_v4 1 Status_OK; Op_StartAcceptor Status_OK;
             Op_Call Call_ShutdownAcceptor; Op_ListenAddress Sample.at_a2 2 Status_OK]
            Sample.built); [reflexivity| |vm_compute; reflexivity].
  apply (bool_decide_unpack _). vm_compute. exact I.
Defined.

Lemma X21_witness :
  exists o' t,
    invoke_all Sample.hash Sample.release 8
      [Op_Call Call_Shutdown; Op_ListenAddress Sample.at_a2 1 Status_OK;
       Op_RegisterInboundSocket Sample.socket Sample.from_a2] Sample.object
      = Finished tt o' t /\
    name_ (members o') = "ts-1" /\
    reactors_ (members o') = [Sample.r0; Sample.r1; Sample.r2].
Proof.
  eexists _, _. split; [vm_compute; reflexivity|].
  edestruct (X21_kept_by_every_method Sample.hash Sample.release 8
               [Op_Call Call_Shutdown; Op_ListenAddress Sample.at_a2 1 Status_OK;
                Op_RegisterInboundSocket Sample.socket Sample.from_a2] Sample.object)
    as (Hname & Hrs & _); [vm_compute; reflexivity|].
  split; [exact Hname|exact Hrs].
Defined.

Lemma X22_witness :
  exists t,
    invoke Sample.hash Sample.release 8 (Op_Call (Call_QueueOutboundCall Sample.to_a2))
      Sample.object
      = Finished tt Sample.object t /\
    invoke Sample.hash Sample.release 8 (Op_Call (Call_QueueOutboundCall Sample.to_a2))
      (with_closing true Sample.object)
      = Finished tt (with_closing true Sample.object) t.
Proof.
  eexists. split; [vm_compute; reflexivity|].
  rewrite (X22_closing_read_by_Shutdown_only Sample.hash Sample.release 8
             (Op_Call (Call_QueueOutboundCall Sample.to_a2)) Sample.object true)
    by discriminate.
  vm_compute. reflexivity.
Defined.

(** ** The properties of the administration tool at work *)

Lemma X23_witness :
  Admin.GetTabletLeader "t1" Admin.OK AdminSample.located (Admin.mkTSInfoPB "" [])
  = Admin.Returned Admin.OK (Admin.mkTSInfoPB "ts-b" [Admin.mkHostPortPB "b" 9100]) [] /\
  Admin.GetTabletLeader "t1" Admin.OK AdminSample.located_ok_error (Admin.mkTSInfoPB "" [])
  = Admin.CheckFailed [] /\
  Admin.GetTabletLeader "" Admin.OK AdminSample.located_ok_error (Admin.mkTSInfoPB "" [])
  = Admin.Returned (Admin.Error Admin.NotFound "No leader replica found for tablet" "")
      (Admin.mkTSInfoPB "" []) [].
Proof.
  split; [|split].
  - destruct (X23_GetTabletLeader "t1" Admin.OK AdminSample.located
                (Admin.mkTSInfoPB "" [])) as (_ & H).
    destruct (H eq_refl) as (_ & H1). destruct (H1 eq_refl) as (_ & H2).
    destruct (H2 eq_refl) as (_ & H3). destruct (H3 _ eq_refl) as (_ & H4).
    destruct (H4 eq_refl) as (Hfound & _).
    apply (Hfound 1%nat AdminSample.replica_b); [reflexivity|reflexivity|].
    apply Forall_cons_2; [discriminate|apply Forall_nil_2].
  - destruct (X23_GetTabletLeader "t1" Admin.OK AdminSample.located_ok_error
                (Admin.mkTSInfoPB "" [])) as (_ & H).
    destruct (H eq_refl) as (H1 & _). destruct (H1 Admin.OK eq_refl) as (_ & H2).
    destruct (H2 eq_refl) as (Hcheck & _). apply Hcheck. discriminate.
  - destruct (X23_GetTabletLeader "" Admin.OK AdminSample.located_ok_error
                (Admin.mkTSInfoPB "" [])) as (_ & H).
    destruct (H eq_refl) as (H1 & _). destruct (H1 Admin.OK eq_refl) as (_ & H2).
    destruct (H2 eq_refl) as (_ & Hnone). apply Hnone. reflexivity.
Defined.

Lemma X24_witness :
  Admin.GetFirstRpcAddressForTS AdminSample.HostPortFromPB "u2" Admin.OK
    AdminSample.listed (Admin.mkHostPort "" 0)
  = Admin.Returned
      (Admin.Error Admin.NotFound
         "Server with UUID u2 has no RPC address registered with the Master" "")
      (Admin.mkHostPort "" 0) [] /\
  Admin.GetFirstRpcAddressForTS AdminSample.HostPortFromPB "u1" Admin.OK
    AdminSample.listed (Admin.mkHostPort "" 0)
  = Admin.Returned Admin.OK (Admin.mkHostPort "a" 9100) [] /\
  Admin.GetFirstRpcAddressForTS AdminSample.HostPortFromPB "u1" Admin.OK
    AdminSample.listed_ok_error (Admin.mkHostPort "" 0)
  = Admin.Returned
      (Admin.Error Admin.NotFound
         "Server with UUID u1 has no RPC address registered with the Master" "")
      (Admin.mkHostPort "" 0) [].
Proof.
  split; [|split].
  - destruct (X24_GetFirstRpcAddressForTS AdminSample.HostPortFromPB "u2" Admin.OK
                AdminSample.listed (Admin.mkHostPort "" 0)) as (_ & H).
    destruct (H eq_refl) as (_ & H1). destruct (H1 eq_refl) as (Hfirst & _).
    apply (Hfirst 1%nat (Admin.mkEntry "u2" None)); [reflexivity|reflexivity|].
    apply Forall_cons_2; [discriminate|apply Forall_nil_2].
  - destruct (X24_GetFirstRpcAddressForTS AdminSample.HostPortFromPB "u1" Admin.OK
                AdminSample.listed (Admin.mkHostPort "" 0)) as (_ & H).
    destruct (H eq_refl) as (_ & H1). destruct (H1 eq_refl) as (Hfirst & _).
    apply (Hfirst 0%nat (Admin.mkEntry "u1" (Some [Admin.mkHostPortPB "a" 9100])));
      [reflexivity|reflexivity|apply Forall_nil_2].
  - destruct (X24_GetFirstRpcAddressForTS AdminSample.HostPortFromPB "u1" Admin.OK
                AdminSample.listed_ok_error (Admin.mkHostPort "" 0)) as (_ & H).
    destruct (H eq_refl) as (H1 & _). destruct (H1 Admin.OK eq_refl) as (_ & H2).
    exact (H2 eq_refl).
Defined.


Lemma X26_witness :
  Admin.ChangeConfig AdminSample.env true "t1" "REMOVE_SERVER" "ts-a" (Some "LEARNER") =
    Admin.Returned
      (Admin.Error Admin.InvalidArgument "Unrecognized member_type" "LEARNER") tt [].
Proof.
  destruct (X26_ChangeConfig_validation AdminSample.env "t1" "REMOVE_SERVER" "ts-a"
              (Some "LEARNER")) as (_ & _ & H).
  destruct (H Admin.REMOVE_SERVER eq_refl) as (Hgiven & _); [discriminate|].
  exact (Hgiven "LEARNER" eq_refl eq_refl).
Defined.


Lemma X28_witness :
  Admin.ClusterAdminCliMain ["yb-admin"; "no_such_operation"] "m1:7100" AdminSample.offline =
    ([Admin.cerr_status "Unable to establish connection to m1:7100"
        (Admin.Error (Admin.Other 3) "timed out" "");
      Admin.ShowUsage], Admin.exit 1) /\
  (Admin.ClusterAdminCliMain ["yb-admin"; "list_tables"; "more"] "m1:7100" AdminSample.client).2
    = Admin.returns 0.
Proof.
  split.
  - destruct (X28_ClusterAdminCliMain ["yb-admin"; "no_such_operation"] "m1:7100"
                AdminSample.offline) as (Hfirst & _).
    exact (Hfirst _ _ _ _ eq_refl eq_refl eq_refl).
  - destruct (X28_ClusterAdminCliMain [] "m1:7100" AdminSample.client)
      as (_ & _ & _ & _ & _ & _ & Hextra).
    rewrite (Hextra "yb-admin" "list_tables" ["more"]); [reflexivity|].
    apply list_elem_of_here.
Defined.

Lemma X29_witness :
  Admin.ChangeConfig AdminSample.env true "t1" "ADD_SERVER" "u2" (Some "VOTER") =
    Admin.Returned
      (Admin.Error Admin.NotFound
         "Server with UUID u2 has no RPC address registered with the Master" "") tt [] /\
  Admin.ChangeConfig AdminSample.env true "t1" "ADD_SERVER" "u1" (Some "VOTER") =
    Admin.Returned
      (Admin.send_ChangeConfig AdminSample.env ("ts-b", Admin.mkSockaddr 9100) "t1"
         Admin.ADD_SERVER
         (Admin.mkRaftPeerPB "u1" (Some 1) (Some (Admin.mkHostPortPB "a" 9100))))
      tt [].
Proof.
  split.
  - destruct (X29_ChangeConfig_add_server AdminSample.env "t1" "ADD_SERVER" "u2" "VOTER" 1)
      as (Hfails & _); [reflexivity..|].
    apply (Hfails _ (Admin.mkHostPort "" 0)); [vm_compute; reflexivity|reflexivity].
  - destruct (X29_ChangeConfig_add_server AdminSample.env "t1" "ADD_SERVER" "u1" "VOTER" 1)
      as (_ & Hsent); [reflexivity..|].
    apply (Hsent (Admin.mkHostPort "a" 9100)); vm_compute; reflexivity.
Defined.
